(** * CATIR (camera trap image renamer): a shallow embedding of [catir.py]

    The development follows [src/catir.py].  Python strings are modelled as
    [string] (sequences of code points below 256), the EXIF dictionary and the
    substitution dictionary as [gmap string string], PIL and the [os] module
    as an interface ([Env]) with the calls the program makes ([os.walk],
    [os.path.isfile], [Image.open], [os.rename]) and with what [str.format]
    makes of a replacement field that is more than a name, and [main] as a
    state-passing program whose [while] loop takes fuel. *)

From Stdlib Require Import ZArith Ascii String List Bool Lia DecimalString.
From stdpp Require Import base option list gmap strings sorting.

Local Open Scope Z_scope.

(** ** The Python primitives used by [catir.py] *)

Module Py.

(** The exceptions that can escape from [main]. *)
Inductive exn := IndexError | ValueError | KeyError | AttributeError | TypeError.

(** Result of an expression that may raise. *)
Inductive res (A : Type) :=
| Val (a : A)
| Exn (e : exn).
Arguments Val {A} a.
Arguments Exn {A} e.

Definition code (c : ascii) : nat := nat_of_ascii c.

(** [\d] and the digits accepted by [int]: below code point 256 these are
    exactly [0-9]. *)
Definition is_digit (c : ascii) : bool :=
  (48 <=? code c)%nat && (code c <=? 57)%nat.

Definition digit_val (c : ascii) : Z := Z.of_nat (code c - 48).

(** [str.isspace] below code point 256. *)
Definition is_space (c : ascii) : bool :=
  ((9 <=? code c)%nat && (code c <=? 13)%nat)
  || ((28 <=? code c)%nat && (code c <=? 32)%nat)
  || (code c =? 133)%nat || (code c =? 160)%nat.

Fixpoint lstrip (s : string) : string :=
  match s with
  | String c s' => if is_space c then lstrip s' else s
  | EmptyString => EmptyString
  end.

Definition rstrip (s : string) : string := String.rev (lstrip (String.rev s)).

(** [s.strip()] *)
Definition strip (s : string) : string := rstrip (lstrip s).

(** [s.startswith(p)] *)
Definition startswith (s p : string) : bool := String.prefix p s.

Definition len (s : string) : nat := String.length s.

(** [s[:n]] *)
Fixpoint take (n : nat) (s : string) : string :=
  match n, s with
  | S n', String c s' => String c (take n' s')
  | _, _ => EmptyString
  end.

Fixpoint drop (n : nat) (s : string) : string :=
  match n, s with
  | S n', String _ s' => drop n' s'
  | _, _ => s
  end.

(** [s[-n:]] for [n > 0] *)
Definition take_last (n : nat) (s : string) : string := drop (len s - n) s.

(** [s.split(sep)] for a one-character separator. *)
Fixpoint split_go (sep : ascii) (cur : string) (s : string) : list string :=
  match s with
  | EmptyString => [String.rev cur]
  | String c s' =>
      if Ascii.eqb c sep then String.rev cur :: split_go sep EmptyString s'
      else split_go sep (String c cur) s'
  end.

Definition split (sep : ascii) (s : string) : list string :=
  split_go sep EmptyString s.

(** [s.split(sep, 1)]: at most one cut, at the first separator. *)
Fixpoint split1_go (sep : ascii) (cur : string) (s : string) : list string :=
  match s with
  | EmptyString => [String.rev cur]
  | String c s' =>
      if Ascii.eqb c sep then [String.rev cur; s']
      else split1_go sep (String c cur) s'
  end.

Definition split1 (sep : ascii) (s : string) : list string :=
  split1_go sep EmptyString s.

(** [l[-k]] for [k > 0]: [IndexError] when the list has fewer than [k]
    elements. *)
Definition index_from_end {A : Type} (l : list A) (k : nat) : res A :=
  if (length l <? k)%nat then Exn IndexError
  else match l !! (length l - k)%nat with
       | Some x => Val x
       | None => Exn IndexError
       end.

(** [l[0]] *)
Definition index0 {A : Type} (l : list A) : res A :=
  match l with
  | x :: _ => Val x
  | [] => Exn IndexError
  end.

(** The white space [int] passes over at both ends of its argument.  It is
    not that of [strip]: [int] reads the text as C does (tab to carriage
    return, and the space), after turning the white space beyond ASCII (code
    points 133 and 160, below 256) into spaces; the separators 28 to 31 are
    not white space for it. *)
Definition is_int_space (c : ascii) : bool :=
  ((9 <=? code c)%nat && (code c <=? 13)%nat)
  || (code c =? 32)%nat || (code c =? 133)%nat || (code c =? 160)%nat.

Fixpoint int_lstrip (s : string) : string :=
  match s with
  | String c s' => if is_int_space c then int_lstrip s' else s
  | EmptyString => EmptyString
  end.

Definition int_strip (s : string) : string :=
  String.rev (int_lstrip (String.rev (int_lstrip s))).

(** [int(s)] in base 10: surrounding white space is ignored, one sign is
    allowed, then digits, single underscores allowed between digits.  (The
    program passes two characters; the limit Python puts on the number of
    digits is far.) *)
Fixpoint int_digits (acc : Z) (prev_digit : bool) (s : string) : option Z :=
  match s with
  | EmptyString => if prev_digit then Some acc else None
  | String c s' =>
      if is_digit c then int_digits (10 * acc + digit_val c) true s'
      else if Ascii.eqb c "_" then
        if prev_digit then int_digits acc false s' else None
      else None
  end.

Definition int (s : string) : res Z :=
  let body (t : string) :=
    match t with
    | String c _ => if is_digit c then int_digits 0 false t else None
    | EmptyString => None
    end in
  let parsed :=
    match int_strip s with
    | String "-" t => Z.opp <$> body t
    | String "+" t => body t
    | t => body t
    end in
  match parsed with
  | Some z => Val z
  | None => Exn ValueError
  end.

(** [str(n)] for an integer. *)
Definition str (n : Z) : string := NilZero.string_of_int (Z.to_int n).

Fixpoint zeros (n : nat) : string :=
  match n with
  | O => EmptyString
  | S n' => String "0" (zeros n')
  end.

(** [s.zfill(width)]: zeros go after a leading sign. *)
Definition zfill (width : nat) (s : string) : string :=
  if (width <=? len s)%nat then s
  else match s with
       | String "-" t => String "-" (zeros (width - len s) +:+ t)
       | String "+" t => String "+" (zeros (width - len s) +:+ t)
       | _ => zeros (width - len s) +:+ s
       end.

(** ['{0:0{1}d}'.format(n, width)]: sign-aware zero padding of an integer,
    which for an integer is what [zfill] does to its decimal form. *)
Definition format_0d (n : Z) (width : nat) : string := zfill width (str n).

(** [posixpath.join(a, b)] *)
Definition path_join (a b : string) : string :=
  if startswith b "/" then b
  else if (len a =? 0)%nat then b
  else if Ascii.eqb (match String.get (len a - 1) a with Some c => c | None => "/"%char end) "/"
       then a +:+ b
       else a +:+ "/" +:+ b.

(** [posixpath.basename(p)]: what follows the last slash. *)
Definition basename (p : string) : string :=
  match index_from_end (split "/" p) 1 with
  | Val x => x
  | Exn _ => EmptyString
  end.

(** A name with an embedded NUL cannot be passed to the system. *)
Fixpoint has_nul (s : string) : bool :=
  match s with
  | EmptyString => false
  | String c s' => (code c =? 0)%nat || has_nul s'
  end.

(** [str.format] with keyword arguments only.  The template is read from
    left to right: [{{] and [}}] are literal braces, a lone [}] is a
    [ValueError], and [{] opens a replacement field, which is read to its
    end and then rendered, before the text after it is looked at.

    A field is a name, then [!] and a conversion character, then [:] and a
    format specification, the last two being optional.  In the name a [[]
    hides everything up to the next []], and a [{] is an error; in the
    format specification braces nest.  A field that does not end is a
    [ValueError]. *)
Inductive mode :=
| Text
| Name (name : string)                   (* in a field name; what is read, reversed *)
| Index (name : string)                  (* after a [ of the name, up to the next ] *)
| Conv (name : string)                   (* after the ! *)
| ConvEnd (name : string) (conversion : ascii)
| Spec (name : string) (conversion : option ascii) (spec : string) (depth : nat).

(** What the interpreter makes of a replacement field that is more than a
    name: one with an attribute or an index in its name ([.], [[]), with a
    conversion or with a format specification that is not empty.  The rules
    for these are long, and the text of a method holds an address; the
    rendering of such a field (name, conversion, format specification,
    keyword arguments) is taken from outside. *)
Class Formatter :=
  render_field : string -> option ascii -> string -> gmap string string -> res string.

Fixpoint all_digits (s : string) : bool :=
  match s with
  | EmptyString => true
  | String c s' => is_digit c && all_digits s'
  end.

Fixpoint digits_value (acc : Z) (s : string) : Z :=
  match s with
  | EmptyString => acc
  | String c s' => digits_value (10 * acc + digit_val c) s'
  end.

(** The largest index ([sys.maxsize], on a 64-bit interpreter). *)
Definition maxsize : Z := 2 ^ 63 - 1.

(** A field that is a name and no more.  A name of digits, or no name,
    refers to a positional argument, of which there are none
    ([IndexError]; a number beyond [maxsize] is a [ValueError]); any other
    name is looked up in the keyword arguments ([KeyError] when absent). *)
Definition lookup_field (kwargs : gmap string string) (name : string) : res string :=
  if all_digits name then
    if maxsize <? digits_value 0 name then Exn ValueError else Exn IndexError
  else match kwargs !! name with
       | Some v => Val v
       | None => Exn KeyError
       end.

Fixpoint plain_name (name : string) : bool :=
  match name with
  | EmptyString => true
  | String c name' => negb (Ascii.eqb c "." || Ascii.eqb c "[")%char && plain_name name'
  end.

Definition render `{Formatter} (kwargs : gmap string string) (name : string)
    (conversion : option ascii) (spec : string) : res string :=
  match conversion, spec with
  | None, EmptyString =>
      if plain_name name then lookup_field kwargs name
      else render_field name conversion spec kwargs
  | _, _ => render_field name conversion spec kwargs
  end.

(** The rendered field, then the rest of the template. *)
Definition followed_by (field rest : res string) : res string :=
  match field with
  | Val v =>
      match rest with
      | Val r => Val (v +:+ r)
      | Exn e => Exn e
      end
  | Exn e => Exn e
  end.

Fixpoint format_go `{Formatter} (kwargs : gmap string string) (m : mode)
    (s : string) : res string :=
  match m, s with
  | Text, EmptyString => Val EmptyString
  | Text, String "{" (String "{" s') =>
      match format_go kwargs Text s' with
      | Val r => Val (String "{" r)
      | Exn e => Exn e
      end
  | Text, String "}" (String "}" s') =>
      match format_go kwargs Text s' with
      | Val r => Val (String "}" r)
      | Exn e => Exn e
      end
  | Text, String "{" s' => format_go kwargs (Name EmptyString) s'
  | Text, String "}" _ => Exn ValueError
  | Text, String c s' =>
      match format_go kwargs Text s' with
      | Val r => Val (String c r)
      | Exn e => Exn e
      end
  | _, EmptyString => Exn ValueError
  | Name f, String c s' =>
      if Ascii.eqb c "}" then
        followed_by (render kwargs (String.rev f) None EmptyString)
                    (format_go kwargs Text s')
      else if Ascii.eqb c "{" then Exn ValueError
      else if Ascii.eqb c "[" then format_go kwargs (Index (String c f)) s'
      else if Ascii.eqb c ":" then format_go kwargs (Spec f None EmptyString 0) s'
      else if Ascii.eqb c "!" then format_go kwargs (Conv f) s'
      else format_go kwargs (Name (String c f)) s'
  | Index f, String c s' =>
      if Ascii.eqb c "]" then format_go kwargs (Name (String c f)) s'
      else format_go kwargs (Index (String c f)) s'
  | Conv f, String c s' => format_go kwargs (ConvEnd f c) s'
  | ConvEnd f conversion, String c s' =>
      if Ascii.eqb c "}" then
        followed_by (render kwargs (String.rev f) (Some conversion) EmptyString)
                    (format_go kwargs Text s')
      else if Ascii.eqb c ":" then
        format_go kwargs (Spec f (Some conversion) EmptyString 0) s'
      else Exn ValueError
  | Spec f conversion spec depth, String c s' =>
      if Ascii.eqb c "}" then
        match depth with
        | O => followed_by (render kwargs (String.rev f) conversion (String.rev spec))
                           (format_go kwargs Text s')
        | S depth' => format_go kwargs (Spec f conversion (String c spec) depth') s'
        end
      else if Ascii.eqb c "{" then
        format_go kwargs (Spec f conversion (String c spec) (S depth)) s'
      else format_go kwargs (Spec f conversion (String c spec) depth) s'
  end.

Definition format `{Formatter} (template : string) (kwargs : gmap string string)
    : res string :=
  format_go kwargs Text template.

(** [sorted(names)]: strings are ordered by code point. *)
Definition sorted (l : list string) : list string := merge_sort String.le l.

End Py.

(** ** The regular expression of line 191

    [re.search] with a pattern made of digits, optional digits (greedy),
    literal characters and named groups.  The matcher backtracks the way
    Python's does: an optional digit is first taken, and given back when the
    rest of the pattern then fails. *)

Module Re.

Inductive item :=
| Digit                    (* \d  *)
| OptDigit                 (* \d? *)
| Lit (c : ascii)
| Open                     (* (?P<name>  *)
| Close (name : string).   (* )          *)

(** [match_here anchored p s cur groups]: match [p] at the start of [s];
    [cur] is the text of the group being read, reversed.  With
    [anchored = true] the whole of [s] must be consumed. *)
Fixpoint match_here (anchored : bool) (p : list item) (s : string)
    (cur : string) (groups : gmap string string) : option (gmap string string) :=
  match p with
  | [] => if anchored then (match s with EmptyString => Some groups | _ => None end)
          else Some groups
  | Digit :: p' =>
      match s with
      | String c s' =>
          if Py.is_digit c then match_here anchored p' s' (String c cur) groups else None
      | EmptyString => None
      end
  | OptDigit :: p' =>
      match s with
      | String c s' =>
          if Py.is_digit c then
            match match_here anchored p' s' (String c cur) groups with
            | Some g => Some g
            | None => match_here anchored p' s cur groups
            end
          else match_here anchored p' s cur groups
      | EmptyString => match_here anchored p' s cur groups
      end
  | Lit a :: p' =>
      match s with
      | String c s' =>
          if Ascii.eqb c a then match_here anchored p' s' cur groups else None
      | EmptyString => None
      end
  | Open :: p' => match_here anchored p' s EmptyString groups
  | Close name :: p' =>
      match_here anchored p' s EmptyString (<[name := String.rev cur]> groups)
  end.

(** [re.search(p, s).groupdict()], or [None]: the leftmost match. *)
Fixpoint search (p : list item) (s : string) : option (gmap string string) :=
  match match_here false p s EmptyString ∅ with
  | Some g => Some g
  | None =>
      match s with
      | EmptyString => None
      | String _ s' => search p s'
      end
  end.

(** [re.fullmatch(p, s)] *)
Definition fullmatch (p : list item) (s : string) : option (gmap string string) :=
  match_here true p s EmptyString ∅.

(** The language of a pattern. *)
Inductive matches : list item -> string -> Prop :=
| m_nil : matches [] EmptyString
| m_digit c p w : Py.is_digit c = true -> matches p w -> matches (Digit :: p) (String c w)
| m_opt_some c p w : Py.is_digit c = true -> matches p w -> matches (OptDigit :: p) (String c w)
| m_opt_none p w : matches p w -> matches (OptDigit :: p) w
| m_lit c p w : matches p w -> matches (Lit c :: p) (String c w)
| m_open p w : matches p w -> matches (Open :: p) w
| m_close n p w : matches p w -> matches (Close n :: p) w.

(** The same with the groups: [captures p cur g w g'] when [w] is in the
    language of [p] and reading it, from the group text [cur] (reversed) and
    the groups [g], leaves the groups [g']. *)
Inductive captures : list item -> string -> gmap string string ->
                     string -> gmap string string -> Prop :=
| c_nil cur g : captures [] cur g EmptyString g
| c_digit c p cur g w g' :
    Py.is_digit c = true -> captures p (String c cur) g w g' ->
    captures (Digit :: p) cur g (String c w) g'
| c_opt_some c p cur g w g' :
    Py.is_digit c = true -> captures p (String c cur) g w g' ->
    captures (OptDigit :: p) cur g (String c w) g'
| c_opt_none p cur g w g' :
    captures p cur g w g' -> captures (OptDigit :: p) cur g w g'
| c_lit c p cur g w g' :
    captures p cur g w g' -> captures (Lit c :: p) cur g (String c w) g'
| c_open p cur g w g' :
    captures p EmptyString g w g' -> captures (Open :: p) cur g w g'
| c_close n p cur g w g' :
    captures p EmptyString (<[n := String.rev cur]> g) w g' ->
    captures (Close n :: p) cur g w g'.

Definition group (name : string) (body : list item) : list item :=
  Open :: body ++ [Close name].

End Re.

(** The pattern of lines 191-192:
    [(?P<YYYY>\d\d\d?\d?):(?P<MM>\d\d?):(?P<DD>\d\d?) (?P<hh>\d\d?):(?P<mm>\d\d?):(?P<ss>\d\d?)] *)
Definition timestamp_re : list Re.item :=
  Re.group "YYYY" [Re.Digit; Re.Digit; Re.OptDigit; Re.OptDigit] ++ [Re.Lit ":"] ++
  Re.group "MM" [Re.Digit; Re.OptDigit] ++ [Re.Lit ":"] ++
  Re.group "DD" [Re.Digit; Re.OptDigit] ++ [Re.Lit " "] ++
  Re.group "hh" [Re.Digit; Re.OptDigit] ++ [Re.Lit ":"] ++
  Re.group "mm" [Re.Digit; Re.OptDigit] ++ [Re.Lit ":"] ++
  Re.group "ss" [Re.Digit; Re.OptDigit].

(** The grammar as the specification words it:
    [\d{1,4}:\d{1,2}:\d{1,2} \d{1,2}:\d{1,2}:\d{1,2}] with the same groups. *)
Definition spec_timestamp_grammar : list Re.item :=
  Re.group "YYYY" [Re.Digit; Re.OptDigit; Re.OptDigit; Re.OptDigit] ++ [Re.Lit ":"] ++
  Re.group "MM" [Re.Digit; Re.OptDigit] ++ [Re.Lit ":"] ++
  Re.group "DD" [Re.Digit; Re.OptDigit] ++ [Re.Lit " "] ++
  Re.group "hh" [Re.Digit; Re.OptDigit] ++ [Re.Lit ":"] ++
  Re.group "mm" [Re.Digit; Re.OptDigit] ++ [Re.Lit ":"] ++
  Re.group "ss" [Re.Digit; Re.OptDigit].

(** ** The environment: PIL and the [os] module *)

(** What [Image.open] returns, as far as the program looks at it:
    [img._getexif()] as a list of (tag id, value) pairs, or [None] when the
    image has no such method or it returns [None] (both end in
    [AttributeError]), and [img.format].  PIL is taken to open a file or
    raise [OSError], and to read the EXIF block without an exception of its
    own. *)
Record image := Image {
  img_getexif : option (list (Z * string));   (* values are taken as strings *)
  img_format : string;
}.

(** One triple yielded by [os.walk]. *)
Record listing := Listing {
  l_root : string;
  l_dirs : list string;
  l_files : list string;
}.

(** The calls the program makes to the outside.  [image_open] is [None] when
    [Image.open] raises [OSError]; [rename] is [None] when [os.rename]
    raises [OSError].  [walk fs top] is what [os.walk(top)] yields when
    every directory is listed as [fs] has it.  [env_formatter] is the
    interpreter's rendering of the replacement fields that [Py.format] does
    not render itself. *)
Class Env (FS : Type) := {
  env_formatter :: Py.Formatter;
  TAGS : gmap Z string;
  abspath : string -> string;
  walk : FS -> string -> list listing;
  isfile : FS -> string -> bool;
  image_open : FS -> string -> option image;
  rename : FS -> string -> string -> option FS;
}.

(** The command line, after [argparse] (lines 82-99). *)
Record args := Args {
  sequence : Z;
  recursive : bool;
  hidden : bool;
  test : bool;
  arg_deployment_name : option string;
  timestamp_format : string;
  verbose : bool;
  quiet : bool;
  input : list string;
}.

Inductive exif_result :=
| NotAnImageFile
| InvalidExifData
| ExifData (d : gmap string string).

(** The variables of [main] that live across files, directories and input
    paths, with the file system and standard output. *)
Record state (FS : Type) := State {
  fs : FS;
  deployment_name : option string;
  skipped_files : list (string * string);
  stdout : list string;
}.
Arguments State {FS}.
Arguments fs {FS}.
Arguments deployment_name {FS}.
Arguments skipped_files {FS}.
Arguments stdout {FS}.

(** How a piece of [main] ends: normally, by an uncaught exception (with the
    state reached), or not within the fuel given to the [while] loop. *)
Inductive outcome (FS A : Type) :=
| Done (a : A)
| Raised (e : Py.exn) (st : state FS)
| OutOfFuel.
Arguments Done {FS A}.
Arguments Raised {FS A}.
Arguments OutOfFuel {FS A}.

Definition default_timestamp_format : string := "{YYYY}-{MM}-{DD}_{hh}-{mm}-{ss}".

Definition nl : string := String "010" EmptyString.
Definition tab : string := String "009" EmptyString.

(** [sep.join(l)] *)
Fixpoint str_join (sep : string) (l : list string) : string :=
  match l with
  | [] => EmptyString
  | [x] => x
  | x :: l' => x +:+ sep +:+ str_join sep l'
  end.

(** Truth value of [d.get(k)]: [None] and the empty string are false. *)
Definition truthy (o : option string) : bool :=
  match o with
  | Some s => negb (String.eqb s EmptyString)
  | None => false
  end.

(** [x or y] *)
Definition py_or (x y : option string) : option string :=
  if truthy x then x else y.

(** What lines 166-231 decide for one file: it is skipped ([continue] before
    the name is built), or a rename is planned. *)
Inductive plan (FS : Type) :=
| Skipped (st : state FS) (seq : Z)
| Planned (old_file_name new_file_name new_file_name_complete : string)
          (st : state FS) (seq : Z).
Arguments Skipped {FS}.
Arguments Planned {FS}.

Section Main.
Context {FS : Type} `{!Env FS}.

Definition print (line : string) (st : state FS) : state FS :=
  State (fs st) (deployment_name st) (skipped_files st) (stdout st ++ [line]).

(** [skipped_files.append((file, reason))] *)
Definition skip (file reason : string) (st : state FS) : state FS :=
  State (fs st) (deployment_name st) (skipped_files st ++ [(file, reason)]) (stdout st).

Definition set_deployment_name (d : string) (st : state FS) : state FS :=
  State (fs st) (Some d) (skipped_files st) (stdout st).

Definition set_fs (fs' : FS) (st : state FS) : state FS :=
  State fs' (deployment_name st) (skipped_files st) (stdout st).

(** [get_exif_data], lines 104-131. *)
Definition get_exif_data (fs0 : FS) (img_file : string) : exif_result :=
  match image_open fs0 img_file with
  | None => NotAnImageFile
  | Some img =>
      match img_getexif img with
      | None => InvalidExifData
      | Some items =>
          let exif_data :=
            foldl (fun (d : gmap string string) '(k, v) =>
                     match TAGS !! k with
                     | Some name => <[name := v]> d
                     | None => d
                     end) ∅ items in
          ExifData (<["format" := img_format img]> exif_data)
      end
  end.

(** Lines 181-182. *)
Definition select_timestamp (exif_data : gmap string string) : option string :=
  py_or (exif_data !! "DateTimeOriginal") (exif_data !! "DateTimeDigitized").

(** Lines 190-193. *)
Definition parse_timestamp (img_timestamp : string) : option (gmap string string) :=
  Re.search timestamp_re (Py.strip img_timestamp).

(** Lines 201-208: the dictionary literal, then [update] with the groups of
    the match, which therefore win over equal keys. *)
Definition new_image_data_of (exif_data groups : gmap string string)
    (root : string) (seq : Z) (seq_width : nat) : gmap string string :=
  groups ∪
  <["Artist" := default EmptyString (exif_data !! "Artist")]>
  (<["Make" := default EmptyString (exif_data !! "Make")]>
  (<["Model" := default EmptyString (exif_data !! "Model")]>
  (<["Folder" := Py.basename root]>
  (<["Seq" := Py.format_0d seq seq_width]>
  (<["ext" := default EmptyString (exif_data !! "format")]> ∅))))).

(** One pass through the body of the [while] loop, lines 223-228: the next
    name to try. *)
Definition next_name (new_image_data : gmap string string) (new_file_name : string)
    : Py.res string :=
  match Py.index0 (Py.split1 "." new_file_name) with
  | Py.Exn e => Py.Exn e
  | Py.Val stem =>
      match Py.int (Py.take_last 2 stem) with
      | Py.Exn e => Py.Exn e
      | Py.Val seconds =>
          let rest_of_args := Py.take 17 stem in
          let seconds := seconds + 1 in
          Py.format (rest_of_args +:+ Py.zfill 2 (Py.str seconds) +:+ ".{ext}")
                    new_image_data
      end
  end.

Definition complete_name (root deployment : string) (new_file_name : string) : string :=
  Py.path_join root (deployment +:+ "_" +:+ new_file_name).

(** The [while] loop of lines 220-231.  It returns the final
    [new_file_name] and [new_file_name_complete]. *)
Fixpoint resolve_collision (fuel : nat) (root deployment : string)
    (new_image_data : gmap string string) (new_file_name : string)
    (st : state FS) : outcome FS (string * string * state FS) :=
  let new_file_name_complete := complete_name root deployment new_file_name in
  if isfile (fs st) new_file_name_complete then
    match fuel with
    | O => OutOfFuel
    | S fuel' =>
        let st := print ("Duplicate file found: " +:+ new_file_name_complete) st in
        match next_name new_image_data new_file_name with
        | Py.Exn e => Raised e st
        | Py.Val new_file_name' =>
            let st := print ("Renaming file to: "
                             +:+ complete_name root deployment new_file_name') st in
            resolve_collision fuel' root deployment new_image_data new_file_name' st
        end
    end
  else Done (new_file_name, new_file_name_complete, st).

(** Lines 215-216. *)
Definition derive_deployment_name (current : option string)
    (new_file_name_with_path : string) : Py.res string :=
  match current with
  | Some d =>
      if String.eqb d EmptyString
      then Py.index_from_end (Py.split "/" new_file_name_with_path) 5
      else Py.Val d
  | None => Py.index_from_end (Py.split "/" new_file_name_with_path) 5
  end.

(** Lines 242-246. *)
Definition report (a : args) (f old_file_name new_file_name new_file_name_complete : string)
    (st : state FS) : state FS :=
  if verbose a then print (old_file_name +:+ " --> " +:+ new_file_name_complete) st
  else if negb (quiet a) then print (f +:+ " --> " +:+ new_file_name) st
  else st.

(** Lines 166-231 of the loop over the files of a directory: the checks, the
    candidate name, the deployment name and the collision loop.  [seq] is
    the next value of the counter; the result carries the state and the
    counter after these lines. *)
Definition plan_file (a : args) (fuel : nat) (root : string) (seq_width : nat)
    (f : string) (st : state FS) (seq : Z) : outcome FS (plan FS) :=
  if negb (hidden a) && Py.startswith f "." then Done (Skipped st seq)
  else
    let old_file_name := Py.path_join root f in
    match get_exif_data (fs st) old_file_name with
    | NotAnImageFile => Done (Skipped st seq)
    | InvalidExifData => Done (Skipped (skip old_file_name "No EXIF data found" st) seq)
    | ExifData exif_data =>
        let img_timestamp := select_timestamp exif_data in
        if negb (truthy img_timestamp) then
          Done (Skipped (skip old_file_name "No timestamp found in image EXIF" st) seq)
        else
          match parse_timestamp (default EmptyString img_timestamp) with
          | None =>
              Done (Skipped (skip old_file_name "Timestamp not in correct format" st) seq)
          | Some groups =>
              let new_image_data :=
                new_image_data_of exif_data groups root seq seq_width in
              let seq := seq + 1 in
              match Py.format (timestamp_format a +:+ ".{ext}") new_image_data with
              | Py.Exn e => Raised e st
              | Py.Val new_file_name =>
                  let new_file_name_with_path := Py.path_join root new_file_name in
                  match derive_deployment_name (deployment_name st)
                          new_file_name_with_path with
                  | Py.Exn e => Raised e st
                  | Py.Val d =>
                      let st := set_deployment_name d st in
                      match resolve_collision fuel root d new_image_data
                              new_file_name st with
                      | Done (new_file_name, new_file_name_complete, st) =>
                          Done (Planned old_file_name new_file_name
                                  new_file_name_complete st seq)
                      | Raised e st => Raised e st
                      | OutOfFuel => OutOfFuel
                      end
                  end
              end
          end
    end.

(** Lines 233-246: the rename, unless in test mode, and the progress line,
    for names that [os.rename] passes to the system; [process_file] looks at
    the others first (see [rename_refuses]). *)
Definition commit (a : args) (f : string) (p : plan FS) : state FS * Z :=
  match p with
  | Skipped st seq => (st, seq)
  | Planned old_file_name new_file_name new_file_name_complete st seq =>
      if negb (test a) then
        match rename (fs st) old_file_name new_file_name_complete with
        | None => (skip old_file_name "Failed to rename file" st, seq)
        | Some fs' =>
            (report a f old_file_name new_file_name new_file_name_complete
               (set_fs fs' st), seq)
        end
      else
        (report a f old_file_name new_file_name new_file_name_complete st, seq)
  end.

(** [os.rename] turns its two arguments into C strings before it asks the
    system: a name with an embedded NUL is refused with [ValueError], which
    is not an [OSError] and so passes the [except] of line 237.  (Such a name
    can come from an EXIF field that the template uses; [os.path.isfile]
    answers [False] for it.) *)
Definition rename_refuses (a : args) (p : plan FS) : option (state FS) :=
  match p with
  | Skipped _ _ => None
  | Planned old_file_name _ new_file_name_complete st _ =>
      if negb (test a) && (Py.has_nul old_file_name || Py.has_nul new_file_name_complete)
      then Some st else None
  end.

(** The body of the loop over the files of a directory, lines 166-246. *)
Definition process_file (a : args) (fuel : nat) (root : string) (seq_width : nat)
    (f : string) (st : state FS) (seq : Z) : outcome FS (state FS * Z) :=
  match plan_file a fuel root seq_width f st seq with
  | Done p =>
      match rename_refuses a p with
      | Some st => Raised Py.ValueError st
      | None => Done (commit a f p)
      end
  | Raised e st => Raised e st
  | OutOfFuel => OutOfFuel
  end.

(** The loop [for f in sorted(files)], given the files in the order of
    iteration. *)
Fixpoint process_files (a : args) (fuel : nat) (root : string) (seq_width : nat)
    (files : list string) (st : state FS) (seq : Z) : outcome FS (state FS * Z) :=
  match files with
  | [] => Done (st, seq)
  | f :: files' =>
      match process_file a fuel root seq_width f st seq with
      | Done (st', seq') => process_files a fuel root seq_width files' st' seq'
      | Raised e st' => Raised e st'
      | OutOfFuel => OutOfFuel
      end
  end.

(** Lines 156-249: one directory that is not skipped. *)
Definition process_dir (a : args) (fuel : nat) (l : listing) (st : state FS)
    : outcome FS (state FS) :=
  let seq := sequence a in
  let seq_width := Py.len (Py.str (Z.of_nat (length (l_files l)))) in
  let st := print ("Processing folder: " +:+ l_root l) st in
  match process_files a fuel (l_root l) seq_width (Py.sorted (l_files l)) st seq with
  | Done (st, _) => Done (print EmptyString st)
  | Raised e st => Raised e st
  | OutOfFuel => OutOfFuel
  end.

(** The loop over [os.walk(input_path)], lines 151-253, with its
    [continue] (line 154) and [break] (line 253).  [os.walk] is a generator:
    it lists a directory when the loop comes to it, after the renames made
    in the directories before it.  So the loop, at the [i]-th triple of the
    walk, takes that triple from the file system of the moment.  It has at
    most [n] triples to go, as many as the walk had when it started: the
    program renames regular files only, and the directories stay as they
    are. *)
Fixpoint walk_loop (a : args) (fuel : nat) (input_path : string) (i n : nat)
    (st : state FS) : outcome FS (state FS) :=
  match n with
  | O => Done st
  | S n' =>
      match walk (fs st) input_path !! i with
      | None => Done st
      | Some l =>
          if negb (hidden a) && Py.startswith (Py.basename (l_root l)) "."
          then walk_loop a fuel input_path (S i) n' st
          else
            match process_dir a fuel l st with
            | Done st' =>
                if negb (recursive a) then Done st'
                else walk_loop a fuel input_path (S i) n' st'
            | Raised e st' => Raised e st'
            | OutOfFuel => OutOfFuel
            end
      end
  end.

(** The loop over the input paths, line 150. *)
Fixpoint input_loop (a : args) (fuel : nat) (input_paths : list string) (st : state FS)
    : outcome FS (state FS) :=
  match input_paths with
  | [] => Done st
  | input_path :: rest =>
      match walk_loop a fuel input_path 0 (length (walk (fs st) input_path)) st with
      | Done st' => input_loop a fuel rest st'
      | Raised e st' => Raised e st'
      | OutOfFuel => OutOfFuel
      end
  end.

(** Lines 256-259. *)
Definition print_skipped (a : args) (st : state FS) : state FS :=
  match skipped_files st with
  | [] => st
  | _ =>
      if negb (quiet a) then
        print (nl +:+ "Skipped Files:" +:+ nl +:+ tab +:+
               str_join (nl +:+ tab)
                 (map (fun '(file, error) => file +:+ " (" +:+ error +:+ ")")
                      (skipped_files st))) st
      else st
  end.

(** [main], lines 134-259, started on the file system [fs0]. *)
Definition main (a : args) (fuel : nat) (fs0 : FS) : outcome FS (state FS) :=
  let st := State fs0 (arg_deployment_name a) [] [] in
  let input_paths := map abspath (input a) in
  match input_loop a fuel input_paths st with
  | Done st => Done (print_skipped a st)
  | Raised e st => Raised e st
  | OutOfFuel => OutOfFuel
  end.

End Main.

(** ** A concrete environment

    Regular files with what PIL makes of them ([None]: not an image),
    directories (renaming a file onto one raises [IsADirectoryError], an
    [OSError]), and the directory trees [os.walk] finds under the input
    paths, which a rename keeps in step with the files. *)

#[warnings="-register-all"]
Inductive tree := Tree (name : string) (files : list string) (subdirs : list tree).

Definition tree_name (t : tree) : string :=
  match t with Tree name _ _ => name end.

(** [os.walk(top)], top-down, for the directory [t] found at path [top]:
    the directory itself, then each of its subdirectories in turn. *)
Fixpoint walk_tree (top : string) (t : tree) : list listing :=
  match t with
  | Tree _ files subdirs =>
      Listing top (map tree_name subdirs) files ::
      flat_map (fun t' => walk_tree (Py.path_join top (tree_name t')) t') subdirs
  end.

Record simple_fs := SimpleFS {
  sf_files : gmap string (option image);
  sf_dirs : list string;
  sf_trees : gmap string tree;
}.

(** The entries of [PIL.ExifTags.TAGS] for the fields the program reads. *)
Definition sample_TAGS : gmap Z string :=
  <[36867 := "DateTimeOriginal"]> (<[36868 := "DateTimeDigitized"]>
  (<[315 := "Artist"]> (<[271 := "Make"]> (<[272 := "Model"]> ∅)))).

(** What a rename does to the directory [t] found at path [top]: the entry
    of [src] goes, and [dst] is entered in the directory it names, unless it
    is there already (the file of that name is replaced). *)
Fixpoint tree_rename (top src dst : string) (t : tree) : tree :=
  match t with
  | Tree name files subdirs =>
      let kept := filter (fun f => negb (String.eqb (Py.path_join top f) src)) files in
      let entry := Py.basename dst in
      Tree name
        (if String.eqb (Py.path_join top entry) dst && negb (existsb (String.eqb entry) kept)
         then kept ++ [entry] else kept)
        (map (fun t' => tree_rename (Py.path_join top (tree_name t')) src dst t') subdirs)
  end.

(** The directories of the trees, by their paths. *)
Definition tree_dirs (s : simple_fs) : list string :=
  flat_map (fun '(top, t) => map l_root (walk_tree top t)) (map_to_list (sf_trees s)).

(** [os.rename(src, dst)] for a regular file [src].  It fails, with an
    [OSError], when [src] does not exist, when [dst] is a directory, and
    when [dst] does not name an entry of a directory that exists. *)
Definition simple_rename (s : simple_fs) (src dst : string) : option simple_fs :=
  match sf_files s !! src with
  | None => None
  | Some content =>
      if bool_decide (dst ∈ sf_dirs s ++ tree_dirs s) then None
      else if String.eqb (Py.basename dst) EmptyString
              || negb (existsb (fun top => String.eqb (Py.path_join top (Py.basename dst)) dst)
                               (tree_dirs s))
      then None
      else Some (SimpleFS (<[dst := content]> (delete src (sf_files s)))
                          (sf_dirs s)
                          (map_imap (fun top t => Some (tree_rename top src dst t))
                                    (sf_trees s)))
  end.

(** The renderer of fields with attributes, indexes, conversions or format
    specifications is a stand-in here: the templates of the scenarios, and
    the names they lead to, hold plain names only, and it is never
    consulted. *)
#[export] Instance simple_env : Env simple_fs := {|
  env_formatter := fun _ _ _ _ => Py.Exn Py.ValueError;
  TAGS := sample_TAGS;
  abspath := fun p => p;
  walk := fun s top =>
    match sf_trees s !! top with
    | Some t => walk_tree top t
    | None => []
    end;
  isfile := fun s p => bool_decide (is_Some (sf_files s !! p));
  image_open := fun s p => default None (sf_files s !! p);
  rename := simple_rename;
|}.

(** A JPEG whose EXIF block holds the given (tag id, value) pairs. *)
Definition jpeg (items : list (Z * string)) : option image :=
  Some (Image (Some items) "JPEG").

(** A JPEG taken at the given time. *)
Definition photo (timestamp : string) : option image := jpeg [(36867, timestamp)].

(** ** Notions used in the statements *)

(** The hidden-file test of line 167. *)
Definition hidden_skip (a : args) (f : string) : bool :=
  negb (hidden a) && Py.startswith f ".".

(** The command line with the test flag set to [b]. *)
Definition with_test (b : bool) (a : args) : args :=
  Args (sequence a) (recursive a) (hidden a) b (arg_deployment_name a)
       (timestamp_format a) (verbose a) (quiet a) (input a).

(** [ends proj P o]: the state in which [o] ends, if it ends, satisfies
    [P]. *)
Definition ends {FS A : Type} (proj : A -> state FS) (P : state FS -> Prop)
    (o : outcome FS A) : Prop :=
  match o with
  | Done x => P (proj x)
  | Raised _ st => P st
  | OutOfFuel => True
  end.

(** The state in which a plan leaves the program. *)
Definition plan_state {FS : Type} (p : plan FS) : state FS :=
  match p with
  | Skipped st _ => st
  | Planned _ _ _ st _ => st
  end.

(** A deployment name that is held (not empty) is still the one held
    afterwards. *)
Definition keeps_name {FS : Type} (st st' : state FS) : Prop :=
  truthy (deployment_name st) = true -> deployment_name st' = deployment_name st.

(** The result of a piece of [main] that ended normally. *)
Definition done {FS A : Type} (o : outcome FS A) : option A :=
  match o with
  | Done x => Some x
  | _ => None
  end.

(** The characters of [s] all satisfy [P]. *)
Fixpoint all_chars (P : ascii -> bool) (s : string) : bool :=
  match s with
  | EmptyString => true
  | String c s' => P c && all_chars P s'
  end.

(** Text without a dot and without braces: [split] does not cut it and
    [format] copies it. *)
Definition plain_char (c : ascii) : bool :=
  negb (Ascii.eqb c "." || Ascii.eqb c "{" || Ascii.eqb c "}")%char.

Definition plain (s : string) : bool := all_chars plain_char s.

(** A name of the default pattern: 17 characters up to the seconds
    ([YYYY-MM-DD_hh-mm-]), the seconds as the loop writes them, a dot and
    the extension. *)
Definition sec_name (prefix ext : string) (seconds : Z) : string :=
  prefix +:+ Py.zfill 2 (Py.str seconds) +:+ "." +:+ ext.

(** [zfill 2 (str z)] is two digits whose value is [z]. *)
Definition two_digit_check (z : Z) : bool :=
  match Py.zfill 2 (Py.str z) with
  | String d1 (String d2 EmptyString) =>
      Py.is_digit d1 && Py.is_digit d2 && (10 * Py.digit_val d1 + Py.digit_val d2 =? z)
  | _ => false
  end.

(** The groups of a timestamp, as [groupdict] returns them. *)
Definition timestamp_groups (Y M D h m s : string) : gmap string string :=
  <["ss" := s]> (<["mm" := m]> (<["hh" := h]> (<["DD" := D]>
  (<["MM" := M]> (<["YYYY" := Y]> ∅))))).

(** [s] is between [lo] and [hi] digits. *)
Definition digits (lo hi : nat) (s : string) : Prop :=
  Py.all_digits s = true /\ (lo <= Py.len s <= hi)%nat.

(** [o] is what [o'] is, unless the fuel ran out first. *)
Definition within_fuel {FS A : Type} (o o' : outcome FS A) : Prop :=
  o = OutOfFuel \/ o = o'.

(** A file the run comes to: its directory, the width of the counter there,
    its name, and the state and the counter on arrival. *)
Record visit (FS : Type) := Visit {
  v_root : string;
  v_width : nat;
  v_file : string;
  v_state : state FS;
  v_seq : Z;
}.
Arguments Visit {FS}.
Arguments v_root {FS}.
Arguments v_width {FS}.
Arguments v_file {FS}.
Arguments v_state {FS}.
Arguments v_seq {FS}.

Section Notions.
Context {FS : Type} `{!Env FS}.

(** The file passes the checks of lines 166-198, so that line 205 takes a
    value from the counter. *)
Definition builds_name (a : args) (root f : string) (fs0 : FS) : bool :=
  negb (hidden_skip a f) &&
  match get_exif_data fs0 (Py.path_join root f) with
  | ExifData d =>
      truthy (select_timestamp d) &&
      bool_decide (is_Some (parse_timestamp (default EmptyString (select_timestamp d))))
  | _ => false
  end.

(** The files the loop of line 165 reaches, each with the file system it
    finds. *)
Fixpoint entries (a : args) (fuel : nat) (root : string) (seq_width : nat)
    (files : list string) (st : state FS) (seq : Z) : list (string * FS) :=
  match files with
  | [] => []
  | f :: files' =>
      (f, fs st) ::
      match process_file a fuel root seq_width f st seq with
      | Done (st', seq') => entries a fuel root seq_width files' st' seq'
      | _ => []
      end
  end.

(** The files the whole run comes to, in order, each with the state and
    the counter on arrival: a file is reached when everything before it has
    ended normally, and the turns of the loops are those of [process_files],
    [walk_loop] and [input_loop]. *)
Fixpoint visits_files (a : args) (fuel : nat) (root : string) (seq_width : nat)
    (files : list string) (st : state FS) (seq : Z) : list (visit FS) :=
  match files with
  | [] => []
  | f :: files' =>
      Visit root seq_width f st seq ::
      match process_file a fuel root seq_width f st seq with
      | Done (st', seq') => visits_files a fuel root seq_width files' st' seq'
      | _ => []
      end
  end.

Definition visits_dir (a : args) (fuel : nat) (l : listing) (st : state FS)
    : list (visit FS) :=
  visits_files a fuel (l_root l) (Py.len (Py.str (Z.of_nat (length (l_files l)))))
    (Py.sorted (l_files l)) (print ("Processing folder: " +:+ l_root l) st) (sequence a).

Fixpoint visits_walk (a : args) (fuel : nat) (input_path : string) (i n : nat)
    (st : state FS) : list (visit FS) :=
  match n with
  | O => []
  | S n' =>
      match walk (fs st) input_path !! i with
      | None => []
      | Some l =>
          if negb (hidden a) && Py.startswith (Py.basename (l_root l)) "."
          then visits_walk a fuel input_path (S i) n' st
          else
            visits_dir a fuel l st ++
            match process_dir a fuel l st with
            | Done st' =>
                if negb (recursive a) then []
                else visits_walk a fuel input_path (S i) n' st'
            | _ => []
            end
      end
  end.

Fixpoint visits_input (a : args) (fuel : nat) (input_paths : list string)
    (st : state FS) : list (visit FS) :=
  match input_paths with
  | [] => []
  | input_path :: rest =>
      visits_walk a fuel input_path 0 (length (walk (fs st) input_path)) st ++
      match walk_loop a fuel input_path 0 (length (walk (fs st) input_path)) st with
      | Done st' => visits_input a fuel rest st'
      | _ => []
      end
  end.

Definition visits (a : args) (fuel : nat) (fs0 : FS) : list (visit FS) :=
  visits_input a fuel (map abspath (input a)) (State fs0 (arg_deployment_name a) [] []).

(** The name the [while] loop tries after [k] passes, starting from
    [new_file_name]. *)
Fixpoint nth_name (new_image_data : gmap string string) (new_file_name : string)
    (k : nat) : Py.res string :=
  match k with
  | O => Py.Val new_file_name
  | S k' =>
      match next_name new_image_data new_file_name with
      | Py.Val n => nth_name new_image_data n k'
      | Py.Exn e => Py.Exn e
      end
  end.

End Notions.

(** ** Scenarios *)

(** Two photographs taken in the same second, in [/r]. *)
Definition fs_same_second : simple_fs :=
  SimpleFS (<["/r/a.jpg" := photo "2023:04:05 06:07:00"]>
           (<["/r/b.jpg" := photo "2023:04:05 06:07:00"]> ∅)) []
           (<["/r" := Tree "r" ["b.jpg"; "a.jpg"] []]> ∅).

Definition args_same_second (test_mode : bool) : args :=
  Args 1 false false test_mode (Some "dep") default_timestamp_format false false ["/r"].

(** A photograph in [/a/b/c] and one in its subdirectory [d]; no deployment
    name is given, the walk is recursive and the output verbose. *)
Definition fs_depth_three : simple_fs :=
  SimpleFS (<["/a/b/c/x.jpg" := photo "2023:04:05 06:07:08"]>
           (<["/a/b/c/d/y.jpg" := photo "2023:04:05 06:07:09"]> ∅)) []
           (<["/a/b/c" := Tree "c" ["x.jpg"] [Tree "d" ["y.jpg"] []]]> ∅).

Definition args_depth_three : args :=
  Args 1 true false false None default_timestamp_format true false ["/a/b/c"].

(** A directory that already holds the photographs of one minute under
    seconds 00 to 100 of the default pattern, as an earlier run with the
    deployment name [dep] left them. *)
Definition burst_name (z : Z) : string := sec_name "2023-04-05_06-07-" "JPEG" z.

Definition burst_seconds : list Z := map Z.of_nat (List.seq 0 101).

Definition fs_burst : simple_fs :=
  SimpleFS
    (list_to_map (map (fun z => ("/r/dep_" +:+ burst_name z, photo "2023:04:05 06:07:00"))
                      burst_seconds)) []
    (<["/r" := Tree "r" (map (fun z => "dep_" +:+ burst_name z) burst_seconds) []]> ∅).

Definition args_burst : args :=
  Args 1 false false false (Some "dep") default_timestamp_format false false ["/r"].

(** A photograph whose new name, from the template [{Make}], is already
    taken. *)
Definition fs_make : simple_fs :=
  SimpleFS (<["/r/a.jpg" := jpeg [(36867, "2023:04:05 06:07:00"); (271, "Canon")]]>
           (<["/r/dep_Canon.JPEG" := photo "2023:04:05 06:07:00"]> ∅)) []
           (<["/r" := Tree "r" ["a.jpg"; "dep_Canon.JPEG"] []]> ∅).

Definition args_make : args :=
  Args 1 false false false (Some "dep") "{Make}" false false ["/r"].

(** What [get_exif_data] and the pattern make of these photographs. *)
Definition burst_exif : gmap string string :=
  <["format" := "JPEG"]> (<["DateTimeOriginal" := "2023:04:05 06:07:00"]> ∅).

Definition burst_groups : gmap string string :=
  <["YYYY" := "2023"]> (<["MM" := "04"]> (<["DD" := "05"]>
  (<["hh" := "06"]> (<["mm" := "07"]> (<["ss" := "00"]> ∅))))).

(** A directory in which seconds 00 to 05 of that minute are taken, and a
    new photograph of second 00. *)
Definition fs_six : simple_fs :=
  SimpleFS
    (<["/r/x.jpg" := photo "2023:04:05 06:07:00"]>
       (list_to_map (map (fun z => ("/r/dep_" +:+ burst_name z, None))
                         (map Z.of_nat (List.seq 0 6))))) []
    (<["/r" := Tree "r" ["x.jpg"] []]> ∅).

(** A hidden directory given as input path, with a subdirectory that holds
    a photograph; neither [-r] nor [-i] is given. *)
Definition fs_hidden_root : simple_fs :=
  SimpleFS (<["/in/.trap/sub/x.jpg" := photo "2023:04:05 06:07:08"]> ∅) []
           (<["/in/.trap" := Tree ".trap" [] [Tree "sub" ["x.jpg"] []]]> ∅).

Definition args_hidden_root : args :=
  Args 1 false false false (Some "dep") default_timestamp_format false false ["/in/.trap"].

(** Two photographs; the name the first one is to get is that of a
    directory, so that its rename fails.  The template shows the counter. *)
Definition fs_rename_fails : simple_fs :=
  SimpleFS (<["/r/a.jpg" := photo "2023:04:05 06:07:08"]>
           (<["/r/b.jpg" := photo "2023:04:05 06:07:09"]> ∅)) ["/r/dep_1.JPEG"]
           (<["/r" := Tree "r" ["a.jpg"; "b.jpg"] [Tree "dep_1.JPEG" [] []]]> ∅).

Definition args_rename_fails : args :=
  Args 1 false false false (Some "dep") "{Seq}" false false ["/r"].

(** A photograph whose [DateTimeOriginal] is present and empty. *)
Definition fs_empty_original : simple_fs :=
  SimpleFS (<["/r/a.jpg" := jpeg [(36867, ""); (36868, "2023:04:05 06:07:08")]]> ∅) []
           (<["/r" := Tree "r" ["a.jpg"] []]> ∅).

(** A photograph directly under [/r]: its full path has three segments. *)
Definition fs_shallow : simple_fs :=
  SimpleFS (<["/r/a.jpg" := photo "2023:04:05 06:07:08"]> ∅) []
           (<["/r" := Tree "r" ["a.jpg"] []]> ∅).

Definition args_shallow : args :=
  Args 1 false false false None default_timestamp_format false false ["/r"].

(** What [get_exif_data] and the pattern make of that photograph. *)
Definition shallow_exif : gmap string string :=
  <["format" := "JPEG"]> (<["DateTimeOriginal" := "2023:04:05 06:07:08"]> ∅).

Definition shallow_groups : gmap string string :=
  <["YYYY" := "2023"]> (<["MM" := "04"]> (<["DD" := "05"]>
  (<["hh" := "06"]> (<["mm" := "07"]> (<["ss" := "08"]> ∅))))).

(** A photograph whose timestamp has a year of one digit. *)
Definition fs_one_digit_year : simple_fs :=
  SimpleFS (<["/r/a.jpg" := photo "5:04:05 06:07:08"]> ∅) []
           (<["/r" := Tree "r" ["a.jpg"] []]> ∅).

(** ** Examples of the primitives *)

Example strip_ex : Py.strip "  2023:04:05 06:07:08 " = "2023:04:05 06:07:08".
Proof. reflexivity. Qed.
Example split_ex : Py.split "/" "/a/b/c/x.JPEG" = [""; "a"; "b"; "c"; "x.JPEG"].
Proof. reflexivity. Qed.
Example split1_ex : Py.split1 "." "a.b.c" = ["a"; "b.c"].
Proof. reflexivity. Qed.
Example int_ex1 : Py.int "08" = Py.Val 8. Proof. reflexivity. Qed.
Example int_ex2 : Py.int "-8" = Py.Val (-8). Proof. reflexivity. Qed.
Example int_ex3 : Py.int "on" = Py.Exn Py.ValueError. Proof. reflexivity. Qed.
Example int_ex4 : Py.int "_8" = Py.Exn Py.ValueError. Proof. reflexivity. Qed.
Example int_ex5 :
  Py.int (String "028" "5") = Py.Exn Py.ValueError /\ Py.strip (String "028" "5") = "5".
Proof. split; reflexivity. Qed.
Example str_ex : Py.str 100 = "100" /\ Py.str 0 = "0" /\ Py.str (-7) = "-7".
Proof. repeat split; reflexivity. Qed.
Example zfill_ex : Py.zfill 2 "7" = "07" /\ Py.zfill 2 "-7" = "-7" /\ Py.zfill 3 "-7" = "-07".
Proof. repeat split; reflexivity. Qed.
Example join_ex : Py.path_join "/a/b" "c.JPEG" = "/a/b/c.JPEG" /\ Py.path_join "/a/b" "/c" = "/c".
Proof. split; reflexivity. Qed.
Example format_ex :
  Py.format "{YYYY}-{MM}.{ext}" (<["YYYY":="2023"]> (<["MM":="04"]> (<["ext":="JPEG"]> ∅)))
  = Py.Val "2023-04.JPEG".
Proof. vm_compute. reflexivity. Qed.
Example sorted_ex : Py.sorted ["b"; "a"; "B"; ".x"] = [".x"; "B"; "a"; "b"].
Proof. vm_compute. reflexivity. Qed.

Example search_ex :
  Re.search timestamp_re "2023:04:05 06:07:08"
  = Some (<["ss":="08"]> (<["mm":="07"]> (<["hh":="06"]> (<["DD":="05"]>
          (<["MM":="04"]> (<["YYYY":="2023"]> ∅)))))).
Proof. vm_compute. reflexivity. Qed.
Example search_ex2 :
  Re.search timestamp_re "x12345:4:05 06:07:089" ≫= (.!! "YYYY") = Some "2345".
Proof. vm_compute. reflexivity. Qed.


(** ** Per-file failures (lines 171-198 and 234-240) *)

Section PerFile.
Context {FS : Type} `{!Env FS}.
Implicit Types (a : args) (st : state FS) (seq : Z) (f root : string).

Lemma plan_file_hidden a fuel root w f st seq :
  hidden_skip a f = true ->
  plan_file a fuel root w f st seq = Done (Skipped st seq).
Proof. unfold plan_file, hidden_skip. intros ->. reflexivity. Qed.



Lemma plan_file_no_timestamp a fuel root w f st seq d :
  hidden_skip a f = false ->
  get_exif_data (fs st) (Py.path_join root f) = ExifData d ->
  truthy (select_timestamp d) = false ->
  plan_file a fuel root w f st seq
  = Done (Skipped (skip (Py.path_join root f) "No timestamp found in image EXIF" st) seq).
Proof. unfold plan_file, hidden_skip. intros -> -> ->. reflexivity. Qed.

Lemma plan_file_malformed a fuel root w f st seq d :
  hidden_skip a f = false ->
  get_exif_data (fs st) (Py.path_join root f) = ExifData d ->
  truthy (select_timestamp d) = true ->
  parse_timestamp (default EmptyString (select_timestamp d)) = None ->
  plan_file a fuel root w f st seq
  = Done (Skipped (skip (Py.path_join root f) "Timestamp not in correct format" st) seq).
Proof. unfold plan_file, hidden_skip. intros -> -> -> ->. reflexivity. Qed.

(** A file that passes the checks: everything from line 200 on. *)
Lemma plan_file_named a fuel root w f st seq d groups :
  hidden_skip a f = false ->
  get_exif_data (fs st) (Py.path_join root f) = ExifData d ->
  truthy (select_timestamp d) = true ->
  parse_timestamp (default EmptyString (select_timestamp d)) = Some groups ->
  plan_file a fuel root w f st seq =
  match Py.format (timestamp_format a +:+ ".{ext}")
          (new_image_data_of d groups root seq w) with
  | Py.Exn e => Raised e st
  | Py.Val new_file_name =>
      match derive_deployment_name (deployment_name st)
              (Py.path_join root new_file_name) with
      | Py.Exn e => Raised e st
      | Py.Val dn =>
          match resolve_collision fuel root dn (new_image_data_of d groups root seq w)
                  new_file_name (set_deployment_name dn st) with
          | Done (n, c, st') => Done (Planned (Py.path_join root f) n c st' (seq + 1))
          | Raised e st' => Raised e st'
          | OutOfFuel => OutOfFuel
          end
      end
  end.
Proof. unfold plan_file, hidden_skip. intros -> -> -> ->. reflexivity. Qed.


Lemma process_files_raised a fuel root w f files st seq e st' :
  process_file a fuel root w f st seq = Raised e st' ->
  process_files a fuel root w (f :: files) st seq = Raised e st'.
Proof. simpl. intros ->. reflexivity. Qed.

Lemma process_files_app a fuel root w pre files st seq st1 seq1 :
  process_files a fuel root w pre st seq = Done (st1, seq1) ->
  process_files a fuel root w (pre ++ files) st seq
  = process_files a fuel root w files st1 seq1.
Proof.
  revert st seq. induction pre as [|f pre IH]; intros st seq; simpl.
  - by intros [= -> ->].
  - destruct (process_file a fuel root w f st seq) as [[st2 seq2]|e st2|]; [|done..].
    apply IH.
Qed.

(** *** Nothing catches what a file raises

    Apart from the handlers of lines 174-178 and 237, which are inside
    [process_file], no loop of [main] has a [try]: what a file raises leaves
    the loop over the files, the loop over the walk and the loop over the
    input paths, wherever in the run the file is. *)

Lemma visits_files_raised a fuel root w files st0 seq0 root' w' f st seq e st' :
  Visit root' w' f st seq ∈ visits_files a fuel root w files st0 seq0 ->
  process_file a fuel root' w' f st seq = Raised e st' ->
  process_files a fuel root w files st0 seq0 = Raised e st'.
Proof.
  intros Hin Hr. revert st0 seq0 Hin.
  induction files as [|g files IH]; intros st0 seq0; simpl.
  - intros Hin. by apply elem_of_nil in Hin.
  - intros Hin. apply elem_of_cons in Hin as [Heq|Hin].
    + injection Heq as -> -> -> -> ->. by rewrite Hr.
    + destruct (process_file a fuel root w g st0 seq0) as [[st1 seq1]|e1 st1|];
        [|by apply elem_of_nil in Hin..].
      by apply IH.
Qed.

Lemma visits_dir_raised a fuel l st0 root w f st seq e st' :
  Visit root w f st seq ∈ visits_dir a fuel l st0 ->
  process_file a fuel root w f st seq = Raised e st' ->
  process_dir a fuel l st0 = Raised e st'.
Proof.
  unfold visits_dir, process_dir. intros Hin Hr.
  by rewrite (visits_files_raised _ _ _ _ _ _ _ _ _ _ _ _ _ _ Hin Hr).
Qed.

Lemma visits_walk_raised a fuel top i n st0 root w f st seq e st' :
  Visit root w f st seq ∈ visits_walk a fuel top i n st0 ->
  process_file a fuel root w f st seq = Raised e st' ->
  walk_loop a fuel top i n st0 = Raised e st'.
Proof.
  intros Hin Hr. revert i st0 Hin.
  induction n as [|n IH]; intros i st0; simpl.
  - intros Hin. by apply elem_of_nil in Hin.
  - destruct (walk (fs st0) top !! i) as [l|]; [|intros Hin; by apply elem_of_nil in Hin].
    destruct (negb (hidden a) && _); [apply IH|].
    intros Hin. apply elem_of_app in Hin as [Hin|Hin].
    + by rewrite (visits_dir_raised _ _ _ _ _ _ _ _ _ _ _ Hin Hr).
    + destruct (process_dir a fuel l st0) as [st1|e1 st1|];
        [|by apply elem_of_nil in Hin..].
      destruct (negb (recursive a)); [by apply elem_of_nil in Hin|].
      by apply IH.
Qed.

Lemma visits_input_raised a fuel paths st0 root w f st seq e st' :
  Visit root w f st seq ∈ visits_input a fuel paths st0 ->
  process_file a fuel root w f st seq = Raised e st' ->
  input_loop a fuel paths st0 = Raised e st'.
Proof.
  intros Hin Hr. revert st0 Hin.
  induction paths as [|p paths IH]; intros st0; simpl.
  - intros Hin. by apply elem_of_nil in Hin.
  - intros Hin. apply elem_of_app in Hin as [Hin|Hin].
    + by rewrite (visits_walk_raised _ _ _ _ _ _ _ _ _ _ _ _ _ Hin Hr).
    + destruct (walk_loop a fuel p 0 (length (walk (fs st0) p)) st0) as [st1|e1 st1|];
        [|by apply elem_of_nil in Hin..].
      by apply IH.
Qed.

(** What a file raises ends [main], wherever in the run the file is. *)
Lemma raised_file_ends_main a fuel fs0 root w f st seq e st' :
  Visit root w f st seq ∈ visits a fuel fs0 ->
  process_file a fuel root w f st seq = Raised e st' ->
  main a fuel fs0 = Raised e st'.
Proof.
  unfold visits, main. intros Hin Hr.
  by rewrite (visits_input_raised _ _ _ _ _ _ _ _ _ _ _ Hin Hr).
Qed.

(** The run ends at the file that raises: it is the last file reached. *)
Lemma visits_files_last a fuel root w files st0 seq0 root' w' f st seq e st' :
  Visit root' w' f st seq ∈ visits_files a fuel root w files st0 seq0 ->
  process_file a fuel root' w' f st seq = Raised e st' ->
  last (visits_files a fuel root w files st0 seq0) = Some (Visit root' w' f st seq).
Proof.
  intros Hin Hr. revert st0 seq0 Hin.
  induction files as [|g files IH]; intros st0 seq0; simpl.
  - intros Hin. by apply elem_of_nil in Hin.
  - intros Hin. apply elem_of_cons in Hin as [Heq|Hin].
    + injection Heq as -> -> -> -> ->. by rewrite Hr.
    + destruct (process_file a fuel root w g st0 seq0) as [[st1 seq1]|e1 st1|];
        [|by apply elem_of_nil in Hin..].
      specialize (IH _ _ Hin). rewrite last_cons, IH. done.
Qed.

Lemma last_app_some {A : Type} (l1 l2 : list A) x :
  last l2 = Some x -> last (l1 ++ l2) = Some x.
Proof. intros Hl. rewrite last_app, Hl. done. Qed.

Lemma visits_walk_last a fuel top i n st0 root w f st seq e st' :
  Visit root w f st seq ∈ visits_walk a fuel top i n st0 ->
  process_file a fuel root w f st seq = Raised e st' ->
  last (visits_walk a fuel top i n st0) = Some (Visit root w f st seq).
Proof.
  intros Hin Hr. revert i st0 Hin.
  induction n as [|n IH]; intros i st0; simpl.
  - intros Hin. by apply elem_of_nil in Hin.
  - destruct (walk (fs st0) top !! i) as [l|]; [|intros Hin; by apply elem_of_nil in Hin].
    destruct (negb (hidden a) && _); [apply IH|].
    intros Hin. apply elem_of_app in Hin as [Hin|Hin].
    + rewrite (visits_dir_raised _ _ _ _ _ _ _ _ _ _ _ Hin Hr), app_nil_r.
      by apply (visits_files_last _ _ _ _ _ _ _ _ _ _ _ _ _ _ Hin Hr).
    + destruct (process_dir a fuel l st0) as [st1|e1 st1|];
        [|by apply elem_of_nil in Hin..].
      destruct (negb (recursive a)); [by apply elem_of_nil in Hin|].
      apply last_app_some. by apply IH.
Qed.

Lemma visits_last a fuel fs0 root w f st seq e st' :
  Visit root w f st seq ∈ visits a fuel fs0 ->
  process_file a fuel root w f st seq = Raised e st' ->
  last (visits a fuel fs0) = Some (Visit root w f st seq).
Proof.
  unfold visits. generalize (State fs0 (arg_deployment_name a) [] []).
  generalize (map abspath (input a)). intros paths st0 Hin Hr. revert st0 Hin.
  induction paths as [|p paths IH]; intros st0; simpl.
  - intros Hin. by apply elem_of_nil in Hin.
  - intros Hin. apply elem_of_app in Hin as [Hin|Hin].
    + rewrite (visits_walk_raised _ _ _ _ _ _ _ _ _ _ _ _ _ Hin Hr), app_nil_r.
      by apply (visits_walk_last _ _ _ _ _ _ _ _ _ _ _ _ _ Hin Hr).
    + destruct (walk_loop a fuel p 0 (length (walk (fs st0) p)) st0) as [st1|e1 st1|];
        [|by apply elem_of_nil in Hin..].
      apply last_app_some. by apply IH.
Qed.


(** Line 216 on a path of fewer than five segments, with no name held. *)
Lemma short_path_file a fuel root w f st seq d groups new_file_name :
  hidden_skip a f = false ->
  truthy (deployment_name st) = false ->
  get_exif_data (fs st) (Py.path_join root f) = ExifData d ->
  truthy (select_timestamp d) = true ->
  parse_timestamp (default EmptyString (select_timestamp d)) = Some groups ->
  Py.format (timestamp_format a +:+ ".{ext}") (new_image_data_of d groups root seq w)
  = Py.Val new_file_name ->
  (length (Py.split "/" (Py.path_join root new_file_name)) < 5)%nat ->
  process_file a fuel root w f st seq = Raised Py.IndexError st.
Proof.
  intros Hh Hd He Ht Hp Hf Hlen.
  unfold process_file. rewrite (plan_file_named _ _ _ _ _ _ _ d groups) by done.
  rewrite Hf.
  assert (derive_deployment_name (deployment_name st) (Py.path_join root new_file_name)
          = Py.Exn Py.IndexError) as ->; [|done].
  apply Nat.ltb_lt in Hlen.
  unfold derive_deployment_name, Py.index_from_end. rewrite Hlen.
  destruct (deployment_name st) as [dn|]; [|done].
  simpl in Hd. apply negb_false_iff in Hd. by rewrite Hd.
Qed.

(** C10. Wherever in the run it is reached (as the [k]-th file, in
    whichever directory of whichever input path), a file that passes the
    checks while no deployment name is held, and whose full path has fewer
    than five segments, makes line 216 raise [IndexError].  Nothing catches
    it: the exception leaves the loop over the files and ends [main], in
    the state in which the file was reached, so that no entry is added to
    [skipped_files] for it, the list of skipped files is not printed, and
    no file after it is reached. *)
Theorem short_path_raises_index_error a fuel fs0 k root w f st seq d groups new_file_name :
  visits a fuel fs0 !! k = Some (Visit root w f st seq) ->
  hidden_skip a f = false ->
  truthy (deployment_name st) = false ->
  get_exif_data (fs st) (Py.path_join root f) = ExifData d ->
  truthy (select_timestamp d) = true ->
  parse_timestamp (default EmptyString (select_timestamp d)) = Some groups ->
  Py.format (timestamp_format a +:+ ".{ext}") (new_image_data_of d groups root seq w)
  = Py.Val new_file_name ->
  (length (Py.split "/" (Py.path_join root new_file_name)) < 5)%nat ->
  process_file a fuel root w f st seq = Raised Py.IndexError st
  /\ (forall files, process_files a fuel root w (f :: files) st seq = Raised Py.IndexError st)
  /\ main a fuel fs0 = Raised Py.IndexError st
  /\ last (visits a fuel fs0) = Some (Visit root w f st seq).
Proof.
  intros Hin%list_elem_of_lookup_2 Hh Hd He Ht Hp Hf Hlen.
  pose proof (short_path_file a fuel root w f st seq d groups new_file_name
                Hh Hd He Ht Hp Hf Hlen) as Hfile.
  split; [done|]. split; [|split].
  - intros files. by apply process_files_raised.
  - by apply (raised_file_ends_main a fuel fs0 root w f st seq).
  - by apply (visits_last a fuel fs0 root w f st seq Py.IndexError st).
Qed.

End PerFile.

(** ** The timestamp source (lines 181-187) *)

Section TimestampSource.
Context {FS : Type} `{!Env FS}.

(** C7, as the code has it.  The source is [DateTimeOriginal] when that
    field is present and not empty, and [DateTimeDigitized] otherwise; when
    neither holds a non-empty value (in particular when neither is present)
    the file is skipped with "No timestamp found in image EXIF". *)
Theorem timestamp_source (d : gmap string string) :
  (truthy (d !! "DateTimeOriginal") = true ->
     select_timestamp d = d !! "DateTimeOriginal")
  /\ (truthy (d !! "DateTimeOriginal") = false ->
     select_timestamp d = d !! "DateTimeDigitized")
  /\ (d !! "DateTimeOriginal" = None -> d !! "DateTimeDigitized" = None ->
     truthy (select_timestamp d) = false)
  /\ (forall (a : args) fuel root w f (st : state FS) seq,
     hidden_skip a f = false ->
     get_exif_data (fs st) (Py.path_join root f) = ExifData d ->
     truthy (d !! "DateTimeOriginal") = false ->
     truthy (d !! "DateTimeDigitized") = false ->
     process_file a fuel root w f st seq
     = Done (State (fs st) (deployment_name st)
               (skipped_files st ++ [(Py.path_join root f, "No timestamp found in image EXIF")])
               (stdout st), seq)).
Proof.
  unfold select_timestamp, py_or. repeat split.
  - by intros ->.
  - by intros ->.
  - by intros -> ->.
  - intros a fuel root w f st seq Hh He Ho Hd.
    unfold process_file.
    rewrite (plan_file_no_timestamp _ _ _ _ _ _ _ d); [done..|].
    unfold select_timestamp, py_or. by rewrite Ho.
Qed.

End TimestampSource.

(** ** The sequence counter (lines 158, 165 and 205) *)

Lemma sorted_is_sorted (l : list string) :
  Sorted String.le (Py.sorted l) /\ Py.sorted l ≡ₚ l.
Proof.
  split.
  - apply (Sorted_merge_sort String.le).
  - apply merge_sort_Permutation.
Qed.

Section Counter.
Context {FS : Type} `{!Env FS}.
Implicit Types (a : args) (st : state FS) (seq : Z) (f root : string).

Lemma plan_file_counter a fuel root w f st seq p :
  plan_file a fuel root w f st seq = Done p ->
  match p with
  | Skipped _ seq' => builds_name a root f (fs st) = false /\ seq' = seq
  | Planned _ _ _ _ seq' => builds_name a root f (fs st) = true /\ seq' = seq + 1
  end.
Proof.
  unfold plan_file, builds_name, hidden_skip.
  destruct (negb (hidden a) && Py.startswith f ".") eqn:Hh; simpl.
  { by intros [= <-]. }
  destruct (get_exif_data (fs st) (Py.path_join root f)) as [| |d] eqn:He.
  1,2: by intros [= <-].
  destruct (truthy (select_timestamp d)) eqn:Ht; simpl.
  2: by intros [= <-].
  destruct (parse_timestamp _) as [groups|] eqn:Hp.
  2: by intros [= <-].
  destruct (Py.format _ _) as [n|e]; [|done].
  destruct (derive_deployment_name _ _) as [dn|e]; [|done].
  destruct (resolve_collision _ _ _ _ _ _) as [[[n' c] st']|e st'|]; [|done..].
  intros [= <-]. split; [|done].
  by rewrite bool_decide_eq_true_2.
Qed.

Lemma process_file_counter a fuel root w f st seq st' seq' :
  process_file a fuel root w f st seq = Done (st', seq') ->
  seq' = seq + (if builds_name a root f (fs st) then 1 else 0).
Proof.
  unfold process_file.
  destruct (plan_file a fuel root w f st seq) as [p|e st1|] eqn:Hp; [|done..].
  apply plan_file_counter in Hp.
  destruct (rename_refuses a p); [done|]. intros [= Hc]. revert Hc.
  destruct p as [st1 seq1|old n c st1 seq1]; simpl; destruct Hp as [-> ->].
  - intros [= _ <-]. lia.
  - destruct (negb (test a)); [destruct (rename _ _ _)|]; by intros [= _ <-].
Qed.

(** C4, as the code has it.  The counter of a directory starts at the
    configured value; a file takes one value exactly when it passes the
    checks of lines 166-198 (it is not hidden-excluded, PIL opens it, it has
    EXIF data and a well-formed timestamp), whatever happened to earlier
    files and whatever the collision loop and the rename do afterwards: a
    file whose rename fails has taken its value.  The files are visited in
    sorted order. *)
Theorem sequence_counter a fuel :
  (forall l st,
     process_dir a fuel l st =
     match process_files a fuel (l_root l)
             (Py.len (Py.str (Z.of_nat (length (l_files l)))))
             (Py.sorted (l_files l))
             (print ("Processing folder: " +:+ l_root l) st) (sequence a) with
     | Done (st', _) => Done (print EmptyString st')
     | Raised e st' => Raised e st'
     | OutOfFuel => OutOfFuel
     end)
  /\ (forall l, Sorted String.le (Py.sorted l) /\ Py.sorted l ≡ₚ l)
  /\ (forall root w f st seq st' seq',
     process_file a fuel root w f st seq = Done (st', seq') ->
     seq' = seq + (if builds_name a root f (fs st) then 1 else 0))
  /\ (forall root w files st seq st' seq',
     process_files a fuel root w files st seq = Done (st', seq') ->
     seq' = seq + Z.of_nat (length (filter (fun e => builds_name a root e.1 e.2 = true)
                                      (entries a fuel root w files st seq)))).
Proof.
  split; [done|]. split; [apply sorted_is_sorted|].
  split; [apply process_file_counter|].
  intros root w files. induction files as [|f files IH]; intros st seq st' seq'; simpl.
  - intros [= _ <-]. lia.
  - destruct (process_file a fuel root w f st seq) as [[st1 seq1]|e st1|] eqn:Hf; [|done..].
    intros Hrest. apply IH in Hrest. apply process_file_counter in Hf.
    rewrite filter_cons. simpl.
    destruct (builds_name a root f (fs st)); case_decide; try done; simpl; lia.
Qed.

End Counter.

(** ** Properties kept by every loop of [main] *)

Section Lift.
Context {FS : Type} `{!Env FS}.
Variable R : state FS -> state FS -> Prop.
Hypothesis R_refl : forall st, R st st.
Hypothesis R_trans : forall st1 st2 st3, R st1 st2 -> R st2 st3 -> R st1 st3.
Hypothesis R_print : forall line st, R st (print line st).
Variables (a : args) (fuel : nat).
Hypothesis R_file : forall root w f st seq,
  ends fst (R st) (process_file a fuel root w f st seq).

Lemma lift_files root w files st seq :
  ends fst (R st) (process_files a fuel root w files st seq).
Proof using R_refl R_trans R_file.
  revert st seq. induction files as [|f files IH]; intros st seq; simpl; [done|].
  pose proof (R_file root w f st seq) as Hf.
  destruct (process_file a fuel root w f st seq) as [[st1 seq1]|e st1|]; [|done..].
  pose proof (IH st1 seq1) as Hr.
  destruct (process_files a fuel root w files st1 seq1) as [[st2 seq2]|e st2|];
    simpl in *; eauto.
Qed.

Lemma lift_dir l st : ends id (R st) (process_dir a fuel l st).
Proof using R_refl R_trans R_print R_file.
  unfold process_dir.
  pose proof (lift_files (l_root l) (Py.len (Py.str (Z.of_nat (length (l_files l)))))
                (Py.sorted (l_files l)) (print ("Processing folder: " +:+ l_root l) st)
                (sequence a)) as Hf.
  destruct (process_files _ _ _ _ _ _ _) as [[st1 seq1]|e st1|]; simpl in *; eauto.
Qed.

Lemma lift_walk top i n st : ends id (R st) (walk_loop a fuel top i n st).
Proof using R_refl R_trans R_print R_file.
  revert i st. induction n as [|n IH]; intros i st; simpl; [done|].
  destruct (walk (fs st) top !! i) as [l|]; [|apply R_refl].
  destruct (negb (hidden a) && _); [apply IH|].
  pose proof (lift_dir l st) as Hd.
  destruct (process_dir a fuel l st) as [st1|e st1|]; [|done..].
  destruct (negb (recursive a)); [done|].
  pose proof (IH (S i) st1) as Hr.
  destruct (walk_loop a fuel top (S i) n st1) as [st2|e st2|]; simpl in *; eauto.
Qed.

Lemma lift_input paths st : ends id (R st) (input_loop a fuel paths st).
Proof using R_refl R_trans R_print R_file.
  revert st. induction paths as [|p paths IH]; intros st; simpl; [done|].
  pose proof (lift_walk p 0 (length (walk (fs st) p)) st) as Hw.
  destruct (walk_loop a fuel p 0 (length (walk (fs st) p)) st) as [st1|e st1|]; [|done..].
  pose proof (IH st1) as Hr.
  destruct (input_loop a fuel paths st1) as [st2|e st2|]; simpl in *; eauto.
Qed.

Lemma lift_main fs0 :
  ends id (R (State fs0 (arg_deployment_name a) [] [])) (main a fuel fs0).
Proof using R_refl R_trans R_print R_file.
  unfold main.
  pose proof (lift_input (map abspath (input a)) (State fs0 (arg_deployment_name a) [] []))
    as Hi.
  destruct (input_loop _ _ _ _) as [st1|e st1|]; [|done..].
  simpl in *. unfold print_skipped.
  destruct (skipped_files st1); [done|]. destruct (negb (quiet a)); eauto.
Qed.

End Lift.

Section Frames.
Context {FS : Type} `{!Env FS}.
Implicit Types (a : args) (st : state FS) (seq : Z) (f root : string).

(** The [while] loop only prints: when it ends, it ends on a name that is
    not a file, built from the deployment name as on line 229. *)
Lemma resolve_collision_spec fuel root dn data n st :
  match resolve_collision fuel root dn data n st with
  | Done (n', c', st') =>
      c' = complete_name root dn n' /\ isfile (fs st) c' = false /\
      fs st' = fs st /\ deployment_name st' = deployment_name st /\
      skipped_files st' = skipped_files st
  | Raised _ st' =>
      fs st' = fs st /\ deployment_name st' = deployment_name st /\
      skipped_files st' = skipped_files st
  | OutOfFuel => True
  end.
Proof.
  revert n st. induction fuel as [|fuel IH]; intros n st; simpl.
  - by destruct (isfile (fs st) (complete_name root dn n)) eqn:Hf.
  - destruct (isfile (fs st) (complete_name root dn n)) eqn:Hf; [|done].
    destruct (next_name data n) as [n1|e]; [|done].
    match goal with |- context [resolve_collision fuel root dn data n1 ?s] =>
      pose proof (IH n1 s) as Hr; destruct (resolve_collision fuel root dn data n1 s)
        as [[[n' c'] st']|e st'|] end; simpl in *; done.
Qed.

(** Lines 166-231 leave the file system alone. *)
Lemma plan_file_fs a fuel root w f st seq :
  ends plan_state (fun st' => fs st' = fs st) (plan_file a fuel root w f st seq).
Proof.
  unfold plan_file.
  destruct (negb (hidden a) && _); [done|].
  destruct (get_exif_data _ _) as [| |d]; [done..|].
  destruct (negb (truthy _)); [done|].
  destruct (parse_timestamp _) as [groups|]; [|done].
  destruct (Py.format _ _) as [n|e]; [|done].
  destruct (derive_deployment_name _ _) as [dn|e]; [|done].
  match goal with |- context [resolve_collision ?fu ?r ?d ?da ?n0 ?s] =>
    pose proof (resolve_collision_spec fu r d da n0 s) as Hr;
    destruct (resolve_collision fu r d da n0 s) as [[[n' c'] st']|e st'|] end;
    simpl in *; [|tauto..]. tauto.
Qed.

(** In test mode a file leaves the file system as it found it. *)
Lemma process_file_test_fs a fuel root w f st seq :
  test a = true ->
  ends fst (fun st' => fs st' = fs st) (process_file a fuel root w f st seq).
Proof.
  intros Ht. unfold process_file.
  pose proof (plan_file_fs a fuel root w f st seq) as Hp.
  destruct (plan_file a fuel root w f st seq) as [[st1 seq1|old n c st1 seq1]|e st1|];
    simpl in *; [done| |done..].
  rewrite Ht. simpl. unfold report.
  destruct (verbose a); [done|]. by destruct (negb (quiet a)).
Qed.

Lemma derive_deployment_name_held dn path :
  truthy (Some dn) = true -> derive_deployment_name (Some dn) path = Py.Val dn.
Proof.
  simpl. intros Hd. unfold derive_deployment_name.
  by destruct (String.eqb dn EmptyString).
Qed.

Lemma plan_file_keeps_name a fuel root w f st seq :
  ends plan_state (keeps_name st) (plan_file a fuel root w f st seq).
Proof.
  unfold plan_file, keeps_name.
  destruct (negb (hidden a) && _); [done|].
  destruct (get_exif_data _ _) as [| |d]; [done..|].
  destruct (negb (truthy _)); [done|].
  destruct (parse_timestamp _) as [groups|]; [|done].
  destruct (Py.format _ _) as [n|e]; [|done].
  destruct (derive_deployment_name _ _) as [dn|e] eqn:Hd; [|done].
  match goal with |- context [resolve_collision ?fu ?r ?d ?da ?n0 ?s] =>
    pose proof (resolve_collision_spec fu r d da n0 s) as Hr;
    destruct (resolve_collision fu r d da n0 s) as [[[n' c'] st']|e st'|] end;
    simpl in *; [| |done].
  - destruct Hr as (_ & _ & _ & -> & _). intros Ht.
    destruct (deployment_name st) as [dn0|]; [|done].
    rewrite derive_deployment_name_held in Hd by done. congruence.
  - destruct Hr as (_ & -> & _). intros Ht.
    destruct (deployment_name st) as [dn0|]; [|done].
    rewrite derive_deployment_name_held in Hd by done. congruence.
Qed.

Lemma process_file_keeps_name a fuel root w f st seq :
  ends fst (keeps_name st) (process_file a fuel root w f st seq).
Proof.
  unfold process_file.
  pose proof (plan_file_keeps_name a fuel root w f st seq) as Hp.
  destruct (plan_file a fuel root w f st seq) as [[st1 seq1|old n c st1 seq1]|e st1|];
    simpl in *; [done| |done..].
  destruct (negb (test a) && _); [done|]. unfold report.
  destruct (negb (test a)); [destruct (rename _ _ _)|]; simpl;
    destruct (verbose a); try done; by destruct (negb (quiet a)).
Qed.

Lemma keeps_name_trans st1 st2 st3 :
  keeps_name st1 st2 -> keeps_name st2 st3 -> keeps_name st1 st3.
Proof.
  unfold keeps_name. intros H12 H23 Ht. specialize (H12 Ht).
  rewrite <- H12. apply H23. by rewrite H12.
Qed.

End Frames.

(** ** Test mode (lines 233-246) *)

Section DryRun.
Context {FS : Type} `{!Env FS}.
Implicit Types (a : args) (st : state FS) (seq : Z) (f root : string).

Lemma main_test_fs a fuel fs0 :
  test a = true ->
  ends id (fun st => fs st = fs0) (main a fuel fs0).
Proof.
  intros Ht.
  apply (lift_main (fun st st' => fs st' = fs st)); try done.
  - intros st1 st2 st3 H12 H23. congruence.
  - intros root w f st seq. by apply process_file_test_fs.
Qed.

(** C5, as the code has it.  A run in test mode never renames: the file
    system at its end (or at the exception that ends it) is the initial one.
    For one file started from the same state, lines 166-231 do not look at
    the test flag, so both modes choose the same name; test mode then
    reports it, and normal mode reports the same line when its rename
    succeeds, and records "Failed to rename file" instead when it fails.
    Nothing is said about the reports of a whole run: the renames done in
    normal mode change which names exist for the files that follow.  (A
    name with an embedded NUL, which [os.rename] refuses with [ValueError],
    ends a normal run and is only reported by a run in test mode.) *)
Theorem dry_run a fuel :
  (forall fs0, test a = true ->
     match main a fuel fs0 with
     | Done st => fs st = fs0
     | Raised _ st => fs st = fs0
     | OutOfFuel => True
     end)
  /\ (forall b root w f st seq,
     plan_file (with_test b a) fuel root w f st seq = plan_file a fuel root w f st seq)
  /\ (forall f old n c st seq,
     commit (with_test true a) f (Planned old n c st seq) = (report a f old n c st, seq)
     /\ (forall fs', rename (fs st) old c = Some fs' ->
         commit (with_test false a) f (Planned old n c st seq)
         = (report a f old n c (set_fs fs' st), seq)
         /\ stdout (report a f old n c (set_fs fs' st)) = stdout (report a f old n c st))
     /\ (rename (fs st) old c = None ->
         commit (with_test false a) f (Planned old n c st seq)
         = (State (fs st) (deployment_name st)
              (skipped_files st ++ [(old, "Failed to rename file")]) (stdout st), seq))
     /\ (stdout (report a f old n c st)
         = stdout st ++ (if verbose a then [old +:+ " --> " +:+ c]
                         else if quiet a then [] else [f +:+ " --> " +:+ n])
         /\ fs (report a f old n c st) = fs st
         /\ deployment_name (report a f old n c st) = deployment_name st
         /\ skipped_files (report a f old n c st) = skipped_files st))
  /\ (forall b root w f st seq p,
     plan_file a fuel root w f st seq = Done p ->
     process_file (with_test b a) fuel root w f st seq
     = match p with
       | Planned old _ c st' _ =>
           if negb b && (Py.has_nul old || Py.has_nul c) then Raised Py.ValueError st'
           else Done (commit (with_test b a) f p)
       | Skipped _ _ => Done (commit (with_test b a) f p)
       end).
Proof.
  split; [|split; [|split]].
  - intros fs0 Ht. pose proof (main_test_fs a fuel fs0 Ht) as Hm.
    by destruct (main a fuel fs0).
  - done.
  - intros f old n c st seq. split; [done|]. split; [|split].
    + intros fs' Hr. simpl. rewrite Hr. split; [done|].
      unfold report. simpl. destruct (verbose a); [done|]. by destruct (quiet a).
    + intros Hr. simpl. by rewrite Hr.
    + unfold report. destruct (verbose a); [done|].
      destruct (quiet a); simpl; [|done]. by rewrite app_nil_r.
  - intros b root w f st seq p Hp. unfold process_file.
    change (plan_file (with_test b a) fuel root w f st seq)
      with (plan_file a fuel root w f st seq).
    rewrite Hp. destruct p as [st' seq'|old n c st' seq']; [done|].
    simpl. by destruct (negb b && _).
Qed.

End DryRun.

(** C5, as stated, fails: with two photographs taken in the same second,
    test mode reports the same new name for both, and normal mode, having
    renamed the first, reports the next second for the other. *)
Lemma dry_run_reports_differ :
  stdout <$> done (main (args_same_second true) 10 fs_same_second)
  = Some ["Processing folder: /r";
          "a.jpg --> 2023-04-05_06-07-00.JPEG";
          "b.jpg --> 2023-04-05_06-07-00.JPEG"; ""]
  /\ stdout <$> done (main (args_same_second false) 10 fs_same_second)
  = Some ["Processing folder: /r";
          "a.jpg --> 2023-04-05_06-07-00.JPEG";
          "Duplicate file found: /r/dep_2023-04-05_06-07-00.JPEG";
          "Renaming file to: /r/dep_2023-04-05_06-07-01.JPEG";
          "b.jpg --> 2023-04-05_06-07-01.JPEG"; ""]
  /\ stdout <$> done (main (args_same_second true) 10 fs_same_second)
     <> stdout <$> done (main (args_same_second false) 10 fs_same_second).
Proof. split; [|split]; vm_compute; [reflexivity..|discriminate]. Qed.

Lemma dry_run_witness :
  match main (args_same_second true) 10 fs_same_second with
  | Done st => fs st = fs_same_second
  | Raised _ st => fs st = fs_same_second
  | OutOfFuel => True
  end.
Proof.
  apply (proj1 (dry_run (args_same_second true) 10) fs_same_second). reflexivity.
Defined.

(** ** The deployment name (lines 215-217) *)

Section DeploymentName.
Context {FS : Type} `{!Env FS}.
Implicit Types (a : args) (st : state FS) (seq : Z) (f root : string).

Lemma derive_deployment_name_unset cur path :
  truthy cur = false ->
  derive_deployment_name cur path = Py.index_from_end (Py.split "/" path) 5.
Proof.
  unfold derive_deployment_name. destruct cur as [dn|]; [|done].
  simpl. intros Hd. apply negb_false_iff in Hd. by rewrite Hd.
Qed.

Lemma plan_file_name a fuel root w f st seq old n c st' seq' :
  plan_file a fuel root w f st seq = Done (Planned old n c st' seq') ->
  exists d groups n0 dn,
    get_exif_data (fs st) (Py.path_join root f) = ExifData d /\
    parse_timestamp (default EmptyString (select_timestamp d)) = Some groups /\
    Py.format (timestamp_format a +:+ ".{ext}") (new_image_data_of d groups root seq w)
    = Py.Val n0 /\
    derive_deployment_name (deployment_name st) (Py.path_join root n0) = Py.Val dn /\
    deployment_name st' = Some dn /\
    c = Py.path_join root (dn +:+ "_" +:+ n).
Proof.
  unfold plan_file.
  destruct (negb (hidden a) && _); [done|].
  destruct (get_exif_data _ _) as [| |d] eqn:He; [done..|].
  destruct (negb (truthy _)); [done|].
  destruct (parse_timestamp _) as [groups|] eqn:Hpt; [|done].
  destruct (Py.format _ _) as [n0|e] eqn:Hf; [|done].
  destruct (derive_deployment_name _ _) as [dn|e] eqn:Hd; [|done].
  match goal with |- context [resolve_collision ?fu ?r ?dd ?da ?nn ?s] =>
    pose proof (resolve_collision_spec fu r dd da nn s) as Hr;
    destruct (resolve_collision fu r dd da nn s) as [[[n' c'] st1]|e st1|] end;
    [|done..].
  intros [= ? ? ? ? ?]; subst. destruct Hr as (-> & _ & _ & Hdn & _).
  exists d, groups, n0, dn. by rewrite Hdn.
Qed.

(** C9, as the code has it.  The final name is the deployment name, an
    underscore and the base name, joined to the directory.  The deployment
    name used is the one held when it is not empty (given on the command
    line or derived before), and otherwise the fifth segment from the end of
    the first full path computed for this file.  A name that is held, not
    empty, is the one held after any number of further files, directories
    and input paths; an empty one (not given, given empty, or derived empty)
    counts as not held. *)
Theorem deployment_name_prefix a fuel :
  (forall root w f st seq old n c st' seq',
     plan_file a fuel root w f st seq = Done (Planned old n c st' seq') ->
     exists dn,
       deployment_name st' = Some dn /\
       c = Py.path_join root (dn +:+ "_" +:+ n) /\
       (truthy (deployment_name st) = true -> deployment_name st = Some dn) /\
       (truthy (deployment_name st) = false ->
        exists d groups n0,
          get_exif_data (fs st) (Py.path_join root f) = ExifData d /\
          parse_timestamp (default EmptyString (select_timestamp d)) = Some groups /\
          Py.format (timestamp_format a +:+ ".{ext}")
            (new_image_data_of d groups root seq w) = Py.Val n0 /\
          Py.index_from_end (Py.split "/" (Py.path_join root n0)) 5 = Py.Val dn))
  /\ (forall root w files st seq,
     truthy (deployment_name st) = true ->
     match process_files a fuel root w files st seq with
     | Done (st', _) => deployment_name st' = deployment_name st
     | Raised _ st' => deployment_name st' = deployment_name st
     | OutOfFuel => True
     end)
  /\ (forall paths st,
     truthy (deployment_name st) = true ->
     match input_loop a fuel paths st with
     | Done st' => deployment_name st' = deployment_name st
     | Raised _ st' => deployment_name st' = deployment_name st
     | OutOfFuel => True
     end).
Proof.
  split; [|split].
  - intros root w f st seq old n c st' seq' Hp.
    apply plan_file_name in Hp as (d & groups & n0 & dn & He & Hpt & Hf & Hd & Hdn & Hc).
    exists dn. repeat split; [done..| |].
    + intros Ht. destruct (deployment_name st) as [dn0|]; [|done].
      rewrite derive_deployment_name_held in Hd by done. congruence.
    + intros Ht. rewrite derive_deployment_name_unset in Hd by done.
      by exists d, groups, n0.
  - intros root w files st seq Ht.
    pose proof (lift_files keeps_name (fun s _ => eq_refl) keeps_name_trans a fuel
                  (process_file_keeps_name a fuel) root w files st seq) as Hk.
    destruct (process_files a fuel root w files st seq) as [[st' seq']|e st'|];
      simpl in Hk; auto.
  - intros paths st Ht.
    pose proof (lift_input keeps_name (fun s _ => eq_refl) keeps_name_trans
                  (fun _ _ _ => eq_refl) a fuel
                  (process_file_keeps_name a fuel) paths st) as Hk.
    destruct (input_loop a fuel paths st) as [st'|e st'|]; simpl in Hk; auto.
Qed.

End DeploymentName.

(** C9, as stated, fails: under [/a/b/c] the fifth segment from the end of
    [/a/b/c/2023-04-05_06-07-08.JPEG] is the empty string before the first
    slash, so the name derived for the first file is empty and line 215
    derives again for the next one, which lies one directory deeper and
    gets the prefix [a]. *)
Lemma deployment_name_derived_twice :
  stdout <$> done (main args_depth_three 10 fs_depth_three)
  = Some ["Processing folder: /a/b/c";
          "/a/b/c/x.jpg --> /a/b/c/_2023-04-05_06-07-08.JPEG"; "";
          "Processing folder: /a/b/c/d";
          "/a/b/c/d/y.jpg --> /a/b/c/d/a_2023-04-05_06-07-09.JPEG"; ""].
Proof. vm_compute. reflexivity. Qed.

(** ** Strings *)

Lemma app_nil_s (s : string) : "" +:+ s = s.
Proof. reflexivity. Qed.

Lemma app_cons_s c (s t : string) : String c s +:+ t = String c (s +:+ t).
Proof. reflexivity. Qed.

Lemma app_nil_r_s (s : string) : s +:+ "" = s.
Proof. induction s as [|c s IH]; [done|]. by rewrite app_cons_s, IH. Qed.

Ltac sapp := rewrite ?app_nil_s, ?app_cons_s in *.

Lemma len_app s t : Py.len (s +:+ t) = (Py.len s + Py.len t)%nat.
Proof. unfold Py.len. induction s; sapp; simpl; congruence. Qed.

Lemma app_assoc_s (s t u : string) : (s +:+ t) +:+ u = s +:+ t +:+ u.
Proof. induction s; sapp; simpl; congruence. Qed.

Lemma take_app p s : Py.take (Py.len p) (p +:+ s) = p.
Proof. induction p; sapp; simpl; [by destruct s|congruence]. Qed.

Lemma drop_app p s : Py.drop (Py.len p) (p +:+ s) = s.
Proof. induction p; sapp; simpl; [by destruct s|done]. Qed.

Lemma take_last_app p s : Py.take_last (Py.len s) (p +:+ s) = s.
Proof.
  unfold Py.take_last. rewrite len_app.
  replace (Py.len p + Py.len s - Py.len s)%nat with (Py.len p) by lia.
  apply drop_app.
Qed.

Lemma all_chars_app P s t :
  all_chars P (s +:+ t) = all_chars P s && all_chars P t.
Proof. induction s as [|c s IH]; sapp; simpl; [done|]. by rewrite IH, andb_assoc. Qed.

Lemma all_chars_impl (P Q : ascii -> bool) s :
  (forall c, P c = true -> Q c = true) -> all_chars P s = true -> all_chars Q s = true.
Proof.
  intros HPQ. induction s as [|c s IH]; simpl; [done|].
  intros [Hc Hs]%andb_true_iff. rewrite HPQ by done. auto.
Qed.

(** [split(sep, 1)] cuts at the first separator. *)
Lemma split1_go_app sep cur p rest :
  all_chars (fun c => negb (Ascii.eqb c sep)) p = true ->
  Py.split1_go sep cur (p +:+ String sep rest) = [String.rev_app cur p; rest].
Proof.
  revert cur. induction p as [|c p IH]; intros cur Hp; sapp; simpl.
  - by rewrite Ascii.eqb_refl.
  - simpl in Hp. apply andb_true_iff in Hp as [Hc Hp].
    apply negb_true_iff in Hc. rewrite Hc. by rewrite IH.
Qed.

Lemma split1_app p rest :
  all_chars (fun c => negb (Ascii.eqb c ".")) p = true ->
  Py.split1 "." (p +:+ "." +:+ rest) = [p; rest].
Proof.
  intros Hp. unfold Py.split1. change ("." +:+ rest) with (String "." rest).
  by rewrite split1_go_app.
Qed.

Section Formatting.
Context {FS : Type} `{!Env FS}.

(** [format] copies a character that is not a brace. *)
Lemma format_go_lit kw c s :
  c <> "{"%char -> c <> "}"%char ->
  Py.format_go kw Py.Text (String c s)
  = match Py.format_go kw Py.Text s with
    | Py.Val r => Py.Val (String c r)
    | Py.Exn e => Py.Exn e
    end.
Proof.
  intros H1 H2.
  destruct c as [[] [] [] [] [] [] [] []]; try reflexivity; congruence.
Qed.

Lemma plain_char_spec c :
  plain_char c = true -> c <> "."%char /\ c <> "{"%char /\ c <> "}"%char.
Proof.
  unfold plain_char. intros Hc. apply negb_true_iff in Hc.
  apply orb_false_iff in Hc as [[H1 H2]%orb_false_iff H3].
  repeat split; by apply Ascii.eqb_neq.
Qed.

Lemma format_go_plain kw p s :
  plain p = true ->
  Py.format_go kw Py.Text (p +:+ s)
  = match Py.format_go kw Py.Text s with
    | Py.Val r => Py.Val (p +:+ r)
    | Py.Exn e => Py.Exn e
    end.
Proof.
  unfold plain. induction p as [|c p IH]; intros Hp; sapp.
  - by destruct (Py.format_go kw Py.Text s).
  - simpl in Hp. apply andb_true_iff in Hp as [(_ & H1 & H2)%plain_char_spec Hp].
    rewrite format_go_lit, IH by done. by destruct (Py.format_go kw Py.Text s).
Qed.

(** The suffix [.{ext}] of lines 211 and 228. *)
Lemma format_ext (kw : gmap string string) ext :
  kw !! "ext" = Some ext -> Py.format_go kw Py.Text ".{ext}" = Py.Val ("." +:+ ext).
Proof.
  intros H.
  change (Py.format_go kw Py.Text ".{ext}")
    with (match Py.followed_by (Py.lookup_field kw "ext") (Py.Val EmptyString) with
          | Py.Val r => Py.Val (String "." r)
          | Py.Exn e => Py.Exn e
          end).
  unfold Py.lookup_field. change (Py.all_digits "ext") with false. cbv iota.
  rewrite H. unfold Py.followed_by. by rewrite app_nil_r_s.
Qed.

Lemma format_plain_ext (kw : gmap string string) p ext :
  plain p = true -> kw !! "ext" = Some ext ->
  Py.format (p +:+ ".{ext}") kw = Py.Val (p +:+ "." +:+ ext).
Proof.
  intros Hp He. unfold Py.format. by rewrite format_go_plain, (format_ext _ ext).
Qed.

Lemma digit_cases c :
  Py.is_digit c = true ->
  In c ["0"; "1"; "2"; "3"; "4"; "5"; "6"; "7"; "8"; "9"]%char.
Proof.
  destruct c as [[] [] [] [] [] [] [] []]; vm_compute; intros; try discriminate; tauto.
Qed.

Lemma digit_plain c : Py.is_digit c = true -> plain_char c = true.
Proof.
  intros H%digit_cases. simpl in H.
  repeat (destruct H as [<-|H]; [reflexivity|]). done.
Qed.

(** [int] of two digits. *)
Lemma int_two_digits d1 d2 :
  Py.is_digit d1 = true -> Py.is_digit d2 = true ->
  Py.int (String d1 (String d2 "")) = Py.Val (10 * Py.digit_val d1 + Py.digit_val d2).
Proof.
  intros H1%digit_cases H2%digit_cases. simpl in H1, H2.
  repeat (destruct H1 as [<-|H1]; [|]); try done;
  repeat (destruct H2 as [<-|H2]; [|]); try done; reflexivity.
Qed.

Lemma two_digit_seconds z :
  0 <= z <= 99 ->
  exists d1 d2, Py.zfill 2 (Py.str z) = String d1 (String d2 "") /\
    Py.is_digit d1 = true /\ Py.is_digit d2 = true /\
    10 * Py.digit_val d1 + Py.digit_val d2 = z.
Proof.
  intros Hz.
  assert (forallb two_digit_check (map Z.of_nat (List.seq 0 100)) = true) as Hall
    by (vm_compute; reflexivity).
  rewrite forallb_forall in Hall.
  assert (two_digit_check z = true) as Hc.
  { apply Hall. apply in_map_iff. exists (Z.to_nat z). split; [lia|].
    apply in_seq. lia. }
  unfold two_digit_check in Hc.
  destruct (Py.zfill 2 (Py.str z)) as [|d1 [|d2 [|]]]; try done.
  apply andb_true_iff in Hc as [[H1 H2]%andb_true_iff H3%Z.eqb_eq].
  by exists d1, d2.
Qed.

Lemma plain_seconds z : 0 <= z <= 100 -> plain (Py.zfill 2 (Py.str z)) = true.
Proof.
  intros Hz.
  assert (forallb (fun z => plain (Py.zfill 2 (Py.str z)))
            (map Z.of_nat (List.seq 0 101)) = true) as Hall
    by (vm_compute; reflexivity).
  rewrite forallb_forall in Hall. apply Hall.
  apply in_map_iff. exists (Z.to_nat z). split; [lia|]. apply in_seq. lia.
Qed.

(** One pass of the loop on a name whose stem is 17 plain characters, some
    more text without a dot, and two digits: the 17 characters are kept,
    the two digits are read as the seconds, and what lay between is
    dropped. *)
Lemma next_name_stem (data : gmap string string) prefix mid d1 d2 ext :
  Py.len prefix = 17%nat -> plain prefix = true -> plain mid = true ->
  Py.is_digit d1 = true -> Py.is_digit d2 = true ->
  data !! "ext" = Some ext ->
  0 <= 10 * Py.digit_val d1 + Py.digit_val d2 + 1 <= 100 ->
  next_name data (prefix +:+ mid +:+ String d1 (String d2 "") +:+ "." +:+ ext)
  = Py.Val (sec_name prefix ext (10 * Py.digit_val d1 + Py.digit_val d2 + 1)).
Proof.
  intros Hlen Hp Hm Hd1 Hd2 He Hv. unfold next_name, sec_name.
  set (dd := String d1 (String d2 "")).
  assert (plain (prefix +:+ mid +:+ dd) = true) as Hstem.
  { unfold plain. rewrite !all_chars_app. unfold plain in Hp, Hm. rewrite Hp, Hm.
    simpl. by rewrite !digit_plain. }
  replace (prefix +:+ mid +:+ dd +:+ "." +:+ ext)
    with ((prefix +:+ mid +:+ dd) +:+ "." +:+ ext) by by rewrite !app_assoc_s.
  rewrite split1_app.
  2:{ revert Hstem. apply all_chars_impl. intros c (H1 & _)%plain_char_spec.
      apply negb_true_iff. by apply Ascii.eqb_neq. }
  unfold Py.index0. cbv beta iota.
  replace (prefix +:+ mid +:+ dd) with ((prefix +:+ mid) +:+ dd) at 1
    by by rewrite !app_assoc_s.
  change 2%nat with (Py.len dd) at 1. rewrite take_last_app.
  unfold dd at 1. rewrite int_two_digits by done.
  rewrite <- Hlen, take_app.
  rewrite <- app_assoc_s. rewrite format_plain_ext with (ext := ext); [|..|done].
  - by rewrite app_assoc_s.
  - unfold plain. rewrite all_chars_app. fold (plain prefix). rewrite Hp. simpl.
    apply plain_seconds. lia.
Qed.

(** From seconds [z] the loop goes to [z + 1], up to 100. *)
Lemma next_name_seconds (data : gmap string string) prefix ext z :
  Py.len prefix = 17%nat -> plain prefix = true ->
  data !! "ext" = Some ext ->
  0 <= z <= 99 ->
  next_name data (sec_name prefix ext z) = Py.Val (sec_name prefix ext (z + 1)).
Proof.
  intros Hlen Hp He Hz.
  destruct (two_digit_seconds z Hz) as (d1 & d2 & Hzf & Hd1 & Hd2 & Hv).
  unfold sec_name at 1. rewrite Hzf. subst z.
  apply (next_name_stem data prefix "" d1 d2 ext); try done. lia.
Qed.

(** From seconds 100 the loop goes back to 01: it reads the last two
    characters of [...100]. *)
Lemma next_name_hundred (data : gmap string string) prefix ext :
  Py.len prefix = 17%nat -> plain prefix = true ->
  data !! "ext" = Some ext ->
  next_name data (sec_name prefix ext 100) = Py.Val (sec_name prefix ext 1).
Proof.
  intros Hlen Hp He.
  change (sec_name prefix ext 100) with (prefix +:+ "1" +:+ "00" +:+ "." +:+ ext).
  by apply (next_name_stem data prefix "1" "0" "0" ext).
Qed.

End Formatting.

(** ** The collision loop (lines 219-231) *)

Section Collision.
Context {FS : Type} `{!Env FS}.
Implicit Types (st : state FS).

Lemma nth_name_seconds (data : gmap string string) prefix ext (k : nat) s :
  Py.len prefix = 17%nat -> plain prefix = true ->
  data !! "ext" = Some ext ->
  0 <= s -> s + Z.of_nat k <= 100 ->
  nth_name data (sec_name prefix ext s) k = Py.Val (sec_name prefix ext (s + Z.of_nat k)).
Proof.
  intros Hlen Hp He. revert s. induction k as [|k IH]; intros s Hs Hk; simpl.
  - do 2 f_equal. lia.
  - rewrite next_name_seconds by (done || lia). rewrite IH by lia.
    do 2 f_equal. lia.
Qed.

Lemma resolve_collision_free fuel root dn data n st :
  isfile (fs st) (complete_name root dn n) = false ->
  resolve_collision fuel root dn data n st = Done (n, complete_name root dn n, st).
Proof. intros Hf. destruct fuel; simpl; by rewrite Hf. Qed.

(** The loop ends on the first name of its sequence that is not a file. *)
Lemma resolve_collision_first_free k fuel root dn data n st m :
  (k <= fuel)%nat ->
  nth_name data n k = Py.Val m ->
  isfile (fs st) (complete_name root dn m) = false ->
  (forall i, (i < k)%nat ->
     exists mi, nth_name data n i = Py.Val mi /\
                isfile (fs st) (complete_name root dn mi) = true) ->
  exists st', resolve_collision fuel root dn data n st
              = Done (m, complete_name root dn m, st') /\ fs st' = fs st.
Proof.
  revert fuel n st. induction k as [|k IH]; intros fuel n st Hk Hm Hfree Hbusy.
  - simpl in Hm. injection Hm as ->. exists st. by rewrite resolve_collision_free.
  - destruct fuel as [|fuel]; [lia|].
    destruct (Hbusy 0%nat) as (m0 & Hm0 & Hf0); [lia|].
    simpl in Hm0. injection Hm0 as <-.
    simpl in Hm. simpl. rewrite Hf0.
    destruct (next_name data n) as [n1|e] eqn:Hn; [|done].
    match goal with |- context [resolve_collision fuel root dn data n1 ?s] =>
      destruct (IH fuel n1 s) as (st' & Hr & Hfs) end; [lia|done|done| |].
    + intros i Hi. destruct (Hbusy (S i)) as (mi & Hmi & Hfi); [lia|].
      simpl in Hmi. rewrite Hn in Hmi. eauto.
    + exists st'. by rewrite Hr.
Qed.

(** C1, as the code has it.  Whenever the loop ends normally, the name it
    ends on is the deployment name, an underscore and the final base name
    under the directory, and [os.path.isfile] is false for it.  It does end,
    on the first such name, whenever the names it tries reach one that is
    not a file.  For names of the default pattern: if the names with
    seconds [s], ..., [s + k - 1] are files and the one with seconds [s + k]
    is not ([s + k] at most 100), the loop ends on seconds [s + k]; with 00
    to 05 taken, a candidate with seconds 00 ends on 06. *)
Theorem collision_resolution fuel root dn (data : gmap string string) :
  (forall n st n' c' st',
     resolve_collision fuel root dn data n st = Done (n', c', st') ->
     c' = complete_name root dn n' /\ isfile (fs st) c' = false /\ fs st' = fs st)
  /\ (forall k n st m,
     (k <= fuel)%nat ->
     nth_name data n k = Py.Val m ->
     isfile (fs st) (complete_name root dn m) = false ->
     (forall i, (i < k)%nat ->
        exists mi, nth_name data n i = Py.Val mi /\
                   isfile (fs st) (complete_name root dn mi) = true) ->
     exists st', resolve_collision fuel root dn data n st
                 = Done (m, complete_name root dn m, st') /\ fs st' = fs st)
  /\ (forall prefix ext s (k : nat) st,
     Py.len prefix = 17%nat -> plain prefix = true ->
     data !! "ext" = Some ext ->
     0 <= s -> s + Z.of_nat k <= 100 -> (k <= fuel)%nat ->
     (forall z, s <= z < s + Z.of_nat k ->
        isfile (fs st) (complete_name root dn (sec_name prefix ext z)) = true) ->
     isfile (fs st) (complete_name root dn (sec_name prefix ext (s + Z.of_nat k))) = false ->
     exists st',
       resolve_collision fuel root dn data (sec_name prefix ext s) st
       = Done (sec_name prefix ext (s + Z.of_nat k),
               complete_name root dn (sec_name prefix ext (s + Z.of_nat k)), st')
       /\ fs st' = fs st)
  /\ (forall st,
     data !! "ext" = Some "JPEG" -> (6 <= fuel)%nat ->
     (forall ss, In ss ["00"; "01"; "02"; "03"; "04"; "05"] ->
        isfile (fs st)
          (complete_name root dn ("2023-04-05_06-07-" +:+ ss +:+ ".JPEG")) = true) ->
     isfile (fs st) (complete_name root dn "2023-04-05_06-07-06.JPEG") = false ->
     exists st',
       resolve_collision fuel root dn data "2023-04-05_06-07-00.JPEG" st
       = Done ("2023-04-05_06-07-06.JPEG",
               complete_name root dn "2023-04-05_06-07-06.JPEG", st')).
Proof.
  assert (forall prefix ext s (k : nat) st,
     Py.len prefix = 17%nat -> plain prefix = true ->
     data !! "ext" = Some ext ->
     0 <= s -> s + Z.of_nat k <= 100 -> (k <= fuel)%nat ->
     (forall z, s <= z < s + Z.of_nat k ->
        isfile (fs st) (complete_name root dn (sec_name prefix ext z)) = true) ->
     isfile (fs st) (complete_name root dn (sec_name prefix ext (s + Z.of_nat k))) = false ->
     exists st',
       resolve_collision fuel root dn data (sec_name prefix ext s) st
       = Done (sec_name prefix ext (s + Z.of_nat k),
               complete_name root dn (sec_name prefix ext (s + Z.of_nat k)), st')
       /\ fs st' = fs st) as Hseconds.
  { intros prefix ext s k st Hlen Hp He Hs Hk Hfuel Hbusy Hfree.
    apply (resolve_collision_first_free k); [done| |done|].
    - by apply nth_name_seconds.
    - intros i Hi. exists (sec_name prefix ext (s + Z.of_nat i)). split.
      + apply nth_name_seconds; (done || lia).
      + apply Hbusy. lia. }
  split; [|split; [|split]].
  - intros n st n' c' st' Hr.
    pose proof (resolve_collision_spec fuel root dn data n st) as Hs.
    rewrite Hr in Hs. tauto.
  - intros k n st m. apply resolve_collision_first_free.
  - exact Hseconds.
  - intros st He Hfuel Hbusy Hfree.
    destruct (Hseconds "2023-04-05_06-07-" "JPEG" 0 6%nat st) as (st' & Hr & _);
      try done.
    + intros z Hz.
      assert (z = 0 \/ z = 1 \/ z = 2 \/ z = 3 \/ z = 4 \/ z = 5) as Hcases by lia.
      destruct Hcases as [->|[->|[->|[->|[->| ->]]]]]; apply Hbusy; simpl; tauto.
    + by exists st'.
Qed.

(** The defect behind C2.  The loop reads the seconds from the last two
    characters of the stem, so after [...100] it goes back to [...01]: when
    the names with seconds 00 to 100 are all files, it never ends. *)
Lemma collision_loop_cycles fuel root dn (data : gmap string string) prefix ext s st :
  Py.len prefix = 17%nat -> plain prefix = true ->
  data !! "ext" = Some ext ->
  0 <= s <= 100 ->
  (forall z, 0 <= z <= 100 ->
     isfile (fs st) (complete_name root dn (sec_name prefix ext z)) = true) ->
  resolve_collision fuel root dn data (sec_name prefix ext s) st = OutOfFuel.
Proof.
  intros Hlen Hp He Hs Hbusy. revert s st Hs Hbusy.
  induction fuel as [|fuel IH]; intros s st Hs Hbusy; simpl.
  - by rewrite Hbusy.
  - rewrite Hbusy by done.
    destruct (decide (s = 100)) as [->|Hne].
    + rewrite next_name_hundred by done. apply IH; [lia|done].
    + rewrite next_name_seconds by (done || lia). apply IH; [lia|done].
Qed.

End Collision.

(** C1, as stated, fails: a candidate need not end in seconds.  With the
    template [{Make}] the candidate is [Canon.JPEG]; it is taken, and the
    loop reads [int("on")], which raises [ValueError]: no name is
    returned, and the run ends there. *)
Lemma collision_loop_raises :
  resolve_collision 10 "/r" "dep" (<["ext" := "JPEG"]> ∅) "Canon.JPEG"
    (State fs_make (Some "dep") [] [])
  = Raised Py.ValueError
      (State fs_make (Some "dep") [] ["Duplicate file found: /r/dep_Canon.JPEG"])
  /\ (exists st, main args_make 10 fs_make = Raised Py.ValueError st).
Proof. split; [|eexists]; vm_compute; reflexivity. Qed.

Lemma collision_resolution_witness :
  exists st',
    resolve_collision 6 "/r" "dep" (<["ext" := "JPEG"]> ∅) "2023-04-05_06-07-00.JPEG"
      (State fs_six (Some "dep") [] [])
    = Done ("2023-04-05_06-07-06.JPEG",
            complete_name "/r" "dep" "2023-04-05_06-07-06.JPEG", st').
Proof.
  apply (proj2 (proj2 (proj2 (collision_resolution 6 "/r" "dep" (<["ext" := "JPEG"]> ∅))))).
  - reflexivity.
  - lia.
  - intros ss Hss. simpl in Hss.
    repeat (destruct Hss as [<-|Hss]; [vm_compute; reflexivity|]). done.
  - vm_compute. reflexivity.
Defined.

(** ** The loop that does not end *)

Lemma burst_files_exist z :
  0 <= z <= 100 ->
  isfile fs_burst (complete_name "/r" "dep" (burst_name z)) = true.
Proof.
  intros Hz.
  assert (forallb (fun z => isfile fs_burst (complete_name "/r" "dep" (burst_name z)))
            burst_seconds = true) as Hall by (vm_compute; reflexivity).
  rewrite forallb_forall in Hall. apply Hall.
  apply in_map_iff. exists (Z.to_nat z). split; [lia|]. apply in_seq. lia.
Qed.

Lemma burst_plan fuel w (st : state simple_fs) seq :
  fs st = fs_burst -> deployment_name st = Some "dep" ->
  plan_file args_burst fuel "/r" w "dep_2023-04-05_06-07-00.JPEG" st seq = OutOfFuel.
Proof.
  intros Hfs Hdn.
  rewrite (plan_file_named _ _ _ _ _ _ _ burst_exif burst_groups);
    [|reflexivity|rewrite Hfs; vm_compute; reflexivity|reflexivity|vm_compute; reflexivity].
  assert (Py.format (timestamp_format args_burst +:+ ".{ext}")
            (new_image_data_of burst_exif burst_groups "/r" seq w)
          = Py.Val (burst_name 0)) as -> by (vm_compute; reflexivity).
  rewrite Hdn.
  change (derive_deployment_name (Some "dep") (Py.path_join "/r" (burst_name 0)))
    with (@Py.Val string "dep").
  unfold burst_name.
  rewrite (collision_loop_cycles fuel "/r" "dep" _ "2023-04-05_06-07-" "JPEG" 0).
  - reflexivity.
  - reflexivity.
  - reflexivity.
  - vm_compute. reflexivity.
  - lia.
  - intros z Hz. change (fs (set_deployment_name "dep" st)) with (fs st).
    rewrite Hfs. by apply burst_files_exist.
Qed.

(** C2 fails on the code.  In a directory that holds the names with seconds
    00 to 100 of one minute, the first file (seconds 00, named as its own
    timestamp says) collides with itself, the loop goes 01, ..., 99, 100
    and, reading the last two characters of [100], back to 01: every name
    it tries is taken, and no amount of fuel lets [main] end. *)
Theorem burst_never_ends fuel : main args_burst fuel fs_burst = OutOfFuel.
Proof.
  unfold main.
  change (map abspath (input args_burst)) with ["/r"].
  unfold input_loop.
  set (st0 := State fs_burst _ _ _).
  assert (exists files, walk (fs st0) "/r" = [Listing "/r" [] files] /\
          exists rest, Py.sorted files = "dep_2023-04-05_06-07-00.JPEG" :: rest)
    as (files & Hwalk & rest & Hsorted).
  { eexists. split; [vm_compute; reflexivity|]. eexists. vm_compute. reflexivity. }
  rewrite Hwalk. cbn [length]. unfold walk_loop. rewrite Hwalk.
  change ([Listing "/r" [] files] !! 0%nat) with (Some (Listing "/r" [] files)).
  cbv beta iota.
  change (negb (hidden args_burst) && _) with false. cbv iota.
  unfold process_dir. unfold l_files, l_root. rewrite Hsorted.
  unfold process_files, process_file.
  by rewrite burst_plan.
Qed.

(** ** The timestamp pattern (lines 190-198) *)

Module ReFacts.
Import Re.

Lemma match_here_sound anchored p s cur g g' :
  match_here anchored p s cur g = Some g' ->
  exists w rest, s = w +:+ rest /\ matches p w /\ (anchored = true -> rest = EmptyString).
Proof.
  revert s cur g g'. induction p as [|i p IH]; intros s cur g g'; simpl.
  - intros H. exists EmptyString, s. split; [done|]. split; [constructor|].
    intros ->. by destruct s.
  - destruct i as [| |a| |name].
    + destruct s as [|c s]; [done|]. destruct (Py.is_digit c) eqn:Hc; [|done].
      intros (w & rest & -> & Hw & Hr)%IH. exists (String c w), rest.
      repeat split; [by constructor|done].
    + assert (match_here anchored p s cur g = Some g' ->
              exists w rest, s = w +:+ rest /\ matches (OptDigit :: p) w /\
                             (anchored = true -> rest = EmptyString)) as Hnone.
      { intros (w & rest & -> & Hw & Hr)%IH. exists w, rest.
        repeat split; [by constructor|done]. }
      destruct s as [|c s]; [done|]. destruct (Py.is_digit c) eqn:Hc; [|done].
      destruct (match_here anchored p s (String c cur) g) as [g1|] eqn:H1; [|done].
      intros _. apply IH in H1 as (w & rest & -> & Hw & Hr).
      exists (String c w), rest. repeat split; [by constructor|done].
    + destruct s as [|c s]; [done|]. destruct (Ascii.eqb_spec c a) as [->|]; [|done].
      intros (w & rest & -> & Hw & Hr)%IH. exists (String a w), rest.
      repeat split; [by constructor|done].
    + intros (w & rest & -> & Hw & Hr)%IH. exists w, rest.
      repeat split; [by constructor|done].
    + intros (w & rest & -> & Hw & Hr)%IH. exists w, rest.
      repeat split; [by constructor|done].
Qed.

Lemma match_here_complete anchored p w rest cur g :
  matches p w -> (anchored = true -> rest = EmptyString) ->
  is_Some (match_here anchored p (w +:+ rest) cur g).
Proof.
  intros Hw Hr. revert cur g.
  induction Hw as [|c p w Hc Hw IH|c p w Hc Hw IH|p w Hw IH|c p w Hw IH|p w Hw IH|n p w Hw IH];
    intros cur g; simpl; sapp.
  - destruct anchored; [|done]. by rewrite Hr.
  - rewrite Hc. apply IH.
  - rewrite Hc. destruct (IH (String c cur) g) as [g1 ->]. done.
  - pose proof (IH cur g) as IH0. revert IH0.
    destruct (w +:+ rest) as [|c s]; intros IH0; [done|].
    destruct (Py.is_digit c); [|done].
    by destruct (match_here anchored p s (String c cur) g).
  - rewrite Ascii.eqb_refl. apply IH.
  - apply IH.
  - apply IH.
Qed.

(** [re.search] finds a match exactly when some substring is in the
    language of the pattern. *)
Lemma search_iff p s :
  is_Some (search p s) <->
  exists pre w post, s = pre +:+ w +:+ post /\ matches p w.
Proof.
  split.
  - induction s as [|c s IH]; simpl.
    + destruct (match_here false p "" "" ∅) as [g|] eqn:Hm; [|by intros [? ?]].
      intros _. apply match_here_sound in Hm as (w & rest & Hs & Hw & _).
      by exists EmptyString, w, rest.
    + destruct (match_here false p (String c s) "" ∅) as [g|] eqn:Hm.
      * intros _. apply match_here_sound in Hm as (w & rest & Hs & Hw & _).
        by exists EmptyString, w, rest.
      * intros (pre & w & post & -> & Hw)%IH. by exists (String c pre), w, post.
  - intros (pre & w & post & -> & Hw).
    induction pre as [|c pre IH]; sapp.
    + destruct (match_here_complete false p w post "" ∅ Hw) as [g Hg]; [done|].
      destruct (w +:+ post); simpl; by rewrite Hg.
    + simpl. by destruct (match_here false p _ "" ∅).
Qed.

Lemma fullmatch_iff p s : is_Some (fullmatch p s) <-> matches p s.
Proof.
  unfold fullmatch. split.
  - intros [g (w & rest & -> & Hw & Hr)%match_here_sound].
    rewrite Hr by done. by rewrite app_nil_r_s.
  - intros Hw. rewrite <- (app_nil_r_s s). by apply match_here_complete.
Qed.

Lemma matches_digit p w :
  matches (Digit :: p) w <->
  exists c w', w = String c w' /\ Py.is_digit c = true /\ matches p w'.
Proof.
  split.
  - inversion 1; subst; eauto 10.
  - intros (c & w' & -> & Hc & Hw). by constructor.
Qed.

Lemma matches_opt p w :
  matches (OptDigit :: p) w <->
  (exists c w', w = String c w' /\ Py.is_digit c = true /\ matches p w') \/ matches p w.
Proof.
  split.
  - inversion 1; subst; eauto 10.
  - intros [(c & w' & -> & Hc & Hw)|Hw]; by constructor.
Qed.

Lemma matches_lit a p w :
  matches (Lit a :: p) w <-> exists w', w = String a w' /\ matches p w'.
Proof.
  split.
  - inversion 1; subst; eauto 10.
  - intros (w' & -> & Hw). by constructor.
Qed.

Lemma matches_open p w : matches (Open :: p) w <-> matches p w.
Proof. split; [by inversion 1|by constructor]. Qed.

Lemma matches_close n p w : matches (Close n :: p) w <-> matches p w.
Proof. split; [by inversion 1|by constructor]. Qed.

Lemma matches_nil w : matches [] w <-> w = EmptyString.
Proof. split; [by inversion 1|intros ->; constructor]. Qed.

(** A group of one or two digits. *)
Lemma matches_group12 n q w :
  matches (group n [Digit; OptDigit] ++ q) w <->
  exists d w', w = d +:+ w' /\ digits 1 2 d /\ matches q w'.
Proof.
  unfold group. simpl.
  rewrite matches_open, matches_digit. setoid_rewrite matches_opt.
  setoid_rewrite matches_close. unfold digits. split.
  - intros (c & w1 & -> & Hc & [(c2 & w2 & -> & Hc2 & Hq)|Hq]).
    + exists (String c (String c2 "")), w2. simpl. rewrite Hc, Hc2.
      repeat split; (done || lia).
    + exists (String c ""), w1. simpl. rewrite Hc. repeat split; (done || lia).
  - intros (d & w' & -> & [Hd Hl] & Hq).
    destruct d as [|c [|c2 [|c3 d]]]; simpl in Hl; try lia; simpl in Hd.
    + rewrite andb_true_r in Hd. exists c, w'. sapp. eauto.
    + apply andb_true_iff in Hd as [Hc Hd]. rewrite andb_true_r in Hd.
      exists c, (String c2 w'). sapp. split; [done|]. split; [done|].
      left. by exists c2, w'.
Qed.

(** A group of two to four digits. *)
Lemma matches_group24 n q w :
  matches (group n [Digit; Digit; OptDigit; OptDigit] ++ q) w <->
  exists d w', w = d +:+ w' /\ digits 2 4 d /\ matches q w'.
Proof.
  unfold group. simpl.
  rewrite matches_open, matches_digit. setoid_rewrite matches_digit.
  setoid_rewrite matches_opt. setoid_rewrite matches_opt.
  setoid_rewrite matches_close. unfold digits. split.
  - intros (c1 & w1 & -> & Hc1 & c2 & w2 & -> & Hc2 & H).
    destruct H as [(c3 & w3 & -> & Hc3 & [(c4 & w4 & -> & Hc4 & Hq)|Hq])
                  |[(c3 & w3 & -> & Hc3 & Hq)|Hq]].
    + exists (String c1 (String c2 (String c3 (String c4 "")))), w4.
      simpl. rewrite Hc1, Hc2, Hc3, Hc4. repeat split; (done || lia).
    + exists (String c1 (String c2 (String c3 ""))), w3.
      simpl. rewrite Hc1, Hc2, Hc3. repeat split; (done || lia).
    + exists (String c1 (String c2 (String c3 ""))), w3.
      simpl. rewrite Hc1, Hc2, Hc3. repeat split; (done || lia).
    + exists (String c1 (String c2 "")), w2.
      simpl. rewrite Hc1, Hc2. repeat split; (done || lia).
  - intros (d & w' & -> & [Hd Hl] & Hq).
    destruct d as [|c1 [|c2 [|c3 [|c4 [|c5 d]]]]]; simpl in Hl; try lia; simpl in Hd;
      repeat (apply andb_true_iff in Hd as [? Hd]); sapp.
    + exists c1, (String c2 w'). repeat split; [done|].
      exists c2, w'. repeat split; [done|]. right. by right.
    + exists c1, (String c2 (String c3 w')). repeat split; [done|].
      exists c2, (String c3 w'). repeat split; [done|].
      left. exists c3, w'. repeat split; [done|]. by right.
    + exists c1, (String c2 (String c3 (String c4 w'))). repeat split; [done|].
      exists c2, (String c3 (String c4 w')). repeat split; [done|].
      left. exists c3, (String c4 w'). repeat split; [done|].
      left. by exists c4, w'.
Qed.

Lemma match_here_captures anchored p s cur g g' :
  match_here anchored p s cur g = Some g' ->
  exists w rest, s = w +:+ rest /\ captures p cur g w g'.
Proof.
  revert s cur g g'. induction p as [|i p IH]; intros s cur g g'; simpl.
  - intros Hg. exists EmptyString, s. split; [done|].
    assert (g' = g) as ->; [|constructor].
    destruct anchored; [destruct s|]; congruence.
  - destruct i as [| |a| |name].
    + destruct s as [|c s]; [done|]. destruct (Py.is_digit c) eqn:Hc; [|done].
      intros (w & rest & -> & Hw)%IH. exists (String c w), rest.
      split; [done|]. by constructor.
    + assert (match_here anchored p s cur g = Some g' ->
              exists w rest, s = w +:+ rest /\ captures (OptDigit :: p) cur g w g') as Hnone.
      { intros (w & rest & -> & Hw)%IH. exists w, rest. split; [done|]. by constructor. }
      destruct s as [|c s]; [done|]. destruct (Py.is_digit c) eqn:Hc; [|done].
      destruct (match_here anchored p s (String c cur) g) as [g1|] eqn:H1; [|done].
      intros [= <-]. apply IH in H1 as (w & rest & -> & Hw).
      exists (String c w), rest. split; [done|]. by constructor.
    + destruct s as [|c s]; [done|]. destruct (Ascii.eqb_spec c a) as [->|]; [|done].
      intros (w & rest & -> & Hw)%IH. exists (String a w), rest.
      split; [done|]. by constructor.
    + intros (w & rest & -> & Hw)%IH. exists w, rest. split; [done|]. by constructor.
    + intros (w & rest & -> & Hw)%IH. exists w, rest. split; [done|]. by constructor.
Qed.

Lemma search_captures p s g :
  search p s = Some g ->
  exists pre w post, s = pre +:+ w +:+ post /\ captures p EmptyString ∅ w g.
Proof.
  induction s as [|c s IH]; simpl.
  - destruct (match_here false p "" "" ∅) as [g1|] eqn:Hm; [|done].
    intros [= <-]. apply match_here_captures in Hm as (w & rest & Hs & Hw).
    by exists EmptyString, w, rest.
  - destruct (match_here false p (String c s) "" ∅) as [g1|] eqn:Hm.
    + intros [= <-]. apply match_here_captures in Hm as (w & rest & Hs & Hw).
      by exists EmptyString, w, rest.
    + intros (pre & w & post & -> & Hw)%IH. by exists (String c pre), w, post.
Qed.

(** What a group of one or two digits captures. *)
Lemma captures_group12 n q cur g w g' :
  captures (group n [Digit; OptDigit] ++ q) cur g w g' ->
  exists d w', w = d +:+ w' /\ digits 1 2 d /\ captures q EmptyString (<[n := d]> g) w' g'.
Proof.
  unfold group, digits. simpl. intros H.
  inversion H as [| | | | |? ? ? ? ? H1|]; subst; clear H.
  inversion H1 as [|c1 ? ? ? w1 ? Hc1 H2| | | | |]; subst; clear H1.
  inversion H2 as [| |c2 ? ? ? w2 ? Hc2 H3|? ? ? ? ? H3| | |]; subst; clear H2;
    inversion H3 as [| | | | | |? ? ? ? ? ? H4]; subst; clear H3.
  - exists (String c1 (String c2 "")). eexists. split; [reflexivity|].
    simpl. rewrite Hc1, Hc2. repeat split; (done || lia).
  - exists (String c1 ""). eexists. split; [reflexivity|].
    simpl. rewrite Hc1. repeat split; (done || lia).
Qed.

(** What a group of two to four digits captures. *)
Lemma captures_group24 n q cur g w g' :
  captures (group n [Digit; Digit; OptDigit; OptDigit] ++ q) cur g w g' ->
  exists d w', w = d +:+ w' /\ digits 2 4 d /\ captures q EmptyString (<[n := d]> g) w' g'.
Proof.
  unfold group, digits. simpl. intros H.
  inversion H as [| | | | |? ? ? ? ? H1|]; subst; clear H.
  inversion H1 as [|c1 ? ? ? w1 ? Hc1 H2| | | | |]; subst; clear H1.
  inversion H2 as [|c2 ? ? ? w2 ? Hc2 H3| | | | |]; subst; clear H2.
  inversion H3 as [| |c3 ? ? ? w3 ? Hc3 H4|? ? ? ? ? H4| | |]; subst; clear H3;
    (inversion H4 as [| |c4 ? ? ? w4 ? Hc4 H5|? ? ? ? ? H5| | |]; subst; clear H4;
     inversion H5 as [| | | | | |? ? ? ? ? ? H6]; subst; clear H5).
  - exists (String c1 (String c2 (String c3 (String c4 "")))). eexists.
    split; [reflexivity|].
    simpl. rewrite Hc1, Hc2, Hc3, Hc4. repeat split; (done || lia).
  - exists (String c1 (String c2 (String c3 ""))). eexists. split; [reflexivity|].
    simpl. rewrite Hc1, Hc2, Hc3. repeat split; (done || lia).
  - exists (String c1 (String c2 (String c4 ""))). eexists. split; [reflexivity|].
    simpl. rewrite Hc1, Hc2, Hc4. repeat split; (done || lia).
  - exists (String c1 (String c2 "")). eexists. split; [reflexivity|].
    simpl. rewrite Hc1, Hc2. repeat split; (done || lia).
Qed.

Lemma captures_lit a q cur g w g' :
  captures (Lit a :: q) cur g w g' ->
  exists w', w = String a w' /\ captures q cur g w' g'.
Proof. inversion 1; subst; eauto. Qed.

Lemma captures_nil cur g w g' : captures [] cur g w g' -> w = EmptyString /\ g' = g.
Proof. by inversion 1. Qed.

End ReFacts.

(** The language of the pattern of line 191, spelled out. *)
Lemma timestamp_re_matches w :
  Re.matches timestamp_re w <->
  exists Y M D h m s,
    w = Y +:+ ":" +:+ M +:+ ":" +:+ D +:+ " " +:+ h +:+ ":" +:+ m +:+ ":" +:+ s /\
    digits 2 4 Y /\ digits 1 2 M /\ digits 1 2 D /\
    digits 1 2 h /\ digits 1 2 m /\ digits 1 2 s.
Proof.
  unfold timestamp_re.
  rewrite ReFacts.matches_group24.
  setoid_rewrite (ReFacts.matches_lit ":").
  setoid_rewrite ReFacts.matches_group12.
  setoid_rewrite (ReFacts.matches_lit ":").
  setoid_rewrite ReFacts.matches_group12.
  setoid_rewrite (ReFacts.matches_lit " ").
  setoid_rewrite ReFacts.matches_group12.
  setoid_rewrite (ReFacts.matches_lit ":").
  setoid_rewrite ReFacts.matches_group12.
  setoid_rewrite (ReFacts.matches_lit ":").
  rewrite <- (app_nil_r (Re.group "ss" _)).
  setoid_rewrite ReFacts.matches_group12.
  setoid_rewrite ReFacts.matches_nil.
  split.
  - intros (Y & ? & -> & HY & ? & -> & M & ? & -> & HM & ? & -> & D & ? & -> & HD
            & ? & -> & h & ? & -> & Hh & ? & -> & m & ? & -> & Hm & ? & ->
            & s & ? & -> & Hs & ->).
    exists Y, M, D, h, m, s. split; [|done]. by rewrite app_nil_r_s.
  - intros (Y & M & D & h & m & s & -> & HY & HM & HD & Hh & Hm & Hs).
    exists Y, (":" +:+ M +:+ ":" +:+ D +:+ " " +:+ h +:+ ":" +:+ m +:+ ":" +:+ s).
    do 2 (split; [done|]). eexists. split; [reflexivity|].
    exists M, (":" +:+ D +:+ " " +:+ h +:+ ":" +:+ m +:+ ":" +:+ s).
    do 2 (split; [done|]). eexists. split; [reflexivity|].
    exists D, (" " +:+ h +:+ ":" +:+ m +:+ ":" +:+ s).
    do 2 (split; [done|]). eexists. split; [reflexivity|].
    exists h, (":" +:+ m +:+ ":" +:+ s).
    do 2 (split; [done|]). eexists. split; [reflexivity|].
    exists m, (":" +:+ s).
    do 2 (split; [done|]). eexists. split; [reflexivity|].
    exists s, EmptyString. by rewrite app_nil_r_s.
Qed.

(** The groups of a match are the six runs of digits. *)
Lemma timestamp_re_captures w g :
  Re.captures timestamp_re EmptyString ∅ w g ->
  exists Y M D h m s,
    w = Y +:+ ":" +:+ M +:+ ":" +:+ D +:+ " " +:+ h +:+ ":" +:+ m +:+ ":" +:+ s /\
    digits 2 4 Y /\ digits 1 2 M /\ digits 1 2 D /\
    digits 1 2 h /\ digits 1 2 m /\ digits 1 2 s /\
    g = timestamp_groups Y M D h m s.
Proof.
  unfold timestamp_re. rewrite <- (app_nil_r (Re.group "ss" _)).
  intros (Y & ? & -> & HY & (? & -> & H)%ReFacts.captures_lit)%ReFacts.captures_group24.
  apply ReFacts.captures_group12 in H as (M & ? & -> & HM & (? & -> & H)%ReFacts.captures_lit).
  apply ReFacts.captures_group12 in H as (D & ? & -> & HD & (? & -> & H)%ReFacts.captures_lit).
  apply ReFacts.captures_group12 in H as (h & ? & -> & Hh & (? & -> & H)%ReFacts.captures_lit).
  apply ReFacts.captures_group12 in H as (m & ? & -> & Hm & (? & -> & H)%ReFacts.captures_lit).
  apply ReFacts.captures_group12 in H as (s & ? & -> & Hs & [-> ->]%ReFacts.captures_nil).
  exists Y, M, D, h, m, s. rewrite app_nil_r_s.
  split; [done|]. repeat (split; [assumption|]). reflexivity.
Qed.

Section TimestampParse.
Context {FS : Type} `{!Env FS}.

(** C3, as the code has it.  The timestamp parses exactly when the trimmed
    string contains, anywhere, two to four digits, a colon, one or two
    digits, a colon, one or two digits, a space, and three more groups of
    one or two digits separated by colons (the year needs two digits, and
    text may surround the match); a non-empty timestamp that does not is
    skipped with "Timestamp not in correct format".  The groups YYYY, MM,
    DD, hh, mm and ss of a match are the six runs of digits of such a
    substring. *)
Theorem timestamp_parse (raw : string) :
  (is_Some (parse_timestamp raw) <->
   exists pre Y M D h m s post,
     Py.strip raw
     = pre +:+ (Y +:+ ":" +:+ M +:+ ":" +:+ D +:+ " " +:+ h +:+ ":" +:+ m +:+ ":" +:+ s)
           +:+ post /\
     digits 2 4 Y /\ digits 1 2 M /\ digits 1 2 D /\
     digits 1 2 h /\ digits 1 2 m /\ digits 1 2 s)
  /\ (forall g, parse_timestamp raw = Some g ->
      exists pre Y M D h m s post,
        Py.strip raw
        = pre +:+ (Y +:+ ":" +:+ M +:+ ":" +:+ D +:+ " " +:+ h +:+ ":" +:+ m +:+ ":" +:+ s)
              +:+ post /\
        digits 2 4 Y /\ digits 1 2 M /\ digits 1 2 D /\
        digits 1 2 h /\ digits 1 2 m /\ digits 1 2 s /\
        g = timestamp_groups Y M D h m s)
  /\ (forall (a : args) fuel root w f (st : state FS) seq d,
      hidden_skip a f = false ->
      get_exif_data (fs st) (Py.path_join root f) = ExifData d ->
      select_timestamp d = Some raw ->
      raw <> EmptyString ->
      parse_timestamp raw = None ->
      process_file a fuel root w f st seq
      = Done (State (fs st) (deployment_name st)
                (skipped_files st ++ [(Py.path_join root f, "Timestamp not in correct format")])
                (stdout st), seq)).
Proof.
  split; [|split].
  - unfold parse_timestamp. rewrite ReFacts.search_iff.
    setoid_rewrite timestamp_re_matches. split.
    + intros (pre & w & post & Hs & Y & M & D & h & m & s & -> & H).
      by exists pre, Y, M, D, h, m, s, post.
    + intros (pre & Y & M & D & h & m & s & post & Hs & H).
      eexists pre, _, post. split; [done|]. by exists Y, M, D, h, m, s.
  - intros g (pre & w & post & Hs & Hw)%ReFacts.search_captures.
    apply timestamp_re_captures in Hw as (Y & M & D & h & m & s & -> & H).
    by exists pre, Y, M, D, h, m, s, post.
  - intros a fuel root w f st seq d Hh He Hsel Hne Hp.
    unfold process_file.
    rewrite (plan_file_malformed _ _ _ _ _ _ _ d); [done..| |].
    + rewrite Hsel. simpl. apply negb_true_iff. by apply String.eqb_neq.
    + by rewrite Hsel.
Qed.

End TimestampParse.

(** C3, as stated, fails: a year of one digit is in the grammar
    [\d{1,4}:\d{1,2}:\d{1,2} \d{1,2}:\d{1,2}:\d{1,2}], yet the pattern of
    line 191 wants two, and the file is skipped. *)
Lemma one_digit_year_rejected :
  Re.matches spec_timestamp_grammar (Py.strip "5:04:05 06:07:08")
  /\ parse_timestamp "5:04:05 06:07:08" = None
  /\ skipped_files <$>
       done (main (args_same_second false) 10 fs_one_digit_year)
     = Some [("/r/a.jpg", "Timestamp not in correct format")].
Proof.
  split; [|split].
  - apply ReFacts.fullmatch_iff. vm_compute. eauto.
  - vm_compute. reflexivity.
  - vm_compute. reflexivity.
Qed.

(** C7, as stated, fails: a [DateTimeOriginal] that is present but empty
    is passed over, and the file is renamed after [DateTimeDigitized]. *)
Lemma empty_original_falls_back :
  exists d,
    get_exif_data fs_empty_original "/r/a.jpg" = ExifData d
    /\ d !! "DateTimeOriginal" = Some EmptyString
    /\ select_timestamp d <> d !! "DateTimeOriginal"
    /\ select_timestamp d = Some "2023:04:05 06:07:08"
    /\ stdout <$> done (main (args_same_second false) 10 fs_empty_original)
       = Some ["Processing folder: /r"; "a.jpg --> 2023-04-05_06-07-08.JPEG"; ""].
Proof.
  eexists. split; [vm_compute; reflexivity|].
  split; [vm_compute; reflexivity|]. split; [vm_compute; discriminate|].
  split; vm_compute; reflexivity.
Qed.

Lemma timestamp_source_witness :
  select_timestamp burst_exif = burst_exif !! "DateTimeOriginal".
Proof. apply (proj1 (timestamp_source (FS := simple_fs) burst_exif)). reflexivity. Defined.

(** C4, as stated, fails: the first of two photographs takes the value 1
    from the counter, its rename fails and it is skipped; the second gets
    the value 2, although no file that was not skipped came before it. *)
Lemma failed_rename_takes_sequence_value :
  (fun st => (skipped_files st, stdout st))
    <$> done (main args_rename_fails 10 fs_rename_fails)
  = Some ([("/r/a.jpg", "Failed to rename file")],
          ["Processing folder: /r"; "b.jpg --> 2.JPEG"; "";
           nl +:+ "Skipped Files:" +:+ nl +:+ tab +:+ "/r/a.jpg (Failed to rename file)"])
  /\ snd <$> done (process_files args_rename_fails 10 "/r" 1 ["a.jpg"; "b.jpg"]
                     (State fs_rename_fails (Some "dep") [] []) 1)
     = Some 3.
Proof. split; vm_compute; reflexivity. Qed.





(** A photograph whose [Make] field ends in a NUL, as PIL leaves it when
    the camera pads the field with two: [os.rename] raises [ValueError] for
    the name the template [{Make}] gives, and the run ends. *)
Definition fs_nul_make : simple_fs :=
  SimpleFS (<["/r/a.jpg" := jpeg [(36867, "2023:04:05 06:07:00");
                                  (271, "Canon" +:+ String "000" EmptyString)]]>
           (<["/r/b.jpg" := jpeg [(36867, "2023:04:05 06:07:01"); (271, "Nikon")]]> ∅)) []
           (<["/r" := Tree "r" ["a.jpg"; "b.jpg"] []]> ∅).

Example nul_name_ends_the_run :
  main args_make 10 fs_nul_make
  = Raised Py.ValueError (State fs_nul_make (Some "dep") [] ["Processing folder: /r"]).
Proof. vm_compute. reflexivity. Qed.

(** A directory [/r] that holds a text file and, one level down, a
    photograph: the full path of the photograph's new name has four
    segments.  The walk is recursive and no deployment name is given. *)
Definition fs_below : simple_fs :=
  SimpleFS (<["/r/n.txt" := None]>
           (<["/r/sub/x.jpg" := photo "2023:04:05 06:07:08"]> ∅)) ["/r/sub"]
           (<["/r" := Tree "r" ["n.txt"] [Tree "sub" ["x.jpg"] []]]> ∅).

Definition args_below : args :=
  Args 1 true false false None default_timestamp_format false false ["/r"].

(** The exception of C10 ends [main] from the second directory of the walk:
    nothing is skipped, and the listing of skipped files is never printed. *)
Lemma short_path_witness :
  main args_below 10 fs_below
  = Raised Py.IndexError
      (State fs_below None [] ["Processing folder: /r"; ""; "Processing folder: /r/sub"]).
Proof.
  refine (proj1 (proj2 (proj2
    (short_path_raises_index_error args_below 10 fs_below 1 "/r/sub" 1 "x.jpg"
       (State fs_below None [] ["Processing folder: /r"; ""; "Processing folder: /r/sub"]) 1
       shallow_exif shallow_groups "2023-04-05_06-07-08.JPEG" _ _ _ _ _ _ _ _)))).
  - vm_compute. reflexivity.
  - reflexivity.
  - reflexivity.
  - vm_compute. reflexivity.
  - reflexivity.
  - vm_compute. reflexivity.
  - vm_compute. reflexivity.
  - vm_compute. lia.
Defined.

(** ** Hidden files and directories, and the recursive flag (lines 153, 167 and 252) *)

Section Hidden.
Context {FS : Type} `{!Env FS}.
Implicit Types (a : args) (st : state FS).

(** A hidden file is passed over when [-i] is not given. *)
Lemma hidden_file_passed_over a fuel root w f st seq :
  hidden a = false -> Py.startswith f "." = true ->
  process_file a fuel root w f st seq = Done (st, seq).
Proof.
  intros Hi Hf. unfold process_file. rewrite plan_file_hidden; [done|].
  unfold hidden_skip. by rewrite Hi, Hf.
Qed.

(** A hidden directory is passed over when [-i] is not given; the walk goes
    on with what [os.walk] yields next. *)
Lemma hidden_dir_passed_over a fuel top i n l st :
  walk (fs st) top !! i = Some l ->
  hidden a = false -> Py.startswith (Py.basename (l_root l)) "." = true ->
  walk_loop a fuel top i (S n) st = walk_loop a fuel top (S i) n st.
Proof. intros Hl Hi Hd. simpl. by rewrite Hl, Hi, Hd. Qed.

(** Without [-r], a first directory that is not passed over is the only
    one processed. *)
Lemma non_recursive_first_only a fuel top i n l st :
  walk (fs st) top !! i = Some l ->
  recursive a = false ->
  negb (hidden a) && Py.startswith (Py.basename (l_root l)) "." = false ->
  walk_loop a fuel top i (S n) st = process_dir a fuel l st.
Proof.
  intros Hl Hr Hd. simpl. rewrite Hl, Hd, Hr. simpl.
  by destruct (process_dir a fuel l st).
Qed.

End Hidden.

(** C6 fails on the code.  Given a hidden directory as input path, without
    [-r] and without [-i], line 154 passes over it with [continue], which
    also passes over the [break] of line 253: the walk goes on into the
    subdirectory, whose photograph is renamed, although only the root
    directory of an input path is to be processed when [-r] is absent. *)
Theorem hidden_root_processes_subdirectory :
  walk fs_hidden_root "/in/.trap"
  = [Listing "/in/.trap" ["sub"] []; Listing "/in/.trap/sub" [] ["x.jpg"]]
  /\ (fun st => (stdout st,
                 isfile (fs st) "/in/.trap/sub/x.jpg",
                 isfile (fs st) "/in/.trap/sub/dep_2023-04-05_06-07-08.JPEG"))
       <$> done (main args_hidden_root 10 fs_hidden_root)
     = Some (["Processing folder: /in/.trap/sub";
              "x.jpg --> 2023-04-05_06-07-08.JPEG"; ""], false, true).
Proof. split; vm_compute; reflexivity. Qed.

(** ** The walk reads each directory when it comes to it

    With the deployment name [sub/d] the photograph of [/r] is moved into
    [/r/sub].  The walk, which lists [/r/sub] only afterwards, finds it
    there; its next name would be in [/r/sub/sub], which does not exist, so
    that the second rename fails. *)
Definition fs_into_sub : simple_fs :=
  SimpleFS (<["/r/a.jpg" := photo "2023:04:05 06:07:08"]> ∅) []
           (<["/r" := Tree "r" ["a.jpg"] [Tree "sub" [] []]]> ∅).

Definition args_into_sub : args :=
  Args 1 true false false (Some "sub/d") default_timestamp_format false false ["/r"].

Example walk_is_lazy :
  (fun st => (skipped_files st, stdout st, walk (fs st) "/r"))
    <$> done (main args_into_sub 10 fs_into_sub)
  = Some ([("/r/sub/d_2023-04-05_06-07-08.JPEG", "Failed to rename file")],
          ["Processing folder: /r"; "a.jpg --> 2023-04-05_06-07-08.JPEG"; "";
           "Processing folder: /r/sub"; "";
           nl +:+ "Skipped Files:" +:+ nl +:+ tab
              +:+ "/r/sub/d_2023-04-05_06-07-08.JPEG (Failed to rename file)"],
          [Listing "/r" ["sub"] [];
           Listing "/r/sub" [] ["d_2023-04-05_06-07-08.JPEG"]]).
Proof. vm_compute. reflexivity. Qed.

(** An input path given twice is walked twice, and the second walk meets
    the file under the name the first gave it. *)
Definition args_twice : args :=
  Args 1 false false false (Some "dep") default_timestamp_format false false ["/r"; "/r"].

Example second_walk_meets_renamed_file :
  stdout <$> done (main args_twice 10 fs_shallow)
  = Some ["Processing folder: /r"; "a.jpg --> 2023-04-05_06-07-08.JPEG"; "";
          "Processing folder: /r";
          "Duplicate file found: /r/dep_2023-04-05_06-07-08.JPEG";
          "Renaming file to: /r/dep_2023-04-05_06-07-09.JPEG";
          "dep_2023-04-05_06-07-08.JPEG --> 2023-04-05_06-07-09.JPEG"; ""].
Proof. vm_compute. reflexivity. Qed.

(** ** Fuel

    A result obtained with some fuel is the result with any larger fuel:
    [Done] and [Raised] are what the program does, and only [OutOfFuel]
    depends on the fuel given. *)

Section Fuel.
Context {FS : Type} `{!Env FS}.
Implicit Types (a : args) (st : state FS) (seq : Z).

Lemma resolve_collision_mono fuel fuel' root dn data n st :
  (fuel <= fuel')%nat ->
  within_fuel (resolve_collision fuel root dn data n st)
              (resolve_collision fuel' root dn data n st).
Proof.
  revert fuel' n st. induction fuel as [|fuel IH]; intros fuel' n st Hle.
  - simpl. destruct (isfile (fs st) (complete_name root dn n)) eqn:Hf; [by left|].
    right. by rewrite resolve_collision_free.
  - destruct fuel' as [|fuel']; [lia|]. simpl.
    destruct (isfile (fs st) (complete_name root dn n)); [|by right].
    destruct (next_name data n) as [n1|e]; [|by right]. apply IH. lia.
Qed.

Lemma plan_file_mono a fuel fuel' root w f st seq :
  (fuel <= fuel')%nat ->
  within_fuel (plan_file a fuel root w f st seq) (plan_file a fuel' root w f st seq).
Proof.
  intros Hle. unfold plan_file.
  destruct (negb (hidden a) && _); [by right|].
  destruct (get_exif_data _ _) as [| |d]; [by right..|].
  destruct (negb (truthy _)); [by right|].
  destruct (parse_timestamp _) as [groups|]; [|by right].
  destruct (Py.format _ _) as [n|e]; [|by right].
  destruct (derive_deployment_name _ _) as [dn|e]; [|by right].
  match goal with |- context [resolve_collision fuel ?r ?d ?da ?n0 ?s] =>
    destruct (resolve_collision_mono fuel fuel' r d da n0 s Hle) as [-> | ->] end;
    [by left|by right].
Qed.

Lemma process_file_mono a fuel fuel' root w f st seq :
  (fuel <= fuel')%nat ->
  within_fuel (process_file a fuel root w f st seq) (process_file a fuel' root w f st seq).
Proof.
  intros Hle. unfold process_file.
  destruct (plan_file_mono a fuel fuel' root w f st seq Hle) as [-> | ->];
    [by left|by right].
Qed.

Lemma process_files_mono a fuel fuel' root w files st seq :
  (fuel <= fuel')%nat ->
  within_fuel (process_files a fuel root w files st seq)
              (process_files a fuel' root w files st seq).
Proof.
  intros Hle. revert st seq. induction files as [|f files IH]; intros st seq; simpl.
  - by right.
  - destruct (process_file_mono a fuel fuel' root w f st seq Hle) as [-> | ->];
      [by left|].
    destruct (process_file a fuel' root w f st seq) as [[st1 seq1]| |]; by (apply IH || right).
Qed.

Lemma process_dir_mono a fuel fuel' l st :
  (fuel <= fuel')%nat ->
  within_fuel (process_dir a fuel l st) (process_dir a fuel' l st).
Proof.
  intros Hle. unfold process_dir.
  match goal with |- context [process_files a fuel ?r ?w ?fl ?s ?q] =>
    destruct (process_files_mono a fuel fuel' r w fl s q Hle) as [-> | ->] end;
    [by left|by right].
Qed.

Lemma walk_loop_mono a fuel fuel' top i n st :
  (fuel <= fuel')%nat ->
  within_fuel (walk_loop a fuel top i n st) (walk_loop a fuel' top i n st).
Proof.
  intros Hle. revert i st. induction n as [|n IH]; intros i st; simpl.
  - by right.
  - destruct (walk (fs st) top !! i) as [l|]; [|by right].
    destruct (negb (hidden a) && _); [apply IH|].
    destruct (process_dir_mono a fuel fuel' l st Hle) as [-> | ->]; [by left|].
    destruct (process_dir a fuel' l st) as [st1| |]; [|by right..].
    destruct (negb (recursive a)); [by right|apply IH].
Qed.

Lemma input_loop_mono a fuel fuel' paths st :
  (fuel <= fuel')%nat ->
  within_fuel (input_loop a fuel paths st) (input_loop a fuel' paths st).
Proof.
  intros Hle. revert st. induction paths as [|p paths IH]; intros st; simpl.
  - by right.
  - destruct (walk_loop_mono a fuel fuel' p 0 (length (walk (fs st) p)) st Hle)
      as [-> | ->]; [by left|].
    destruct (walk_loop a fuel' p 0 (length (walk (fs st) p)) st) as [st1| |];
      by (apply IH || right).
Qed.

(** What [main] does with some fuel it does with any larger fuel. *)
Lemma main_mono a fuel fuel' fs0 :
  (fuel <= fuel')%nat ->
  within_fuel (main a fuel fs0) (main a fuel' fs0).
Proof.
  intros Hle. unfold main.
  match goal with |- context [input_loop a fuel ?ps ?s] =>
    destruct (input_loop_mono a fuel fuel' ps s Hle) as [-> | ->] end;
    [by left|by right].
Qed.

End Fuel.

(** * Further properties of [catir.py] *)

(** ** Reading the EXIF block ([get_exif_data], lines 104-131) *)

Section ExifData.
Context {FS : Type} `{!Env FS}.

(** The values of the items whose tag id [TAGS] names [name], in the order
    of the EXIF block. *)
Definition tagged (name : string) (items : list (Z * string)) : list string :=
  omap (fun '(k, v) => if decide (TAGS !! k = Some name) then Some v else None) items.

(** The dictionary comprehension of lines 121-125. *)
Definition exif_dict (items : list (Z * string)) : gmap string string :=
  foldl (fun (d : gmap string string) '(k, v) =>
           match TAGS !! k with
           | Some name => <[name := v]> d
           | None => d
           end) ∅ items.

Lemma exif_dict_lookup name items : exif_dict items !! name = last (tagged name items).
Proof.
  unfold exif_dict, tagged.
  induction items as [|[k v] items IH] using rev_ind; [done|].
  rewrite foldl_app, omap_app. simpl.
  destruct (TAGS !! k) as [name'|] eqn:Hk.
  - destruct (decide (name' = name)) as [->|Hne].
    + rewrite lookup_insert_eq. rewrite decide_True by done. by rewrite last_snoc.
    + rewrite lookup_insert_ne by done. rewrite decide_False by congruence.
      simpl. by rewrite app_nil_r.
  - rewrite decide_False by done. simpl. by rewrite app_nil_r.
Qed.

Lemma get_exif_data_opened fs0 img_file img items :
  image_open fs0 img_file = Some img -> img_getexif img = Some items ->
  get_exif_data fs0 img_file = ExifData (<["format" := img_format img]> (exif_dict items)).
Proof. unfold get_exif_data, exif_dict. by intros -> ->. Qed.

(** X1. Whatever the EXIF block holds, the dictionary returned for an image
    has the key [format], and its value is [img.format]: an EXIF item that
    [TAGS] would name [format] is overwritten by line 130, so the extension
    of a new name never comes from the EXIF block and the default of
    [exif_data.get('format', '')] on line 206 is never used. *)
Theorem exif_format_is_image_format fs0 img_file d :
  get_exif_data fs0 img_file = ExifData d ->
  exists img, image_open fs0 img_file = Some img
              /\ d !! "format" = Some (img_format img)
              /\ default EmptyString (d !! "format") = img_format img.
Proof.
  unfold get_exif_data.
  destruct (image_open fs0 img_file) as [img|]; [|done].
  destruct (img_getexif img) as [items|]; [|done].
  intros [= <-]. exists img. rewrite lookup_insert_eq. done.
Qed.

(** X2. For every other key, the dictionary holds the value of the last
    item of the EXIF block whose tag id [TAGS] names that key, and nothing
    when there is no such item: items with an unknown tag id are dropped,
    and of two items under one name the later wins. *)
Theorem exif_lookup_is_last_tagged fs0 img_file img items name :
  image_open fs0 img_file = Some img -> img_getexif img = Some items ->
  name <> "format" ->
  exists d, get_exif_data fs0 img_file = ExifData d
            /\ d !! name = last (tagged name items)
            /\ (d !! name = None <->
                forall k v, (k, v) ∈ items -> TAGS !! k <> Some name).
Proof.
  intros Ho Hi Hn. eexists. split; [by apply get_exif_data_opened|].
  rewrite lookup_insert_ne by done. rewrite exif_dict_lookup. split; [done|].
  rewrite last_None. unfold tagged. split.
  - intros Hnil k v Hin Hk.
    assert (v ∈ omap (fun '(k, v) => if decide (TAGS !! k = Some name) then Some v else None)
                  items) as Hv.
    { apply list_elem_of_omap. exists (k, v). split; [done|]. by rewrite decide_True. }
    rewrite Hnil in Hv. by apply elem_of_nil in Hv.
  - intros Hall. destruct (omap _ items) as [|v l] eqn:Ho'; [done|].
    assert (v ∈ v :: l) as Hv by left. rewrite <- Ho' in Hv.
    apply list_elem_of_omap in Hv as ([k v'] & Hin & Hd).
    destruct (decide (TAGS !! k = Some name)) as [Hk|]; [|done].
    by destruct (Hall k v' Hin).
Qed.

End ExifData.

(** ** A well-formed timestamp and the default template (lines 190-211) *)

Lemma digit_not_lit c a :
  Py.is_digit c = true -> Py.is_digit a = false -> Ascii.eqb c a = false.
Proof. intros Hc Ha. apply Ascii.eqb_neq. intros ->. congruence. Qed.

(** A group of one or two digits followed by a literal that is no digit:
    the matcher takes all the digits there are. *)
Lemma match_group12_lit anchored n a q d rest cur g :
  digits 1 2 d -> Py.is_digit a = false ->
  Re.match_here anchored (Re.group n [Re.Digit; Re.OptDigit] ++ Re.Lit a :: q)
    (d +:+ String a rest) cur g
  = Re.match_here anchored q rest EmptyString (<[n := d]> g).
Proof.
  intros [Hd Hl] Ha.
  destruct d as [|c1 [|c2 [|c3 d]]]; simpl in Hl; try lia; simpl in Hd.
  - rewrite andb_true_r in Hd. sapp. simpl. rewrite Hd, Ha, Ascii.eqb_refl. done.
  - apply andb_true_iff in Hd as [H1 H2]. rewrite andb_true_r in H2.
    sapp. simpl. rewrite H1, H2, Ascii.eqb_refl.
    destruct (Re.match_here anchored q rest "" _); [done|].
    by rewrite (digit_not_lit c2 a).
Qed.

(** The same for the year, of two to four digits. *)
Lemma match_group24_lit anchored n a q d rest cur g :
  digits 2 4 d -> Py.is_digit a = false ->
  Re.match_here anchored
    (Re.group n [Re.Digit; Re.Digit; Re.OptDigit; Re.OptDigit] ++ Re.Lit a :: q)
    (d +:+ String a rest) cur g
  = Re.match_here anchored q rest EmptyString (<[n := d]> g).
Proof.
  intros [Hd Hl] Ha.
  destruct d as [|c1 [|c2 [|c3 [|c4 [|c5 d]]]]]; simpl in Hl; try lia; simpl in Hd;
    repeat (apply andb_true_iff in Hd as [? Hd]); sapp; simpl;
    repeat match goal with H : Py.is_digit _ = _ |- _ => rewrite H end;
    rewrite ?Ascii.eqb_refl.
  - done.
  - destruct (Re.match_here anchored q rest "" _); [done|].
    by rewrite (digit_not_lit c3 a).
  - destruct (Re.match_here anchored q rest "" _); [done|].
    by rewrite !(digit_not_lit c4 a), ?(digit_not_lit c3 a).
Qed.

(** The last group, at the end of the string. *)
Lemma match_group12_end anchored n d cur g :
  digits 1 2 d ->
  Re.match_here anchored (Re.group n [Re.Digit; Re.OptDigit]) d cur g
  = Some (<[n := d]> g).
Proof.
  intros [Hd Hl].
  destruct d as [|c1 [|c2 [|c3 d]]]; simpl in Hl; try lia; simpl in Hd.
  - rewrite andb_true_r in Hd. simpl. rewrite Hd. by destruct anchored.
  - apply andb_true_iff in Hd as [H1 H2]. rewrite andb_true_r in H2.
    simpl. rewrite H1, H2. by destruct anchored.
Qed.

Lemma search_at_start p s g :
  Re.match_here false p s EmptyString ∅ = Some g -> Re.search p s = Some g.
Proof. intros H. destruct s; simpl; by rewrite H. Qed.

Lemma parse_timestamp_exact raw Y M D h m s :
  Py.strip raw = Y +:+ ":" +:+ M +:+ ":" +:+ D +:+ " " +:+ h +:+ ":" +:+ m +:+ ":" +:+ s ->
  digits 2 4 Y -> digits 1 2 M -> digits 1 2 D ->
  digits 1 2 h -> digits 1 2 m -> digits 1 2 s ->
  parse_timestamp raw = Some (timestamp_groups Y M D h m s).
Proof.
  intros Hraw HY HM HD Hh Hm Hs. unfold parse_timestamp. rewrite Hraw.
  apply search_at_start.
  change timestamp_re
    with (Re.group "YYYY" [Re.Digit; Re.Digit; Re.OptDigit; Re.OptDigit] ++ Re.Lit ":" ::
          Re.group "MM" [Re.Digit; Re.OptDigit] ++ Re.Lit ":" ::
          Re.group "DD" [Re.Digit; Re.OptDigit] ++ Re.Lit " " ::
          Re.group "hh" [Re.Digit; Re.OptDigit] ++ Re.Lit ":" ::
          Re.group "mm" [Re.Digit; Re.OptDigit] ++ Re.Lit ":" ::
          Re.group "ss" [Re.Digit; Re.OptDigit]).
  change (":" +:+ M +:+ ":" +:+ D +:+ " " +:+ h +:+ ":" +:+ m +:+ ":" +:+ s)
    with (String ":" (M +:+ String ":" (D +:+ String " " (h +:+ String ":"
            (m +:+ String ":" s))))).
  rewrite (match_group24_lit false "YYYY" ":") by done.
  rewrite (match_group12_lit false "MM" ":") by done.
  rewrite (match_group12_lit false "DD" " ") by done.
  rewrite (match_group12_lit false "hh" ":") by done.
  rewrite (match_group12_lit false "mm" ":") by done.
  by rewrite match_group12_end.
Qed.

(** X3. A timestamp that, once trimmed, is exactly [Y:M:D h:m:s] with a
    year of two to four digits and the other fields of one or two digits is
    parsed, and its groups are these six fields: the greedy pattern takes
    every digit of every field. *)
Theorem well_formed_timestamp_groups raw Y M D h m s :
  Py.strip raw = Y +:+ ":" +:+ M +:+ ":" +:+ D +:+ " " +:+ h +:+ ":" +:+ m +:+ ":" +:+ s ->
  digits 2 4 Y -> digits 1 2 M -> digits 1 2 D ->
  digits 1 2 h -> digits 1 2 m -> digits 1 2 s ->
  parse_timestamp raw = Some (timestamp_groups Y M D h m s).
Proof. apply parse_timestamp_exact. Qed.

(** A character that may stand in a field name and does not end it. *)
Definition name_char (c : ascii) : bool :=
  negb (Ascii.eqb c "!" || Ascii.eqb c ":" || Ascii.eqb c "." || Ascii.eqb c "["
        || Ascii.eqb c "{" || Ascii.eqb c "}")%char.

Section DefaultTemplate.
Context {FS : Type} `{!Env FS}.

Lemma format_go_name_char kw f c s :
  name_char c = true ->
  Py.format_go kw (Py.Name f) (String c s) = Py.format_go kw (Py.Name (String c f)) s.
Proof.
  unfold name_char. intros Hc.
  destruct c as [[] [] [] [] [] [] [] []]; try reflexivity; simpl in Hc; discriminate.
Qed.

Lemma plain_name_chars name :
  all_chars name_char name = true -> Py.plain_name name = true.
Proof.
  induction name as [|c name IH]; intros Hn; simpl; [done|].
  simpl in Hn. apply andb_true_iff in Hn as [Hc Hn]. rewrite IH, andb_true_r by done.
  unfold name_char in Hc.
  destruct c as [[] [] [] [] [] [] [] []]; try reflexivity; simpl in Hc; discriminate.
Qed.

Lemma format_go_in_field kw f name s :
  all_chars name_char name = true ->
  Py.format_go kw (Py.Name f) (name +:+ String "}" s)
  = Py.followed_by (Py.render kw (String.rev_app f name) None EmptyString)
                   (Py.format_go kw Py.Text s).
Proof.
  revert f. induction name as [|c name IH]; intros f Hn; sapp.
  - reflexivity.
  - simpl in Hn. apply andb_true_iff in Hn as [Hc Hn].
    rewrite format_go_name_char by done. by rewrite IH.
Qed.

(** [format] replaces a field [{name}] by [kwargs[name]]. *)
Lemma format_go_field (kw : gmap string string) name v s :
  all_chars name_char name = true -> Py.all_digits name = false ->
  kw !! name = Some v ->
  Py.format_go kw Py.Text (String "{" (name +:+ String "}" s))
  = match Py.format_go kw Py.Text s with
    | Py.Val r => Py.Val (v +:+ r)
    | Py.Exn e => Py.Exn e
    end.
Proof.
  intros Hn Hd Hv.
  assert (Py.format_go kw Py.Text (String "{" (name +:+ String "}" s))
          = Py.format_go kw (Py.Name EmptyString) (name +:+ String "}" s)) as ->.
  { destruct name as [|c name]; [done|]. sapp.
    simpl in Hn. apply andb_true_iff in Hn as [Hc _].
    unfold name_char in Hc.
    destruct c as [[] [] [] [] [] [] [] []]; try reflexivity; simpl in Hc; discriminate. }
  rewrite format_go_in_field by done.
  change (String.rev_app "" name) with name.
  unfold Py.render. rewrite plain_name_chars by done.
  unfold Py.lookup_field. by rewrite Hd, Hv.
Qed.

Lemma timestamp_groups_lookup Y M D h m s :
  let g := timestamp_groups Y M D h m s in
  g !! "YYYY" = Some Y /\ g !! "MM" = Some M /\ g !! "DD" = Some D /\
  g !! "hh" = Some h /\ g !! "mm" = Some m /\ g !! "ss" = Some s /\
  g !! "ext" = None.
Proof. unfold timestamp_groups. repeat split; by simplify_map_eq. Qed.

Lemma format_default_template (d : gmap string string) Y M D h m s root seq w :
  Py.format (default_timestamp_format +:+ ".{ext}")
    (new_image_data_of d (timestamp_groups Y M D h m s) root seq w)
  = Py.Val (Y +:+ "-" +:+ M +:+ "-" +:+ D +:+ "_" +:+ h +:+ "-" +:+ m +:+ "-" +:+ s
            +:+ "." +:+ default EmptyString (d !! "format")).
Proof.
  destruct (timestamp_groups_lookup Y M D h m s) as (HY & HM & HD & Hh & Hm & Hs & He).
  set (data := new_image_data_of d (timestamp_groups Y M D h m s) root seq w).
  assert (forall k v, timestamp_groups Y M D h m s !! k = Some v -> data !! k = Some v)
    as Hg by (intros k v; apply lookup_union_Some_l).
  assert (data !! "ext" = Some (default EmptyString (d !! "format"))) as Hext.
  { unfold data, new_image_data_of. rewrite lookup_union_r by done. by simplify_map_eq. }
  unfold Py.format.
  change (default_timestamp_format +:+ ".{ext}")
    with (String "{" ("YYYY" +:+ String "}" (String "-"
         (String "{" ("MM" +:+ String "}" (String "-"
         (String "{" ("DD" +:+ String "}" (String "_"
         (String "{" ("hh" +:+ String "}" (String "-"
         (String "{" ("mm" +:+ String "}" (String "-"
         (String "{" ("ss" +:+ String "}" ".{ext}"))))))))))))))))).
  rewrite (format_go_field data "YYYY" Y) by (done || by apply Hg).
  rewrite format_go_lit by done.
  rewrite (format_go_field data "MM" M) by (done || by apply Hg).
  rewrite format_go_lit by done.
  rewrite (format_go_field data "DD" D) by (done || by apply Hg).
  rewrite format_go_lit by done.
  rewrite (format_go_field data "hh" h) by (done || by apply Hg).
  rewrite format_go_lit by done.
  rewrite (format_go_field data "mm" m) by (done || by apply Hg).
  rewrite format_go_lit by done.
  rewrite (format_go_field data "ss" s) by (done || by apply Hg).
  by rewrite (format_ext data _ Hext).
Qed.

(** X4. With the default template, the candidate name built from the
    groups [Y], [M], [D], [h], [m], [s] of a timestamp is
    [Y-M-D_h-m-s.ext], where [ext] is the image format of the EXIF
    dictionary: a timestamp "2023:04:05 06:07:08" of a JPEG gives
    [2023-04-05_06-07-08.JPEG], whatever the other EXIF fields, the folder
    and the counter are. *)
Theorem default_template_name (d : gmap string string) Y M D h m s root seq w :
  Py.format (default_timestamp_format +:+ ".{ext}")
    (new_image_data_of d (timestamp_groups Y M D h m s) root seq w)
  = Py.Val (Y +:+ "-" +:+ M +:+ "-" +:+ D +:+ "_" +:+ h +:+ "-" +:+ m +:+ "-" +:+ s
            +:+ "." +:+ default EmptyString (d !! "format")).
Proof. apply format_default_template. Qed.

End DefaultTemplate.

(** ** No file is lost (lines 219-236, with POSIX [rename]) *)







(** ** A file that already bears its new name (lines 217-231) *)

Section Rerun.
Context {FS : Type} `{!Env FS}.

(** X6. The test of line 220 does not set the file itself apart.  A file
    of the default pattern that already bears the name its timestamp gives
    (as after an earlier run with the same deployment name) collides with
    itself and is renamed to the next second, when that name is free: running
    the program again on its own output renames the files again. *)
Theorem rerun_renames_again (a : args) fuel root w f (st : state FS) seq d groups
    prefix ext s dn :
  hidden_skip a f = false ->
  get_exif_data (fs st) (Py.path_join root f) = ExifData d ->
  truthy (select_timestamp d) = true ->
  parse_timestamp (default EmptyString (select_timestamp d)) = Some groups ->
  Py.format (timestamp_format a +:+ ".{ext}") (new_image_data_of d groups root seq w)
  = Py.Val (sec_name prefix ext s) ->
  new_image_data_of d groups root seq w !! "ext" = Some ext ->
  Py.len prefix = 17%nat -> plain prefix = true -> 0 <= s <= 99 ->
  deployment_name st = Some dn -> dn <> EmptyString ->
  Py.path_join root f = complete_name root dn (sec_name prefix ext s) ->
  isfile (fs st) (Py.path_join root f) = true ->
  isfile (fs st) (complete_name root dn (sec_name prefix ext (s + 1))) = false ->
  (1 <= fuel)%nat ->
  exists st',
    plan_file a fuel root w f st seq
    = Done (Planned (Py.path_join root f) (sec_name prefix ext (s + 1))
              (complete_name root dn (sec_name prefix ext (s + 1))) st' (seq + 1))
    /\ complete_name root dn (sec_name prefix ext (s + 1)) <> Py.path_join root f.
Proof.
  intros Hh He Ht Hp Hf Hext Hlen Hplain Hs Hdn Hne Hself Hold Hfree Hfuel.
  rewrite (plan_file_named _ _ _ _ _ _ _ d groups) by done.
  rewrite Hf, Hdn.
  rewrite derive_deployment_name_held by (simpl; by apply negb_true_iff, String.eqb_neq).
  destruct (resolve_collision_first_free 1 fuel root dn
              (new_image_data_of d groups root seq w) (sec_name prefix ext s)
              (set_deployment_name dn st) (sec_name prefix ext (s + 1)))
    as (st' & -> & _).
  - done.
  - simpl. by rewrite next_name_seconds.
  - done.
  - intros i Hi. assert (i = 0%nat) as -> by lia.
    exists (sec_name prefix ext s). split; [done|]. simpl. by rewrite <- Hself.
  - exists st'. split; [done|]. intros Heq. rewrite Heq in Hfree. congruence.
Qed.

End Rerun.

(** ** The derived deployment name (line 216) *)

Definition no_slash (s : string) : bool :=
  all_chars (fun c => negb (Ascii.eqb c "/")) s.

Lemma split_go_plain sep cur x :
  all_chars (fun c => negb (Ascii.eqb c sep)) x = true ->
  Py.split_go sep cur x = [String.rev_app cur x].
Proof.
  revert cur. induction x as [|c x IH]; intros cur Hx; simpl; [done|].
  simpl in Hx. apply andb_true_iff in Hx as [Hc Hx].
  apply negb_true_iff in Hc. rewrite Hc. by rewrite IH.
Qed.

Lemma split_go_app sep cur x rest :
  all_chars (fun c => negb (Ascii.eqb c sep)) x = true ->
  Py.split_go sep cur (x +:+ String sep rest)
  = String.rev_app cur x :: Py.split_go sep EmptyString rest.
Proof.
  revert cur. induction x as [|c x IH]; intros cur Hx; sapp; simpl.
  - by rewrite Ascii.eqb_refl.
  - simpl in Hx. apply andb_true_iff in Hx as [Hc Hx].
    apply negb_true_iff in Hc. rewrite Hc. by rewrite IH.
Qed.

(** [split] undoes [join] when no piece holds the separator. *)
Lemma split_join l :
  l <> [] -> Forall (fun s => no_slash s = true) l ->
  Py.split "/" (str_join "/" l) = l.
Proof.
  unfold Py.split. induction l as [|x [|y l] IH]; intros Hne Hall; [done| |].
  - simpl. apply Forall_inv in Hall. by rewrite split_go_plain.
  - change (str_join "/" (x :: y :: l)) with (x +:+ String "/" (str_join "/" (y :: l))).
    rewrite split_go_app by by apply Forall_inv in Hall.
    rewrite IH; [done|done|by apply Forall_inv_tail in Hall].
Qed.

Lemma str_join_snoc sep l x :
  l <> [] -> str_join sep (l ++ [x]) = str_join sep l +:+ sep +:+ x.
Proof.
  induction l as [|a [|b l] IH]; intros Hne; [done|done|].
  change (str_join sep ((a :: b :: l) ++ [x]))
    with (a +:+ sep +:+ str_join sep ((b :: l) ++ [x])).
  rewrite IH by done.
  change (str_join sep (a :: b :: l)) with (a +:+ sep +:+ str_join sep (b :: l)).
  by rewrite !app_assoc_s.
Qed.

Lemma string_last_char s :
  s <> EmptyString -> exists s' c, s = s' +:+ String c EmptyString.
Proof.
  induction s as [|a s IH]; [done|]. intros _.
  destruct s as [|b s].
  - by exists EmptyString, a.
  - destruct IH as (s' & c & Hs); [done|]. exists (String a s'), c. sapp. by rewrite Hs.
Qed.

Lemma get_last_char r c :
  String.get (Py.len (r +:+ String c EmptyString) - 1) (r +:+ String c EmptyString) = Some c.
Proof.
  rewrite len_app. simpl. replace (Py.len r + 1 - 1)%nat with (Py.len r) by lia.
  induction r as [|a r IH]; [done|]. sapp. simpl. exact IH.
Qed.

Lemma startswith_no_slash name : no_slash name = true -> Py.startswith name "/" = false.
Proof.
  unfold no_slash. destruct name as [|c name]; [done|]. intros Hn. simpl in Hn.
  apply andb_true_iff in Hn as [Hc _]. apply negb_true_iff, Ascii.eqb_neq in Hc.
  change (Py.startswith (String c name) "/")
    with (if ascii_dec "/" c then String.prefix "" name else false).
  destruct (ascii_dec "/" c); [congruence|done].
Qed.

(** [os.path.join] of a directory that does not end in a slash and a
    relative name. *)
Lemma path_join_plain r c name :
  c <> "/"%char -> no_slash name = true ->
  Py.path_join (r +:+ String c EmptyString) name
  = (r +:+ String c EmptyString) +:+ "/" +:+ name.
Proof.
  intros Hc Hn. unfold Py.path_join.
  rewrite startswith_no_slash by done.
  rewrite get_last_char.
  assert ((Py.len (r +:+ String c "") =? 0)%nat = false) as ->.
  { apply Nat.eqb_neq. rewrite len_app. simpl. lia. }
  apply Ascii.eqb_neq in Hc. by rewrite Hc.
Qed.

(** X7. When the directory of a file is [.../dn/a3/a2/a1] and the new
    name holds no slash, the deployment name derived on line 216 is [dn],
    the directory three levels above the one the file is in: the fifth
    segment from the end of the full path, the name being the first. *)
Theorem derived_name_is_third_directory_up cur pre dn a3 a2 a1 name :
  truthy cur = false ->
  Forall (fun s => no_slash s = true) (pre ++ [dn; a3; a2; a1]) ->
  a1 <> EmptyString -> no_slash name = true ->
  derive_deployment_name cur (Py.path_join (str_join "/" (pre ++ [dn; a3; a2; a1])) name)
  = Py.Val dn.
Proof.
  intros Hcur Hall Ha1 Hname.
  rewrite derive_deployment_name_unset by done.
  assert (Py.path_join (str_join "/" (pre ++ [dn; a3; a2; a1])) name
          = str_join "/" ((pre ++ [dn; a3; a2; a1]) ++ [name])) as ->.
  { rewrite (str_join_snoc "/" (pre ++ _)) by by destruct pre.
    destruct (string_last_char a1 Ha1) as (a1' & c & ->).
    assert (c <> "/"%char) as Hc.
    { apply Forall_app in Hall as [_ Hall].
      do 3 apply Forall_inv_tail in Hall. apply Forall_inv in Hall.
      unfold no_slash in Hall. rewrite all_chars_app in Hall.
      apply andb_true_iff in Hall as [_ Hall]. simpl in Hall.
      rewrite andb_true_r in Hall. by apply negb_true_iff, Ascii.eqb_neq in Hall. }
    replace (pre ++ [dn; a3; a2; a1' +:+ String c ""])
      with ((pre ++ [dn; a3; a2]) ++ [a1' +:+ String c ""]) by by rewrite <- app_assoc.
    rewrite (str_join_snoc "/" (pre ++ [dn; a3; a2])) by by destruct pre.
    assert (forall R : string,
              R +:+ "/" +:+ a1' +:+ String c "" = (R +:+ "/" +:+ a1') +:+ String c "")
      as Hassoc by (intros R; by rewrite !app_assoc_s).
    rewrite Hassoc. by rewrite path_join_plain. }
  rewrite split_join.
  - unfold Py.index_from_end. rewrite !length_app. simpl.
    replace (length pre + 4 + 1 <? 5)%nat with false by (symmetry; apply Nat.ltb_ge; lia).
    replace (length pre + 4 + 1 - 5)%nat with (length pre) by lia.
    rewrite <- app_assoc. rewrite lookup_app_r by lia.
    by replace (length pre - length pre)%nat with 0%nat by lia.
  - by destruct pre.
  - apply Forall_app. split; [done|]. by apply Forall_singleton.
Qed.

(** ** One pass of the loop on any stem that ends in two digits (lines 223-228) *)

Lemma take_all n s : (Py.len s <= n)%nat -> Py.take n s = s.
Proof.
  revert n. induction s as [|c s IH]; intros n Hn; [by destruct n|].
  destruct n as [|n]; simpl in *; [lia|]. rewrite IH; [done|lia].
Qed.

Lemma all_chars_take P n s : all_chars P s = true -> all_chars P (Py.take n s) = true.
Proof.
  revert n. induction s as [|c s IH]; intros n Hs; [by destruct n|].
  destruct n as [|n]; [done|]. simpl in *.
  apply andb_true_iff in Hs as [-> Hs]. by apply IH.
Qed.

Lemma two_digits_value d1 d2 :
  Py.is_digit d1 = true -> Py.is_digit d2 = true ->
  0 <= 10 * Py.digit_val d1 + Py.digit_val d2 <= 99.
Proof.
  intros H1%digit_cases H2%digit_cases. simpl in H1, H2.
  repeat (destruct H1 as [<-|H1]; [|]); try done;
  repeat (destruct H2 as [<-|H2]; [|]); try done; vm_compute; split; discriminate.
Qed.

Section AnyStem.
Context {FS : Type} `{!Env FS}.

Lemma next_name_any_stem (data : gmap string string) body d1 d2 ext :
  plain body = true -> Py.is_digit d1 = true -> Py.is_digit d2 = true ->
  data !! "ext" = Some ext ->
  next_name data (body +:+ String d1 (String d2 "") +:+ "." +:+ ext)
  = Py.Val (Py.take 17 (body +:+ String d1 (String d2 ""))
            +:+ Py.zfill 2 (Py.str (10 * Py.digit_val d1 + Py.digit_val d2 + 1))
            +:+ "." +:+ ext).
Proof.
  intros Hb Hd1 Hd2 He. unfold next_name.
  pose proof (two_digits_value d1 d2 Hd1 Hd2) as Hv.
  set (dd := String d1 (String d2 "")).
  assert (plain (body +:+ dd) = true) as Hstem.
  { unfold plain. rewrite all_chars_app. unfold plain in Hb. rewrite Hb.
    simpl. by rewrite !digit_plain. }
  replace (body +:+ dd +:+ "." +:+ ext) with ((body +:+ dd) +:+ "." +:+ ext)
    by by rewrite !app_assoc_s.
  rewrite split1_app.
  2:{ revert Hstem. apply all_chars_impl. intros c (H1 & _)%plain_char_spec.
      apply negb_true_iff. by apply Ascii.eqb_neq. }
  unfold Py.index0. cbv beta iota.
  change 2%nat with (Py.len dd) at 1. rewrite take_last_app.
  unfold dd at 1. rewrite int_two_digits by done.
  rewrite <- app_assoc_s. rewrite format_plain_ext with (ext := ext); [|..|done].
  - by rewrite app_assoc_s.
  - unfold plain. rewrite all_chars_app.
    rewrite (all_chars_take _ _ _ Hstem). simpl. apply plain_seconds. lia.
Qed.

(** X8. When the stem of a name that ends in two digits has at most 17
    characters (a year of two digits, say, or fields of one digit), a pass
    of the loop does not replace the seconds: [stem[:17]] is the whole stem,
    so the old seconds stay and the new ones are written after them;
    [23-04-05_06-07-08.JPEG] becomes [23-04-05_06-07-0809.JPEG]. *)
Theorem short_stem_keeps_old_seconds (data : gmap string string) body d1 d2 ext :
  plain body = true -> Py.is_digit d1 = true -> Py.is_digit d2 = true ->
  data !! "ext" = Some ext ->
  (Py.len (body +:+ String d1 (String d2 "")) <= 17)%nat ->
  next_name data (body +:+ String d1 (String d2 "") +:+ "." +:+ ext)
  = Py.Val (body +:+ String d1 (String d2 "")
            +:+ Py.zfill 2 (Py.str (10 * Py.digit_val d1 + Py.digit_val d2 + 1))
            +:+ "." +:+ ext).
Proof.
  intros Hb Hd1 Hd2 He Hlen.
  rewrite next_name_any_stem by done. rewrite take_all by done.
  by rewrite !app_assoc_s.
Qed.

End AnyStem.

(** ** What is recorded and printed (lines 137, 177-198, 221-246, 256-259) *)

(** The reasons with which the program can skip a file. *)
Definition skip_reasons (a : args) : list string :=
  ["No EXIF data found"; "No timestamp found in image EXIF";
   "Timestamp not in correct format"]
  ++ (if test a then [] else ["Failed to rename file"]).

(** [st'] has the skip entries of [st], then entries with these reasons. *)
Definition skips_added (a : args) {FS : Type} (st st' : state FS) : Prop :=
  exists added,
    skipped_files st' = skipped_files st ++ added /\
    Forall (fun e => e.2 ∈ skip_reasons a) added.

(** A line that is printed whatever the verbosity. *)
Definition quiet_line (line : string) : Prop :=
  line = EmptyString \/
  exists x, line = "Processing folder: " +:+ x \/
            line = "Duplicate file found: " +:+ x \/
            line = "Renaming file to: " +:+ x.

(** [st'] has the output of [st], then lines of these kinds. *)
Definition quiet_lines_added {FS : Type} (st st' : state FS) : Prop :=
  exists lines, stdout st' = stdout st ++ lines /\ Forall quiet_line lines.

Section Records.
Context {FS : Type} `{!Env FS}.
Implicit Types (a : args) (st : state FS).

Lemma skips_added_refl a st : skips_added a st st.
Proof. exists []. by rewrite app_nil_r. Qed.

Lemma skips_added_trans a st1 st2 st3 :
  skips_added a st1 st2 -> skips_added a st2 st3 -> skips_added a st1 st3.
Proof.
  intros (l1 & H1 & F1) (l2 & H2 & F2). exists (l1 ++ l2).
  rewrite H2, H1, app_assoc. split; [done|]. by apply Forall_app.
Qed.

Lemma skips_added_skip a st file reason :
  reason ∈ skip_reasons a -> skips_added a st (skip file reason st).
Proof. intros Hr. exists [(file, reason)]. split; [done|]. by apply Forall_singleton. Qed.

Lemma skips_added_same a st st' :
  skipped_files st' = skipped_files st -> skips_added a st st'.
Proof. intros Hs. exists []. by rewrite app_nil_r. Qed.

Lemma skipped_report a f old n c st :
  skipped_files (report a f old n c st) = skipped_files st.
Proof. unfold report. destruct (verbose a); [done|]. by destruct (negb (quiet a)). Qed.

Lemma process_file_skips a fuel root w f st seq :
  ends fst (skips_added a st) (process_file a fuel root w f st seq).
Proof.
  unfold process_file, plan_file.
  destruct (negb (hidden a) && _); [apply skips_added_refl|].
  destruct (get_exif_data _ _) as [| |d]; [apply skips_added_refl| |].
  { apply skips_added_skip. unfold skip_reasons. set_solver. }
  destruct (negb (truthy _)).
  { apply skips_added_skip. unfold skip_reasons. set_solver. }
  destruct (parse_timestamp _) as [groups|].
  2:{ apply skips_added_skip. unfold skip_reasons. set_solver. }
  destruct (Py.format _ _) as [n|e]; [|apply skips_added_refl].
  destruct (derive_deployment_name _ _) as [dn|e]; [|apply skips_added_refl].
  match goal with |- context [resolve_collision ?fu ?r ?dd ?da ?nn ?s] =>
    pose proof (resolve_collision_spec fu r dd da nn s) as Hr;
    destruct (resolve_collision fu r dd da nn s) as [[[n' c'] st1]|e st1|] end;
    [| |done].
  - destruct Hr as (_ & _ & _ & _ & Hs). cbn [commit ends rename_refuses].
    assert (skips_added a st st1) as Hst by by apply skips_added_same.
    destruct (negb (test a) && _); [exact Hst|]. cbn [ends].
    destruct (test a) eqn:Ht; cbn [negb fst].
    + eapply skips_added_trans; [exact Hst|].
      apply skips_added_same. by rewrite skipped_report.
    + destruct (rename _ _ _); cbn [fst].
      * eapply skips_added_trans; [exact Hst|].
        apply skips_added_same. by rewrite skipped_report.
      * eapply skips_added_trans; [exact Hst|].
        apply skips_added_skip. unfold skip_reasons. rewrite Ht. set_solver.
  - destruct Hr as (_ & _ & Hs). by apply skips_added_same.
Qed.

(** X9. Every entry of the list of skipped files carries one of four
    reasons ("No EXIF data found", "No timestamp found in image EXIF",
    "Timestamp not in correct format", "Failed to rename file"), and in test
    mode, where nothing is renamed, never the last one.  This holds for the
    list at the end of a run and at an exception that ends it. *)
Theorem skip_reasons_are_known a fuel fs0 :
  match main a fuel fs0 with
  | Done st => Forall (fun e => e.2 ∈ skip_reasons a) (skipped_files st)
  | Raised _ st => Forall (fun e => e.2 ∈ skip_reasons a) (skipped_files st)
  | OutOfFuel => True
  end.
Proof.
  pose proof (lift_main (skips_added a) (skips_added_refl a) (skips_added_trans a)
                (fun line st => skips_added_same a st (print line st) eq_refl)
                a fuel (process_file_skips a fuel) fs0) as H.
  destruct (main a fuel fs0) as [st|e st|]; [| |done];
    destruct H as (added & Hs & Hall); simpl in Hs; by rewrite Hs.
Qed.

Lemma quiet_lines_refl st : quiet_lines_added st st.
Proof. exists []. by rewrite app_nil_r. Qed.

Lemma quiet_lines_trans st1 st2 st3 :
  quiet_lines_added st1 st2 -> quiet_lines_added st2 st3 -> quiet_lines_added st1 st3.
Proof.
  intros (l1 & H1 & F1) (l2 & H2 & F2). exists (l1 ++ l2).
  rewrite H2, H1, app_assoc. split; [done|]. by apply Forall_app.
Qed.

Lemma quiet_lines_print line st : quiet_line line -> quiet_lines_added st (print line st).
Proof. intros Hl. exists [line]. split; [done|]. by apply Forall_singleton. Qed.

Lemma quiet_lines_same st st' : stdout st' = stdout st -> quiet_lines_added st st'.
Proof. intros Hs. exists []. by rewrite app_nil_r. Qed.

Lemma resolve_collision_quiet fuel root dn data n st :
  ends (fun x => x.2) (quiet_lines_added st) (resolve_collision fuel root dn data n st).
Proof.
  revert n st. induction fuel as [|fuel IH]; intros n st; simpl.
  - destruct (isfile _ _); [done|]. apply quiet_lines_refl.
  - destruct (isfile _ _); [|apply quiet_lines_refl].
    destruct (next_name data n) as [n1|e].
    + match goal with |- context [resolve_collision fuel root dn data n1 ?s] =>
        pose proof (IH n1 s) as Hr; destruct (resolve_collision fuel root dn data n1 s)
          as [[[n' c'] st']|e st'|] end; [| |done];
        (eapply quiet_lines_trans; [|exact Hr]);
        (eapply quiet_lines_trans; apply quiet_lines_print; right; eexists; eauto).
    + apply quiet_lines_print. right. eexists. eauto.
Qed.

Lemma process_file_quiet a fuel root w f st seq :
  quiet a = true -> verbose a = false ->
  ends fst (quiet_lines_added st) (process_file a fuel root w f st seq).
Proof.
  intros Hq Hv. unfold process_file, plan_file.
  destruct (negb (hidden a) && _); [apply quiet_lines_refl|].
  destruct (get_exif_data _ _) as [| |d]; [apply quiet_lines_refl| |].
  { by apply quiet_lines_same. }
  destruct (negb (truthy _)); [by apply quiet_lines_same|].
  destruct (parse_timestamp _) as [groups|]; [|by apply quiet_lines_same].
  destruct (Py.format _ _) as [n|e]; [|apply quiet_lines_refl].
  destruct (derive_deployment_name _ _) as [dn|e]; [|apply quiet_lines_refl].
  match goal with |- context [resolve_collision ?fu ?r ?dd ?da ?nn ?s] =>
    pose proof (resolve_collision_quiet fu r dd da nn s) as Hr;
    destruct (resolve_collision fu r dd da nn s) as [[[n' c'] st1]|e st1|] end;
    [| |done].
  - cbn [commit ends fst rename_refuses] in *. unfold report. rewrite Hv, Hq. cbn [negb].
    assert (quiet_lines_added st st1) as Hst.
    { eapply quiet_lines_trans; [|exact Hr]. by apply quiet_lines_same. }
    destruct (negb (test a) && _); [exact Hst|]. cbn [ends fst].
    destruct (test a); cbn [negb]; [done|].
    destruct (rename _ _ _); cbn [fst];
      (eapply quiet_lines_trans; [exact Hst|]); by apply quiet_lines_same.
  - cbn [ends] in *. eapply quiet_lines_trans; [|exact Hr]. by apply quiet_lines_same.
Qed.

Lemma process_dir_quiet a fuel l st :
  quiet a = true -> verbose a = false ->
  ends id (quiet_lines_added st) (process_dir a fuel l st).
Proof.
  intros Hq Hv. unfold process_dir.
  match goal with |- context [process_files a fuel ?r ?w ?fl ?s ?q] =>
    pose proof (lift_files quiet_lines_added quiet_lines_refl quiet_lines_trans a fuel
                  (fun root0 w0 f0 st0 seq0 =>
                     process_file_quiet a fuel root0 w0 f0 st0 seq0 Hq Hv)
                  r w fl s q) as Hf;
    destruct (process_files a fuel r w fl s q) as [[st1 seq1]|e st1|] end;
    [| |done]; cbn [ends fst id] in *.
  - eapply quiet_lines_trans; [|apply quiet_lines_print; by left].
    eapply quiet_lines_trans; [|exact Hf].
    apply quiet_lines_print. right. eexists. eauto.
  - eapply quiet_lines_trans; [|exact Hf].
    apply quiet_lines_print. right. eexists. eauto.
Qed.

Lemma walk_loop_quiet a fuel top i n st :
  quiet a = true -> verbose a = false ->
  ends id (quiet_lines_added st) (walk_loop a fuel top i n st).
Proof.
  intros Hq Hv. revert i st. induction n as [|n IH]; intros i st; simpl.
  - apply quiet_lines_refl.
  - destruct (walk (fs st) top !! i) as [l|]; [|apply quiet_lines_refl].
    destruct (negb (hidden a) && _); [apply IH|].
    pose proof (process_dir_quiet a fuel l st Hq Hv) as Hd.
    destruct (process_dir a fuel l st) as [st1|e st1|]; [|done..].
    destruct (negb (recursive a)); [done|].
    pose proof (IH (S i) st1) as Hr.
    destruct (walk_loop a fuel top (S i) n st1) as [st2|e st2|]; [| |done];
      cbn [ends id] in *; by eapply quiet_lines_trans.
Qed.

Lemma input_loop_quiet a fuel paths st :
  quiet a = true -> verbose a = false ->
  ends id (quiet_lines_added st) (input_loop a fuel paths st).
Proof.
  intros Hq Hv. revert st. induction paths as [|p paths IH]; intros st; simpl.
  - apply quiet_lines_refl.
  - pose proof (walk_loop_quiet a fuel p 0 (length (walk (fs st) p)) st Hq Hv) as Hw.
    destruct (walk_loop a fuel p 0 (length (walk (fs st) p)) st) as [st1|e st1|];
      [|done..].
    pose proof (IH st1) as Hr.
    destruct (input_loop a fuel paths st1) as [st2|e st2|]; [| |done];
      cbn [ends id] in *; by eapply quiet_lines_trans.
Qed.

(** X10. With [-q] the program prints no progress line and no list of
    skipped files: every line it prints is the line "Processing folder: ..."
    of a directory, the empty line after it, or one of the lines "Duplicate
    file found: ..." and "Renaming file to: ..." of the collision loop,
    which [-q] does not silence. *)
Theorem quiet_output a fuel fs0 :
  quiet a = true -> verbose a = false ->
  match main a fuel fs0 with
  | Done st => Forall quiet_line (stdout st)
  | Raised _ st => Forall quiet_line (stdout st)
  | OutOfFuel => True
  end.
Proof.
  intros Hq Hv.
  pose proof (input_loop_quiet a fuel (map abspath (input a))
                (State fs0 (arg_deployment_name a) [] []) Hq Hv) as H.
  unfold main.
  destruct (input_loop _ _ _ _) as [st|e st|]; [| |done];
    destruct H as (lines & Hs & Hall); simpl in Hs.
  - unfold print_skipped. rewrite Hq. cbn [negb].
    destruct (skipped_files st); by rewrite Hs.
  - by rewrite Hs.
Qed.

End Records.

(** ** Input paths without directories (lines 150-151) *)

Section EmptyWalk.
Context {FS : Type} `{!Env FS}.

Lemma input_loop_empty_walks (a : args) fuel paths (st : state FS) :
  Forall (fun p => walk (fs st) p = []) paths ->
  input_loop a fuel paths st = Done st.
Proof.
  induction paths as [|p paths IH]; intros Hall; simpl; [done|].
  rewrite (Forall_inv Hall). simpl. apply IH. by apply Forall_inv_tail in Hall.
Qed.

(** X11. When [os.walk] yields nothing for every input path, as it does for
    a path to a file and for a path that does not exist, the run does
    nothing at all: no file is renamed, nothing is printed, nothing is
    recorded as skipped, and no error is raised.  A file given as input is
    not renamed. *)
Theorem inputs_without_directories_do_nothing (a : args) fuel (fs0 : FS) :
  Forall (fun p => walk fs0 (abspath p) = []) (input a) ->
  main a fuel fs0 = Done (State fs0 (arg_deployment_name a) [] []).
Proof.
  intros Hall. unfold main. rewrite input_loop_empty_walks; [done|].
  by apply Forall_fmap.
Qed.

End EmptyWalk.

(** ** From the EXIF block to the planned name (lines 166-231) *)

Section HappyPath.
Context {FS : Type} `{!Env FS}.

(** X12. The whole path for one photograph, with the default template and
    a deployment name: when the last [DateTimeOriginal] item of its EXIF
    block is a well-formed timestamp [Y:M:D h:m:s] (white space around it
    aside) and no file is at [dn_Y-M-D_h-m-s.FORMAT] in its directory, that
    is the name planned for it; one value of the counter is used, and
    nothing is printed or skipped before the rename. *)
Theorem well_formed_photo_is_planned (a : args) fuel root w f (st : state FS) seq
    img items raw Y M D h m s dn :
  hidden_skip a f = false ->
  timestamp_format a = default_timestamp_format ->
  image_open (fs st) (Py.path_join root f) = Some img ->
  img_getexif img = Some items ->
  last (tagged "DateTimeOriginal" items) = Some raw ->
  raw <> EmptyString ->
  Py.strip raw = Y +:+ ":" +:+ M +:+ ":" +:+ D +:+ " " +:+ h +:+ ":" +:+ m +:+ ":" +:+ s ->
  digits 2 4 Y -> digits 1 2 M -> digits 1 2 D ->
  digits 1 2 h -> digits 1 2 m -> digits 1 2 s ->
  deployment_name st = Some dn -> dn <> EmptyString ->
  isfile (fs st)
    (complete_name root dn
       (Y +:+ "-" +:+ M +:+ "-" +:+ D +:+ "_" +:+ h +:+ "-" +:+ m +:+ "-" +:+ s
        +:+ "." +:+ img_format img)) = false ->
  plan_file a fuel root w f st seq
  = Done (Planned (Py.path_join root f)
            (Y +:+ "-" +:+ M +:+ "-" +:+ D +:+ "_" +:+ h +:+ "-" +:+ m +:+ "-" +:+ s
             +:+ "." +:+ img_format img)
            (complete_name root dn
               (Y +:+ "-" +:+ M +:+ "-" +:+ D +:+ "_" +:+ h +:+ "-" +:+ m +:+ "-" +:+ s
                +:+ "." +:+ img_format img))
            st (seq + 1)).
Proof.
  intros Hh Htf Ho Hi Hlast Hraw Hstrip HY HM HD Hhh Hm Hs Hdn Hne Hfree.
  set (d := <["format" := img_format img]> (exif_dict items)).
  assert (select_timestamp d = Some raw) as Hsel.
  { unfold select_timestamp, py_or, d.
    rewrite lookup_insert_ne by done. rewrite exif_dict_lookup, Hlast.
    simpl. apply String.eqb_neq in Hraw. by rewrite Hraw. }
  rewrite (plan_file_named _ _ _ _ _ _ _ d (timestamp_groups Y M D h m s)); try done.
  - assert (d !! "format" = Some (img_format img)) as Hfmt
      by (unfold d; by rewrite lookup_insert_eq).
    rewrite Htf, format_default_template, Hfmt. simpl (default _ _).
    rewrite Hdn.
    rewrite derive_deployment_name_held
      by (simpl; by apply negb_true_iff, String.eqb_neq).
    rewrite resolve_collision_free by exact Hfree.
    do 2 f_equal. destruct st. simpl in *. by subst.
  - by apply get_exif_data_opened.
  - rewrite Hsel. simpl. apply negb_true_iff. by apply String.eqb_neq.
  - rewrite Hsel. simpl. by apply parse_timestamp_exact.
Qed.

End HappyPath.

(** ** Instances of the further properties *)

(** A photograph that an earlier run, with the deployment name [dep], has
    named after its timestamp. *)
Definition fs_renamed : simple_fs :=
  SimpleFS (<["/r/dep_2023-04-05_06-07-08.JPEG" := photo "2023:04:05 06:07:08"]> ∅) []
           (<["/r" := Tree "r" ["dep_2023-04-05_06-07-08.JPEG"] []]> ∅).

Definition args_quiet : args :=
  Args 1 false false false (Some "dep") default_timestamp_format false true ["/r"].

Definition args_file_input : args :=
  Args 1 false false false (Some "dep") default_timestamp_format false false ["/r/a.jpg"].

Lemma exif_format_witness :
  exists img, image_open fs_shallow "/r/a.jpg" = Some img
              /\ shallow_exif !! "format" = Some (img_format img)
              /\ default EmptyString (shallow_exif !! "format") = img_format img.
Proof.
  apply (exif_format_is_image_format fs_shallow "/r/a.jpg" shallow_exif).
  vm_compute. reflexivity.
Defined.

Lemma exif_lookup_witness :
  exists d, get_exif_data fs_empty_original "/r/a.jpg" = ExifData d
            /\ d !! "DateTimeDigitized"
               = last (@tagged simple_fs _ "DateTimeDigitized"
                         [(36867, EmptyString); (36868, "2023:04:05 06:07:08")])
            /\ (d !! "DateTimeDigitized" = None <->
                forall k v, (k, v) ∈ [(36867, EmptyString); (36868, "2023:04:05 06:07:08")] ->
                            @TAGS simple_fs _ !! k <> Some "DateTimeDigitized").
Proof.
  apply (exif_lookup_is_last_tagged fs_empty_original "/r/a.jpg"
           (Image (Some [(36867, EmptyString); (36868, "2023:04:05 06:07:08")]) "JPEG")).
  - reflexivity.
  - reflexivity.
  - discriminate.
Defined.

Lemma well_formed_timestamp_witness :
  parse_timestamp "  2023:04:05 06:07:08 "
  = Some (timestamp_groups "2023" "04" "05" "06" "07" "08").
Proof.
  apply well_formed_timestamp_groups;
    [reflexivity | split; [reflexivity | simpl; lia] ..].
Defined.

Lemma rerun_witness :
  exists st',
    plan_file (args_same_second false) 1 "/r" 1 "dep_2023-04-05_06-07-08.JPEG"
      (State fs_renamed (Some "dep") [] []) 1
    = Done (Planned (Py.path_join "/r" "dep_2023-04-05_06-07-08.JPEG")
              (sec_name "2023-04-05_06-07-" "JPEG" (8 + 1))
              (complete_name "/r" "dep" (sec_name "2023-04-05_06-07-" "JPEG" (8 + 1)))
              st' (1 + 1))
    /\ complete_name "/r" "dep" (sec_name "2023-04-05_06-07-" "JPEG" (8 + 1))
       <> Py.path_join "/r" "dep_2023-04-05_06-07-08.JPEG".
Proof.
  apply (rerun_renames_again (args_same_second false) 1 "/r" 1
           "dep_2023-04-05_06-07-08.JPEG" (State fs_renamed (Some "dep") [] []) 1
           shallow_exif shallow_groups "2023-04-05_06-07-" "JPEG" 8 "dep").
  - reflexivity.
  - vm_compute. reflexivity.
  - reflexivity.
  - vm_compute. reflexivity.
  - vm_compute. reflexivity.
  - vm_compute. reflexivity.
  - reflexivity.
  - reflexivity.
  - lia.
  - reflexivity.
  - discriminate.
  - reflexivity.
  - reflexivity.
  - reflexivity.
  - lia.
Defined.

Lemma derived_name_witness :
  derive_deployment_name None
    (Py.path_join (str_join "/" ([""; "data"] ++ ["siteA"; "cam1"; "2023"; "raw"])) "x.JPEG")
  = Py.Val "siteA".
Proof.
  apply (derived_name_is_third_directory_up None [""; "data"] "siteA" "cam1" "2023" "raw").
  - reflexivity.
  - repeat constructor.
  - discriminate.
  - reflexivity.
Defined.

Lemma short_stem_witness :
  next_name (<["ext" := "JPEG"]> ∅) "23-04-05_06-07-08.JPEG"
  = Py.Val "23-04-05_06-07-0809.JPEG".
Proof.
  apply (short_stem_keeps_old_seconds (<["ext" := "JPEG"]> ∅) "23-04-05_06-07-" "0" "8" "JPEG").
  - reflexivity.
  - reflexivity.
  - reflexivity.
  - reflexivity.
  - simpl. lia.
Defined.

Lemma quiet_output_witness :
  match main args_quiet 10 fs_same_second with
  | Done st => Forall quiet_line (stdout st)
  | Raised _ st => Forall quiet_line (stdout st)
  | OutOfFuel => True
  end.
Proof. apply (quiet_output args_quiet 10 fs_same_second); reflexivity. Defined.

Lemma file_input_witness :
  main args_file_input 10 fs_shallow = Done (State fs_shallow (Some "dep") [] []).
Proof.
  apply (inputs_without_directories_do_nothing args_file_input 10 fs_shallow).
  repeat constructor.
Defined.

Lemma well_formed_photo_witness :
  plan_file (args_same_second true) 10 "/r" 1 "a.jpg"
    (State fs_shallow (Some "dep") [] []) 1
  = Done (Planned "/r/a.jpg" "2023-04-05_06-07-08.JPEG"
            "/r/dep_2023-04-05_06-07-08.JPEG"
            (State fs_shallow (Some "dep") [] []) 2).
Proof.
  apply (well_formed_photo_is_planned (args_same_second true) 10 "/r" 1 "a.jpg"
           (State fs_shallow (Some "dep") [] []) 1
           (Image (Some [(36867, "2023:04:05 06:07:08")]) "JPEG")
           [(36867, "2023:04:05 06:07:08")] "2023:04:05 06:07:08"
           "2023" "04" "05" "06" "07" "08" "dep");
    try reflexivity; try discriminate; split; try reflexivity; simpl; lia.
Defined.
